(** * Flight booking assistant: the rule-based agent of [ai_agent.py]

    A shallow embedding of the rule-based chat agent (intent detection,
    parameter extraction, passenger parsing and the conversation loop)
    together with the HTTP helpers of the tool servers, and the
    properties of the specification that concern them.

    Modelling conventions
    - Python [str] is [string]; the patterns of module [re] run over the
      list of characters of the text.  The characters 0 to 127 are the
      ASCII characters; the characters 128 to 255 stand for characters
      outside ASCII, and what Python's Unicode tables say of them (word
      character, decimal digit, white space, letter case) is a parameter
      of the development, [unicode].  On ASCII text everything is
      computed.
    - Python [int] is [Z]; a Python [float] is [pyfloat]: nan, an
      infinity, or a finite value given exactly.  What [float()] makes of
      a number or of a string (rounding, [OverflowError], ["nan"]) is a
      parameter, [floats]; [<] on floats is computed, and never holds of
      nan.
    - [sorted] is computed (stable insertion) when no key is nan, the
      only case in which the language fixes its result; with a nan key
      the result is the rearrangement that [floats] gives.
    - Values decoded from JSON are [json]; a Python [dict] is an
      association list, looked up by its first binding.
    - A call that can raise returns [result]; what the language oracle
      and the backend answer are inputs of each turn of the loop.  The
      oracle always answers with some text; the backend may fail.
    - Month names are the English ones of the C locale.
    - Console output is not modelled, only the look-ups it performs,
      because a missing key raises. *)

From Stdlib Require Import Bool List String Ascii Arith ZArith QArith Lia Sorted.
From Stdlib Require Import DecimalString Permutation.
Import ListNotations.

Close Scope Q_scope.
Open Scope string_scope.
Open Scope list_scope.
Open Scope nat_scope.

(** ** Characters and text *)

Module Text.

Definition chars (s : string) : list ascii := list_ascii_of_string s.
Definition str (l : list ascii) : string := string_of_list_ascii l.

Definition between (lo hi : nat) (c : ascii) : bool :=
  (lo <=? nat_of_ascii c) && (nat_of_ascii c <=? hi).

(** The ASCII characters, and the texts made of them. *)
Definition is_ascii (c : ascii) : bool :=
  match c with Ascii _ _ _ _ _ _ _ high => negb high end.

Definition ascii_text (s : string) : bool := forallb is_ascii (chars s).

(** The classes of module [re] and the letter cases on ASCII. *)
Definition ascii_digit (c : ascii) : bool := between 48 57 c.

Definition is_upper (c : ascii) : bool := between 65 90 c.
Definition is_lower (c : ascii) : bool := between 97 122 c.

Definition ascii_word (c : ascii) : bool :=
  ascii_digit c || is_upper c || is_lower c || Ascii.eqb c "_".

Definition ascii_space (c : ascii) : bool :=
  between 9 13 c || between 28 32 c.

Definition lower_char (c : ascii) : ascii :=
  if is_upper c then ascii_of_nat (nat_of_ascii c + 32) else c.

Definition upper_char (c : ascii) : ascii :=
  if is_lower c then ascii_of_nat (nat_of_ascii c - 32) else c.

(** The value of a decimal digit. *)
Inductive digit : Type :=
| Zero | One | Two | Three | Four | Five | Six | Seven | Eight | Nine.

Definition digit_to_Z (d : digit) : Z :=
  match d with
  | Zero => 0 | One => 1 | Two => 2 | Three => 3 | Four => 4
  | Five => 5 | Six => 6 | Seven => 7 | Eight => 8 | Nine => 9
  end%Z.

(** What the Unicode tables say of a character outside ASCII: a decimal
    digit ([\d], [\w], read by [int]) with its value; another
    alphanumeric character ([\w]), with the lower-case ASCII letter that
    [re.IGNORECASE] takes it for, if any (as U+0130 and U+0131 for i,
    U+017F for s, U+212A for k); white space ([\s], removed by
    [str.strip]); or none of these. *)
Inductive category : Type :=
| Decimal (value : digit)
| Alnum (like : option ascii)
| Blank
| Neither.

(** Python's Unicode tables, as far as the program consults them: the
    category of a character outside ASCII, and [str.lower], [str.upper]
    and [str.title] on a text that is not all ASCII. *)
Class unicode : Type := Unicode {
  category_of : ascii -> category;
  lower_text : string -> string;
  upper_text : string -> string;
  title_text : string -> string
}.

Section Classes.
Context {U : unicode}.

(** [\d] *)
Definition is_digit (c : ascii) : bool :=
  if is_ascii c then ascii_digit c
  else match category_of c with Decimal _ => true | _ => false end.

(** [\w] *)
Definition is_word (c : ascii) : bool :=
  if is_ascii c then ascii_word c
  else match category_of c with Decimal _ | Alnum _ => true | _ => false end.

(** [\s], and the characters removed by [str.strip()] *)
Definition is_space (c : ascii) : bool :=
  if is_ascii c then ascii_space c
  else match category_of c with Blank => true | _ => false end.

(** The lower-case ASCII letter that [re.IGNORECASE] takes [c] for. *)
Definition letter_like (c : ascii) : option ascii :=
  if is_ascii c then
    (if is_upper c || is_lower c then Some (lower_char c) else None)
  else match category_of c with
       | Alnum (Some l) => if is_lower l then Some l else None
       | _ => None
       end.

(** [str.lower()], [str.upper()] *)
Definition lower (s : string) : string :=
  if ascii_text s then str (map lower_char (chars s)) else lower_text s.

Definition upper (s : string) : string :=
  if ascii_text s then str (map upper_char (chars s)) else upper_text s.

Fixpoint lstrip (l : list ascii) : list ascii :=
  match l with
  | c :: l' => if is_space c then lstrip l' else l
  | [] => []
  end.

Definition rstrip (l : list ascii) : list ascii := rev (lstrip (rev l)).

(** [str.strip()] *)
Definition strip (s : string) : string := str (rstrip (lstrip (chars s))).

End Classes.

Fixpoint starts_with (p l : list ascii) : bool :=
  match p, l with
  | [], _ => true
  | a :: p', b :: l' => Ascii.eqb a b && starts_with p' l'
  | _ :: _, [] => false
  end.

Fixpoint occurs_in (p l : list ascii) : bool :=
  starts_with p l ||
  match l with
  | [] => false
  | _ :: l' => occurs_in p l'
  end.

(** [needle in hay] on strings *)
Definition contains (needle hay : string) : bool :=
  occurs_in (chars needle) (chars hay).

End Text.

Import Text.

(** ** Exceptions and fallible computations *)

Inductive exn : Type :=
| ConnectionError
| HTTPError
| JSONDecodeError
| TypeError
| KeyError
| ValueError
| IndexError
| AttributeError
| OverflowError.

Inductive result (A : Type) : Type :=
| Ok (a : A)
| Raise (e : exn).

Arguments Ok {A} a.
Arguments Raise {A} e.

Definition bind {A B : Type} (m : result A) (f : A -> result B) : result B :=
  match m with
  | Ok a => f a
  | Raise e => Raise e
  end.

Notation "x <- m ;; k" := (bind m (fun x => k))
  (at level 61, m at next level, right associativity).

Fixpoint mapM {A B : Type} (f : A -> result B) (l : list A) : result (list B) :=
  match l with
  | [] => Ok []
  | a :: l' => b <- f a ;; bs <- mapM f l' ;; Ok (b :: bs)
  end.

(** ** Regular expressions, matched by backtracking as module [re] does *)

Module Re.

Inductive regex : Type :=
| Eps
| Lit (c : ascii)
| Class (p : ascii -> bool)
| Bound
| Cat (r1 r2 : regex)
| Or (r1 r2 : regex)
| Maybe (r : regex)
| Repeat (p : ascii -> bool) (lo : nat) (hi : option nat)
| Group (n : nat) (r : regex).

(** A literal string. *)
Fixpoint lits (l : list ascii) : regex :=
  match l with
  | [] => Eps
  | [c] => Lit c
  | c :: l' => Cat (Lit c) (lits l')
  end.

Definition Str (s : string) : regex := lits (chars s).

(** [r | r1 | ... | rn], tried from left to right. *)
Fixpoint alts (r : regex) (rs : list regex) : regex :=
  match rs with
  | [] => r
  | r' :: rs' => Or r (alts r' rs')
  end.

Definition captures : Type := list (nat * list ascii).

(** The matcher's position: the character before it (for [\b]), the text
    still to read and the groups captured so far, latest first. *)
Record cursor : Type := Cursor {
  c_prev : option ascii;
  c_rest : list ascii;
  c_caps : captures
}.

Definition below (n : nat) (hi : option nat) : bool :=
  match hi with
  | None => true
  | Some h => n <? h
  end.

(** The text read between two positions of the same scan. *)
Definition consumed (s s' : cursor) : list ascii :=
  firstn (List.length (c_rest s) - List.length (c_rest s')) (c_rest s).

Definition capture (n : nat) (s s' : cursor) : cursor :=
  Cursor (c_prev s') (c_rest s') ((n, consumed s s') :: c_caps s').

Section Engine.
Context {U : unicode}.

Definition word_before (p : option ascii) : bool :=
  match p with Some c => is_word c | None => false end.

Definition word_after (l : list ascii) : bool :=
  match l with c :: _ => is_word c | [] => false end.

Definition at_boundary (s : cursor) : bool :=
  xorb (word_before (c_prev s)) (word_after (c_rest s)).

(** A character [c] of the pattern against a character [x] of the text;
    with [re.IGNORECASE] ([ic]) two characters that are taken for the
    same letter are equal as well.  (The patterns of the program are
    ASCII.) *)
Definition char_eq (ic : bool) (c x : ascii) : bool :=
  Ascii.eqb c x ||
  (ic && match letter_like c, letter_like x with
         | Some a, Some b => Ascii.eqb a b
         | _, _ => false
         end).

Section Matcher.

(** [re.IGNORECASE] *)
Variable ic : bool.
Variable A : Type.

(** Greedy repetition of a character class: take as many characters as
    allowed, then give them back one at a time. *)
Fixpoint greedy (p : ascii -> bool) (lo : nat) (hi : option nat)
    (k : cursor -> option A) (n : nat) (prev : option ascii)
    (caps : captures) (rest : list ascii) {struct rest} : option A :=
  let here := if lo <=? n then k (Cursor prev rest caps) else None in
  match rest with
  | x :: xs =>
      if p x && below n hi then
        match greedy p lo hi k (S n) (Some x) caps xs with
        | Some a => Some a
        | None => here
        end
      else here
  | [] => here
  end.

Fixpoint rmatch (r : regex) (k : cursor -> option A) (s : cursor)
    {struct r} : option A :=
  match r with
  | Eps => k s
  | Lit c =>
      match c_rest s with
      | x :: xs =>
          if char_eq ic c x then k (Cursor (Some x) xs (c_caps s)) else None
      | [] => None
      end
  | Class p =>
      match c_rest s with
      | x :: xs => if p x then k (Cursor (Some x) xs (c_caps s)) else None
      | [] => None
      end
  | Bound => if at_boundary s then k s else None
  | Cat r1 r2 => rmatch r1 (rmatch r2 k) s
  | Or r1 r2 =>
      match rmatch r1 k s with
      | Some a => Some a
      | None => rmatch r2 k s
      end
  | Maybe r1 =>
      match rmatch r1 k s with
      | Some a => Some a
      | None => k s
      end
  | Repeat p lo hi => greedy p lo hi k 0 (c_prev s) (c_caps s) (c_rest s)
  | Group n r1 => rmatch r1 (fun s' => k (capture n s s')) s
  end.

End Matcher.

Definition accept (s : cursor) : option captures := Some (c_caps s).

(** [re.search]: the leftmost position at which the pattern matches. *)
Fixpoint search_from (ic : bool) (r : regex) (prev : option ascii)
    (rest : list ascii) : option captures :=
  match rmatch ic captures r accept (Cursor prev rest []) with
  | Some m => Some m
  | None =>
      match rest with
      | [] => None
      | x :: xs => search_from ic r (Some x) xs
      end
  end.

Definition search (ic : bool) (r : regex) (s : string) : option captures :=
  search_from ic r None (chars s).

(** [re.match]: the pattern must match at the start of the text. *)
Definition match_ (ic : bool) (r : regex) (s : string) : option captures :=
  rmatch ic captures r accept (Cursor None (chars s) []).

End Engine.

Arguments greedy {A} p lo hi k n prev caps rest.
Arguments rmatch {U} ic {A} r k s.

Fixpoint lookup_group (m : captures) (n : nat) : option (list ascii) :=
  match m with
  | [] => None
  | (i, w) :: m' => if Nat.eqb i n then Some w else lookup_group m' n
  end.

(** [m.group(n)]; [None] when the group took no part in the match. *)
Definition group (m : captures) (n : nat) : option string :=
  option_map str (lookup_group m n).

End Re.

Import Re.
(** ** Values decoded from JSON

    [JNum] is a number with a finite value, an [int] or a [float];
    [JNaN] and [JInf] are the values of the literals [NaN], [Infinity]
    and [-Infinity], which the decoder accepts. *)

#[warnings="-register-all"]
Inductive json : Type :=
| JNull
| JBool (b : bool)
| JNum (q : Q)
| JNaN
| JInf (negative : bool)
| JStr (s : string)
| JArr (l : list json)
| JObj (m : list (string * json)).

Definition dict : Type := list (string * json).

(** [d.get(key)] *)
Fixpoint dict_get (d : dict) (key : string) : option json :=
  match d with
  | [] => None
  | (k, v) :: d' => if String.eqb k key then Some v else dict_get d' key
  end.

(** Truth value of a Python object in a condition. *)
Definition truthy (v : json) : bool :=
  match v with
  | JNull => false
  | JBool b => b
  | JNum q => negb (Qeq_bool q 0)
  | JNaN | JInf _ => true
  | JStr s => negb (String.eqb s "")
  | JArr l => match l with [] => false | _ :: _ => true end
  | JObj m => match m with [] => false | _ :: _ => true end
  end.

Definition truthy_get (d : dict) (key : string) : bool :=
  match dict_get d key with
  | Some v => truthy v
  | None => false
  end.

(** [v[key]] with a string key. *)
Definition getitem (v : json) (key : string) : result json :=
  match v with
  | JObj m =>
      match dict_get m key with
      | Some x => Ok x
      | None => Raise KeyError
      end
  | _ => Raise TypeError
  end.

(** Iteration over a value: a list yields its items, a dict its keys, a
    string its characters; nothing else can be iterated. *)
Definition py_iter (v : json) : result (list json) :=
  match v with
  | JArr l => Ok l
  | JObj m => Ok (map (fun kv => JStr (fst kv)) m)
  | JStr s => Ok (map (fun c => JStr (String c "")) (chars s))
  | _ => Raise TypeError
  end.

(** ** Calendar dates, as [datetime] has them *)

Record date : Type := Date { year : Z; month : Z; day : Z }.

Section Calendar.
Context {U : unicode}.
Open Scope Z_scope.

Definition is_leap (y : Z) : bool :=
  (y mod 4 =? 0) && (negb (y mod 100 =? 0) || (y mod 400 =? 0)).

Definition days_in_month (y m : Z) : Z :=
  if m =? 2 then (if is_leap y then 29 else 28)
  else if (m =? 4) || (m =? 6) || (m =? 9) || (m =? 11) then 30
  else 31.

Definition valid_date (y m d : Z) : bool :=
  (1 <=? y) && (y <=? 9999) && (1 <=? m) && (m <=? 12) &&
  (1 <=? d) && (d <=? days_in_month y m).

(** [datetime(y, m, d).date()]: [ValueError] when there is no such day. *)
Definition datetime (y m d : Z) : result date :=
  if valid_date y m d then Ok (Date y m d) else Raise ValueError.

(** [a < b] on dates *)
Definition date_lt (a b : date) : bool :=
  (year a <? year b) ||
  ((year a =? year b) &&
   ((month a <? month b) || ((month a =? month b) && (day a <? day b)))).

Definition decimal (z : Z) : string :=
  NilZero.string_of_uint (N.to_uint (Z.to_N z)).

Definition pad2 (z : Z) : string :=
  if z <? 10 then "0" ++ decimal z else decimal z.

(** [strftime("%Y-%m-%d")]; the year is printed without padding. *)
Definition strftime_ymd (d : date) : string :=
  decimal (year d) ++ "-" ++ pad2 (month d) ++ "-" ++ pad2 (day d).

(** The value [int] gives a decimal digit. *)
Definition digit_value (c : ascii) : Z :=
  if is_ascii c then Z.of_nat (nat_of_ascii c - 48)
  else match category_of c with Decimal d => digit_to_Z d | _ => 0 end.

Definition digits_value (l : list ascii) : Z :=
  fold_left (fun acc c => 10 * acc + digit_value c) l 0.

(** [sys.int_info.default_max_str_digits] *)
Definition max_str_digits : nat := 4300.

(** [int(s)] on the text captured by a [\d] group: a non-empty run of
    decimal digits, of no more than [max_str_digits] characters.
    (Signs, blanks and underscores never reach it.) *)
Definition py_int (s : string) : result Z :=
  match chars s with
  | [] => Raise ValueError
  | l =>
      if forallb is_digit l && (List.length l <=? max_str_digits)%nat
      then Ok (digits_value l) else Raise ValueError
  end.

End Calendar.

Section Agent.
Context {U : unicode}.

Definition is_alpha (c : ascii) : bool := is_upper c || is_lower c.

Fixpoint title_from (inside : bool) (l : list ascii) : list ascii :=
  match l with
  | [] => []
  | c :: l' =>
      (if inside then lower_char c else upper_char c) :: title_from (is_alpha c) l'
  end.

(** [str.title()] *)
Definition title (s : string) : string :=
  if ascii_text s then str (title_from false (chars s)) else title_text s.

Definition month_names : list (string * Z) :=
  [("jan", 1); ("feb", 2); ("mar", 3); ("apr", 4); ("may", 5); ("jun", 6);
   ("jul", 7); ("aug", 8); ("sep", 9); ("oct", 10); ("nov", 11); ("dec", 12)]%Z.

Fixpoint assoc {B : Type} (l : list (string * B)) (key : string) : option B :=
  match l with
  | [] => None
  | (k, v) :: l' => if String.eqb k key then Some v else assoc l' key
  end.

(** [datetime.strptime(s, "%b").month]: the abbreviated English month
    names, read without regard to case. *)
Definition strptime_b (s : string) : result Z :=
  match assoc month_names (lower s) with
  | Some m => Ok m
  | None => Raise ValueError
  end.

(** ** Intent detection ([detect_intent]) *)

(** [\b(book|reserve)\b] *)
Definition intent_re : regex :=
  Cat Bound (Cat (Group 1 (alts (Str "book") [Str "reserve"])) Bound).

Definition found (m : option captures) : bool :=
  match m with Some _ => true | None => false end.

(** [reply] is the content the language oracle answers with when it is
    asked to classify the message. *)
Definition detect_intent (reply : string) (user_input : string) : string :=
  let text := lower user_input in
  if found (Re.search false intent_re text) then "BOOK_FLIGHT"
  else strip reply.

(** ** Parameter extraction ([extract_search_params]) *)

Definition city_map : list (string * string) :=
  [("mumbai", "BOM"); ("bombay", "BOM"); ("delhi", "DEL");
   ("bengaluru", "BLR"); ("bangalore", "BLR"); ("kolkata", "CCU");
   ("ranchi", "IXR")].

(** The loop over [city_map]: a later city overrides an earlier one. *)
Definition scan_cities (text : string) : option string * option string :=
  fold_left
    (fun (acc : option string * option string) (entry : string * string) =>
       let (city, code) := entry in
       let (origin, destination) := acc in
       (if contains ("from " ++ city) text then Some code else origin,
        if contains ("to " ++ city) text then Some code else destination))
    city_map (None, None).

(** [(\d{1,2})(st|nd|rd|th)?\s+(jan|feb|...|dec)] *)
Definition date_re : regex :=
  Cat (Group 1 (Repeat is_digit 1 (Some 2)))
    (Cat (Maybe (Group 2 (alts (Str "st") [Str "nd"; Str "rd"; Str "th"])))
       (Cat (Repeat is_space 1 None)
          (Group 3
             (alts (Str "jan")
                [Str "feb"; Str "mar"; Str "apr"; Str "may"; Str "jun";
                 Str "jul"; Str "aug"; Str "sep"; Str "oct"; Str "nov";
                 Str "dec"])))).

(** The oracle attempt inside [try ... except Exception: pass].  [reply]
    is the outcome of [json.loads(llm.invoke(llm_prompt).content)], [None]
    when either call raises; [parsed.get] on anything but a dict raises
    as well, and every exception leads to the fallback. *)
Definition llm_attempt (reply : option json) : option dict :=
  match reply with
  | Some (JObj parsed) =>
      if truthy_get parsed "origin" && truthy_get parsed "destination"
         && truthy_get parsed "departDate"
      then Some parsed else None
  | _ => None
  end.

Definition group_text (m : captures) (n : nat) : result string :=
  match group m n with
  | Some g => Ok g
  | None => Raise TypeError
  end.

Definition search_params (origin destination departDate : string) : dict :=
  [("origin", JStr origin); ("destination", JStr destination);
   ("departDate", JStr departDate); ("tripType", JStr "ONEWAY");
   ("adults", JNum 1); ("cabin", JStr "ECONOMY")].

(** The year of the next occurrence of a day and month. *)
Definition resolve_year (today candidate : date) : Z :=
  if date_lt candidate today then (year today + 1)%Z else year today.

(** [int(date_match.group(1))] and
    [datetime.strptime(date_match.group(3).title(), "%b").month] *)
Definition day_month (m : captures) : result (Z * Z) :=
  g1 <- group_text m 1 ;;
  dd <- py_int g1 ;;
  g3 <- group_text m 3 ;;
  mm <- strptime_b (title g3) ;;
  Ok (dd, mm).

(** The regex fallback, from [city_map] to the end of the function. *)
Definition regex_fallback (today : date) (user_input : string) : result dict :=
  let text := lower user_input in
  let (origin, destination) := scan_cities text in
  let date_match := Re.search false date_re text in
  match origin, destination, date_match with
  | Some o, Some d, Some m =>
      dm <- day_month m ;;
      let (dd, mm) := dm in
      candidate <- datetime (year today) mm dd ;;
      final <- datetime (resolve_year today candidate) mm dd ;;
      Ok (search_params o d (strftime_ymd final))
  | _, _, _ => Ok []
  end.

(** [today] is [date.today()]. *)
Definition extract_search_params (today : date) (reply : option json)
    (user_input : string) : result dict :=
  match llm_attempt reply with
  | Some parsed => Ok parsed
  | None => regex_fallback today user_input
  end.

(** ** Passenger line ([parse_passenger_details]) *)

Record passenger : Type := Passenger {
  firstName : string;
  lastName : string;
  dob : string;
  travellerClass : string
}.

Definition spaces : regex := Repeat is_space 1 None.

(** [(\w+)\s+(\w+)\s+(\d{4}-\d{2}-\d{2})\s+(ECONOMY|BUSINESS|FIRST)] *)
Definition passenger_re : regex :=
  Cat (Group 1 (Repeat is_word 1 None))
    (Cat spaces
       (Cat (Group 2 (Repeat is_word 1 None))
          (Cat spaces
             (Cat (Group 3
                     (Cat (Repeat is_digit 4 (Some 4))
                        (Cat (Lit "-")
                           (Cat (Repeat is_digit 2 (Some 2))
                              (Cat (Lit "-") (Repeat is_digit 2 (Some 2)))))))
                (Cat spaces
                   (Group 4
                      (alts (Str "ECONOMY") [Str "BUSINESS"; Str "FIRST"]))))))).

(** [re.match(..., text.strip(), re.IGNORECASE)]; the four groups take
    part in every match of this pattern. *)
Definition parse_passenger_details (text : string) : option passenger :=
  match Re.match_ true passenger_re (strip text) with
  | None => None
  | Some m =>
      match group m 1, group m 2, group m 3, group m 4 with
      | Some g1, Some g2, Some g3, Some g4 =>
          Some (Passenger g1 g2 g3 (upper g4))
      | _, _, _, _ => None
      end
  end.

End Agent.

(** ** The backend gateway *)

(** What one HTTP request to the tool server or to the backend can do:
    the connection fails, or a response arrives with a status code and a
    body that may or may not be JSON.  [msg] is the text of the exception
    that [requests] raises for it, if it raises one. *)
Inductive http_outcome : Type :=
| NoConnection (msg : string)
| Response (status : Z) (body : option json) (msg : string).

(** [requests.post(...).json()], the whole body of [search_flights] and
    [create_oneway_booking] in [ai_agent.py] and of [post] in [server.py]:
    no status check and no handler. *)
Definition post_json (o : http_outcome) : result json :=
  match o with
  | NoConnection _ => Raise ConnectionError
  | Response _ None _ => Raise JSONDecodeError
  | Response _ (Some v) _ => Ok v
  end.

Definition search_flights (o : http_outcome) : result json := post_json o.
Definition create_oneway_booking (o : http_outcome) : result json := post_json o.
Definition post (o : http_outcome) : result json := post_json o.

Definition error_payload (msg : string) : json := JObj [("error", JStr msg)].

(** [post_request] of [server_mcp.py]: [raise_for_status], and every
    [RequestException] turned into an [{"error": ...}] object. *)
Definition post_request (o : http_outcome) : result json :=
  match o with
  | NoConnection msg => Ok (error_payload msg)
  | Response status body msg =>
      if ((400 <=? status) && (status <? 600))%Z then Ok (error_payload msg)
      else match body with
           | Some v => Ok v
           | None => Ok (error_payload msg)
           end
  end.

(** ** Floats *)

(** A Python [float]: nan, an infinity, or a finite value. *)
Inductive pyfloat : Type :=
| NaN
| Inf (negative : bool)
| Finite (q : Q).

Definition is_nan (x : pyfloat) : bool :=
  match x with NaN => true | _ => false end.

(** [x < y]: false as soon as one side is nan. *)
Definition flt (x y : pyfloat) : bool :=
  match x, y with
  | Finite a, Finite b => negb (Qle_bool b a)
  | Inf true, Finite _ => true
  | Inf true, Inf false => true
  | Finite _, Inf false => true
  | _, _ => false
  end.

(** [x <= y] *)
Definition fle (x y : pyfloat) : bool :=
  negb (is_nan x) && negb (is_nan y) && negb (flt y x).

Definition nan_free (l : list (pyfloat * dict)) : bool :=
  forallb (fun x => negb (is_nan (fst x))) l.

(** What the development leaves to the Python runtime: [float(n)] for a
    number ([None]: [OverflowError], an [int] beyond the range of
    floats), [float(s)] for a string ([None]: [ValueError]), and the
    order in which [sorted] leaves items when one of the keys is nan,
    of which only this is sure: it is a rearrangement of the items. *)
Class floats : Type := Floats {
  float_of_number : Q -> option pyfloat;
  float_of_string : string -> option pyfloat;
  sorted_unordered : list (pyfloat * dict) -> list (pyfloat * dict);
  sorted_unordered_perm : forall l, Permutation (sorted_unordered l) l
}.

(** ** The conversation loop *)

Inductive conv_state : Type :=
| IDLE
| SEARCH_DONE
| AWAITING_PASSENGER_DETAILS.

(** The three module-level variables of [ai_agent.py]. *)
Record session : Type := Session {
  conversation_state : conv_state;
  last_flights : list dict;
  selected_flight : option dict
}.

Definition initial_session : session := Session IDLE [] None.

(** One pass through the body of [while True]: the line typed by the
    user and everything the outside world answers during that pass:
    the date of the day, the content of the oracle's reply to the
    classification prompt, the outcome of decoding its reply to the
    extraction prompt, and what the two requests to the tool server do.
    The reply of the chat prompt is only printed. *)
Record turn : Type := Turn {
  user_input : string;
  today : date;
  intent_reply : string;
  extract_reply : option json;
  search_response : http_outcome;
  booking_response : http_outcome
}.

Inductive outcome : Type :=
| Continue (s : session)
| Crash (e : exn)
| Stop.

Definition run {A : Type} (m : result A) (k : A -> outcome) : outcome :=
  match m with
  | Ok a => k a
  | Raise e => Crash e
  end.

Notation "x <~ m ;; k" := (run m (fun x => k))
  (at level 61, m at next level, right associativity).

Section Loop.
Context {U : unicode} {F : floats}.

Definition require_keys (d : dict) (keys : list string) : result unit :=
  _ <- mapM (fun key => getitem (JObj d) key) keys ;; Ok tt.

(** [\b(book option|book cheapest|book\s+\d+)\b] *)
Definition book_select_re : regex :=
  Cat Bound
    (Cat (Group 1
            (alts (Str "book option")
               [Str "book cheapest";
                Cat (Str "book") (Cat spaces (Repeat is_digit 1 None))]))
       Bound).

(** [option\s+(\d+)] *)
Definition option_re : regex :=
  Cat (Str "option") (Cat spaces (Group 1 (Repeat is_digit 1 None))).

(** [\b(no|don't|do not|not now|cancel|exit|stop)\b] *)
Definition decline_re : regex :=
  Cat Bound
    (Cat (Group 1
            (alts (Str "no")
               [Str "don't"; Str "do not"; Str "not now"; Str "cancel";
                Str "exit"; Str "stop"]))
       Bound).

(** [l[i]] with Python's treatment of negative indices. *)
Definition py_index {A : Type} (l : list A) (i : Z) : result A :=
  let n := Z.of_nat (List.length l) in
  let j := if (i <? 0)%Z then (i + n)%Z else i in
  if ((0 <=? j) && (j <? n))%Z then
    match nth_error l (Z.to_nat j) with
    | Some a => Ok a
    | None => Raise IndexError
    end
  else Raise IndexError.

(** [float(v)] *)
Definition py_float (v : json) : result pyfloat :=
  match v with
  | JNum q =>
      match float_of_number q with
      | Some x => Ok x
      | None => Raise OverflowError
      end
  | JNaN => Ok NaN
  | JInf negative => Ok (Inf negative)
  | JBool b => Ok (Finite (if b then 1%Q else 0%Q))
  | JStr s =>
      match float_of_string s with
      | Some x => Ok x
      | None => Raise ValueError
      end
  | _ => Raise TypeError
  end.

(** [float(f["price"])] *)
Definition price_of (f : json) : result pyfloat :=
  v <- getitem f "price" ;; py_float v.

(** The sort key of an item, and the item as the dict it has to be for
    the key to exist. *)
Definition keyed (f : json) : result (pyfloat * dict) :=
  x <- price_of f ;;
  match f with
  | JObj d => Ok (x, d)
  | _ => Raise TypeError
  end.

(** [x] goes in front of the first item that is not below it. *)
Fixpoint insert_by_key (x : pyfloat * dict) (l : list (pyfloat * dict))
    : list (pyfloat * dict) :=
  match l with
  | [] => [x]
  | y :: l' =>
      if flt (fst y) (fst x) then y :: insert_by_key x l' else x :: l
  end.

(** [sorted(..., key=...)]: stable and ascending when the keys can be
    ordered. *)
Definition sorted_by_key (l : list (pyfloat * dict)) : list (pyfloat * dict) :=
  if nan_free l then fold_right insert_by_key [] l else sorted_unordered l.

(** [sorted(flights, key=lambda f: float(f["price"]))[:limit]], [limit=7] *)
Definition get_cheapest_flights (flights : json) : result (list dict) :=
  items <- py_iter flights ;;
  ks <- mapM keyed items ;;
  Ok (firstn 7 (map snd (sorted_by_key ks))).

Definition offer_line_keys : list string :=
  ["origin"; "destination"; "price"; "currency"; "offerId"].

Definition selected_line_keys : list string :=
  ["origin"; "destination"; "price"; "currency"].

(** [response.get("data") if isinstance(response, dict) else response] *)
Definition flights_in (response : json) : json :=
  match response with
  | JObj m => match dict_get m "data" with Some v => v | None => JNull end
  | _ => response
  end.

(** The SEARCH branch. *)
Definition search_branch (t : turn) (s : session) : outcome :=
  params <~ extract_search_params (today t) (extract_reply t) (user_input t) ;;
  if negb (truthy (JObj params)) then Continue s
  else
    response <~ search_flights (search_response t) ;;
    let flights := flights_in response in
    if negb (truthy flights) then Continue s
    else
      cheapest <~ get_cheapest_flights flights ;;
      _ <~ mapM (fun f => require_keys f offer_line_keys) cheapest ;;
      Continue (Session SEARCH_DONE cheapest (selected_flight s)).

(** The BOOK SELECT branch. *)
Definition book_select_branch (text : string) (s : session) : outcome :=
  index <~
    match Re.search false option_re text with
    | Some m => g <- group_text m 1 ;; n <- py_int g ;; Ok (n - 1)%Z
    | None => Ok 0%Z
    end ;;
  chosen <~ py_index (last_flights s) index ;;
  _ <~ require_keys chosen selected_line_keys ;;
  Continue (Session AWAITING_PASSENGER_DETAILS (last_flights s) (Some chosen)).

Definition passenger_json (p : passenger) : json :=
  JObj [("firstName", JStr (firstName p)); ("lastName", JStr (lastName p));
        ("dob", JStr (dob p)); ("travellerClass", JStr (travellerClass p))].

Definition booking_payload (sel : option dict) (p : passenger) : result dict :=
  match sel with
  | None => Raise TypeError
  | Some f =>
      offer <- getitem (JObj f) "offerId" ;;
      depart <- getitem (JObj f) "departDate" ;;
      Ok [("userId", JNum 1); ("offerId", offer); ("tripType", JStr "ONEWAY");
          ("departDate", depart); ("paymentMethod", JStr "CARD");
          ("passengers", JArr [passenger_json p])]
  end.

(** [result.get("bookingReference")]; only a dict has [get]. *)
Definition booking_reference (res : json) : result (option json) :=
  match res with
  | JObj m => Ok (dict_get m "bookingReference")
  | _ => Raise AttributeError
  end.

(** The PASSENGER + BOOK branch; both arms of the test on the booking
    reference only print, and the reset follows them. *)
Definition passenger_branch (t : turn) (s : session) : outcome :=
  match parse_passenger_details (user_input t) with
  | None => Continue s
  | Some p =>
      _ <~ booking_payload (selected_flight s) p ;;
      res <~ create_oneway_booking (booking_response t) ;;
      _ <~ booking_reference res ;;
      Continue (Session IDLE [] None)
  end.

Definition is_exit (text : string) : bool :=
  String.eqb text "exit" || String.eqb text "quit".

Definition in_state (c : conv_state) (s : session) : bool :=
  match c, conversation_state s with
  | IDLE, IDLE => true
  | SEARCH_DONE, SEARCH_DONE => true
  | AWAITING_PASSENGER_DETAILS, AWAITING_PASSENGER_DETAILS => true
  | _, _ => false
  end.

(** The body of the main loop. *)
Definition step (t : turn) (s : session) : outcome :=
  let text := lower (user_input t) in
  if is_exit text then Stop
  else
    let intent := detect_intent (intent_reply t) (user_input t) in
    if String.eqb intent "SEARCH_FLIGHTS" && in_state IDLE s then
      search_branch t s
    else if in_state SEARCH_DONE s
            && found (Re.search false book_select_re text) then
      book_select_branch text s
    else if in_state SEARCH_DONE s
            && found (Re.search false decline_re text) then
      Continue (Session IDLE [] None)
    else if in_state AWAITING_PASSENGER_DETAILS s then
      passenger_branch t s
    else Continue s.

(** The sessions the loop can be in, from the start of the program. *)
Inductive reachable : session -> Prop :=
| reach_init : reachable initial_session
| reach_step (s : session) (t : turn) (s' : session) :
    reachable s -> step t s = Continue s' -> reachable s'.

End Loop.

(** Every character, for properties checked by enumeration. *)
Definition all_ascii : list ascii := map ascii_of_nat (seq 0 256).

(** ** What a pattern may match

    The matcher above is a program; [steps] says, without any search
    order, which positions a pattern can lead to from a given one. *)

Section Patterns.
Context {U : unicode}.

(** The character before the position reached by reading [w]. *)
Fixpoint prev_after (prev : option ascii) (w : list ascii) : option ascii :=
  match w with
  | [] => prev
  | c :: w' => prev_after (Some c) w'
  end.

(** [n] respects the upper bound of a repetition. *)
Definition within (n : nat) (hi : option nat) : Prop :=
  match hi with
  | None => True
  | Some h => n <= h
  end.

(** The pattern [r] can lead from position [s] to position [s']. *)
Fixpoint steps (ic : bool) (r : regex) (s s' : cursor) : Prop :=
  match r with
  | Eps => s' = s
  | Lit c =>
      exists x, c_rest s = x :: c_rest s' /\ char_eq ic c x = true /\
                c_prev s' = Some x /\ c_caps s' = c_caps s
  | Class p =>
      exists x, c_rest s = x :: c_rest s' /\ p x = true /\
                c_prev s' = Some x /\ c_caps s' = c_caps s
  | Bound => at_boundary s = true /\ s' = s
  | Cat r1 r2 => exists s1, steps ic r1 s s1 /\ steps ic r2 s1 s'
  | Or r1 r2 => steps ic r1 s s' \/ steps ic r2 s s'
  | Maybe r1 => steps ic r1 s s' \/ s' = s
  | Repeat p lo hi =>
      exists w, c_rest s = w ++ c_rest s' /\ forallb p w = true /\
                lo <= List.length w /\ within (List.length w) hi /\
                c_prev s' = prev_after (c_prev s) w /\ c_caps s' = c_caps s
  | Group n r1 => exists s1, steps ic r1 s s1 /\ s' = capture n s s1
  end.

(** The next character, if any, is not in the class. *)
Definition run_ends (p : ascii -> bool) (rest : list ascii) : Prop :=
  match rest with
  | [] => True
  | x :: _ => p x = false
  end.

(** ** The specification's vocabulary *)

(** The text contains [w] as a whole word: an occurrence with no word
    character right before it and none right after it. *)
Definition whole_word_in (w text : string) : Prop :=
  exists pre post : list ascii,
    chars text = pre ++ chars w ++ post /\
    is_word (last pre " "%char) = false /\
    is_word (hd " "%char post) = false.

(** A non-empty run of characters of one class. *)
Definition run_of (p : ascii -> bool) (w : list ascii) : Prop :=
  w <> [] /\ forallb p w = true.

(** Exactly [n] decimal digits. *)
Definition digits_n (n : nat) (w : list ascii) : Prop :=
  List.length w = n /\ forallb is_digit w = true.

(** The shape YYYY-MM-DD. *)
Definition date_shaped (d : list ascii) : Prop :=
  exists y m dd : list ascii,
    d = y ++ "-"%char :: m ++ "-"%char :: dd /\
    digits_n 4 y /\ digits_n 2 m /\ digits_n 2 dd.

Definition class_names : list string := ["ECONOMY"; "BUSINESS"; "FIRST"].

(** The text [w] matches the literal [l], character by character. *)
Definition same_chars (ic : bool) (l w : list ascii) : Prop :=
  Forall2 (fun c x => char_eq ic c x = true) l w.

(** [w] is one of the class names as [re.IGNORECASE] reads it. *)
Definition class_written (w : list ascii) : Prop :=
  exists name, In name class_names /\ same_chars true (chars name) w.

(** The text starts with: word, blanks, word, blanks, date, blanks and a
    class name written in any letter case; [rest] is whatever follows. *)
Definition passenger_prefix (t fn ln bd cls : list ascii) : Prop :=
  exists s1 s2 s3 rest : list ascii,
    t = fn ++ s1 ++ ln ++ s2 ++ bd ++ s3 ++ cls ++ rest /\
    run_of is_word fn /\ run_of is_space s1 /\
    run_of is_word ln /\ run_of is_space s2 /\
    date_shaped bd /\ run_of is_space s3 /\
    class_written cls.

(** The alternatives of the third group of [date_re]. *)
Definition month_abbrevs : list string :=
  ["jan"; "feb"; "mar"; "apr"; "may"; "jun"; "jul"; "aug"; "sep"; "oct"; "nov"; "dec"].

End Patterns.

(** ** Prices, transitions and the sessions that can occur *)

Section LoopVocabulary.
Context {U : unicode} {F : floats}.

(** The offer has a price that [float] accepts. *)
Definition priced (f : dict) : Prop :=
  exists q, price_of (JObj f) = Ok q.

(** [a] costs at most what [b] costs, as floats compare. *)
Definition price_le (a b : dict) : Prop :=
  exists x y,
    price_of (JObj a) = Ok x /\
    price_of (JObj b) = Ok y /\ fle x y = true.

Definition cheapest_first (l : list dict) : Prop := StronglySorted price_le l.

(** The offer has the five fields that the search branch prints. *)
Definition displayable (f : dict) : Prop :=
  require_keys f offer_line_keys = Ok tt.

(** What holds of every session the loop can be in. *)
Definition session_ok (s : session) : Prop :=
  (conversation_state s = AWAITING_PASSENGER_DETAILS -> selected_flight s <> None) /\
  (conversation_state s <> IDLE -> last_flights s <> []) /\
  Forall displayable (last_flights s) /\
  Forall priced (last_flights s).

(** The moves of the loop from one session to the next. *)
Inductive transition (s : session) : session -> Prop :=
| tr_same : transition s s
| tr_search (flights : json) (cheapest : list dict) :
    conversation_state s = IDLE ->
    truthy flights = true ->
    get_cheapest_flights flights = Ok cheapest ->
    Forall displayable cheapest ->
    transition s (Session SEARCH_DONE cheapest (selected_flight s))
| tr_select (i : Z) (chosen : dict) :
    conversation_state s = SEARCH_DONE ->
    py_index (last_flights s) i = Ok chosen ->
    require_keys chosen selected_line_keys = Ok tt ->
    transition s (Session AWAITING_PASSENGER_DETAILS (last_flights s) (Some chosen))
| tr_decline :
    conversation_state s = SEARCH_DONE ->
    transition s (Session IDLE [] None)
| tr_booked :
    conversation_state s = AWAITING_PASSENGER_DETAILS ->
    transition s (Session IDLE [] None).

(** The price is a float other than nan. *)
Definition numeric_price (f : dict) : Prop :=
  exists x, price_of (JObj f) = Ok x /\ is_nan x = false.

(** No offer in the answer to the search of this turn has a price that
    [float] reads as nan. *)
Definition numeric_answer (t : turn) : Prop :=
  forall response items,
    search_flights (search_response t) = Ok response ->
    py_iter (flights_in response) = Ok items ->
    Forall (fun item => price_of item <> Ok NaN) items.

(** The sessions the loop can be in when no search has been answered
    with a nan price. *)
Inductive reachable_numeric : session -> Prop :=
| numeric_init : reachable_numeric initial_session
| numeric_step (s : session) (t : turn) (s' : session) :
    reachable_numeric s -> numeric_answer t -> step t s = Continue s' ->
    reachable_numeric s'.

End LoopVocabulary.

(** The order in which [sorted] leaves keyed items that can be ordered. *)
Definition key_le (x y : pyfloat * dict) : Prop := fle (fst x) (fst y) = true.

(** ** Sample tables

    Nine characters outside ASCII, with what Python says of them, and
    [float] on the numbers and texts of the samples. *)

(** U+0130, U+0131, U+017F and U+212A: the letters outside ASCII that
    [re.IGNORECASE] takes for i, s and k. *)
Definition dotted_I : ascii := "128".
Definition dotless_i : ascii := "129".
Definition long_s : ascii := "130".
Definition kelvin : ascii := "131".
(** U+00E9 and U+00C9 (e and E with acute accent), U+00A0 (no-break
    space), U+0663 (the Arabic-Indic digit three) and U+0307 (combining
    dot above). *)
Definition e_acute : ascii := "132".
Definition E_acute : ascii := "133".
Definition no_break_space : ascii := "134".
Definition arabic_three : ascii := "135".
Definition dot_above : ascii := "136".

Definition one_of (l : list ascii) (c : ascii) : bool :=
  existsb (Ascii.eqb c) l.

Definition sample_category (c : ascii) : category :=
  if one_of [dotted_I; dotless_i] c then Alnum (Some "i"%char)
  else if Ascii.eqb c long_s then Alnum (Some "s"%char)
  else if Ascii.eqb c kelvin then Alnum (Some "k"%char)
  else if one_of [e_acute; E_acute] c then Alnum None
  else if Ascii.eqb c no_break_space then Blank
  else if Ascii.eqb c arabic_three then Decimal Three
  else Neither.

Definition sample_lower_char (c : ascii) : list ascii :=
  if Ascii.eqb c dotted_I then ["i"%char; dot_above]
  else if Ascii.eqb c kelvin then ["k"%char]
  else if Ascii.eqb c E_acute then [e_acute]
  else [lower_char c].

Definition sample_upper_char (c : ascii) : list ascii :=
  if Ascii.eqb c dotless_i then ["I"%char]
  else if Ascii.eqb c long_s then ["S"%char]
  else if Ascii.eqb c e_acute then [E_acute]
  else [upper_char c].

Definition sample_cased (c : ascii) : bool :=
  is_upper c || is_lower c
  || one_of [dotted_I; dotless_i; long_s; kelvin; e_acute; E_acute] c.

Fixpoint sample_title_from (inside : bool) (l : list ascii) : list ascii :=
  match l with
  | [] => []
  | c :: l' =>
      (if inside then sample_lower_char c else sample_upper_char c)
      ++ sample_title_from (sample_cased c) l'
  end.

Definition sample_unicode : unicode :=
  {| category_of := sample_category;
     lower_text := fun s => str (flat_map sample_lower_char (chars s));
     upper_text := fun s => str (flat_map sample_upper_char (chars s));
     title_text := fun s => str (sample_title_from false (chars s)) |}.

(** [n / d] rounded to the nearest integer, ties to even, for [0 <= n]
    and [0 < d]. *)
Definition round_half_even (n d : Z) : Z :=
  let q := (n / d)%Z in
  let r := (n mod d)%Z in
  if (2 * r <? d)%Z then q
  else if (d <? 2 * r)%Z then (q + 1)%Z
  else if Z.even q then q else (q + 1)%Z.

(** The power of two at or just below [n / d], for [0 < n] and [0 < d]. *)
Definition binary_exponent (n d : Z) : Z :=
  let e := (Z.log2 n - Z.log2 d)%Z in
  let below :=
    if (0 <=? e)%Z then (n <? d * 2 ^ e)%Z else (n * 2 ^ (- e) <? d)%Z in
  if below then (e - 1)%Z else e.

(** [float(n)] for a number: the nearest double (53 bits, ties to even,
    exponents from -1074), in lowest terms, or [OverflowError] from
    2^1024 - 2^970 on. *)
Definition to_double (q : Q) : option pyfloat :=
  let n := Z.abs (Qnum q) in
  let d := Zpos (Qden q) in
  if (n =? 0)%Z then Some (Finite 0)
  else
    let e := Z.max (binary_exponent n d - 52) (-1074) in
    let m :=
      if (0 <=? e)%Z then round_half_even n (d * 2 ^ e)
      else round_half_even (n * 2 ^ (- e)) d in
    let value :=
      if (0 <=? e)%Z then inject_Z (m * 2 ^ e)
      else Qmake m (Z.to_pos (2 ^ (- e))) in
    if Qle_bool (inject_Z (2 ^ 1024)) value then None
    else Some (Finite (Qred (if (Qnum q <? 0)%Z then Qopp value else value))).

(** [float] rounds the numbers to the nearest double; the only price
    the samples send as text is "nan"; and the lists with a nan key
    among the samples are lists that [sorted] returns as they are. *)
Definition sample_floats : floats :=
  {| float_of_number := to_double;
     float_of_string := fun s => if String.eqb s "nan" then Some NaN else None;
     sorted_unordered := fun l => l;
     sorted_unordered_perm := fun l => Permutation_refl l |}.

(** ** A sample conversation *)

Definition sample_offer (id : string) (price : Q) : dict :=
  [("offerId", JStr id); ("origin", JStr "BOM"); ("destination", JStr "DEL");
   ("price", JNum price); ("currency", JStr "INR");
   ("departDate", JStr "2026-12-05")].

Definition sample_search : turn :=
  Turn "flights from Mumbai to Delhi on 5 Dec" (Date 2026 11 3)
    "SEARCH_FLIGHTS" None
    (Response 200
       (Some (JArr [JObj (sample_offer "A1" 30); JObj (sample_offer "B2" 10);
                    JObj (sample_offer "C3" 20)])) "")
    (NoConnection "").

Definition sample_found : session :=
  Session SEARCH_DONE
    [sample_offer "B2" 10; sample_offer "C3" 20; sample_offer "A1" 30] None.

Definition sample_select (line : string) : turn :=
  Turn line (Date 2026 11 3) "GENERAL_CHAT" None
    (NoConnection "") (NoConnection "").

Definition sample_awaiting : session :=
  Session AWAITING_PASSENGER_DETAILS
    [sample_offer "B2" 10; sample_offer "C3" 20; sample_offer "A1" 30]
    (Some (sample_offer "C3" 20)).

Definition sample_booking (answer : http_outcome) : turn :=
  Turn "John Doe 1990-01-02 business" (Date 2026 11 3) "GENERAL_CHAT" None
    (NoConnection "") answer.

Definition offer_expired : http_outcome :=
  Response 409 (Some (JObj [("message", JStr "offer expired")])) "".

(** ** More vocabulary for the loop, the sort and the extraction *)

(** What each state of the conversation implies for the other two
    variables. *)
Definition session_shape (s : session) : Prop :=
  match conversation_state s with
  | IDLE => last_flights s = [] /\ selected_flight s = None
  | SEARCH_DONE => last_flights s <> [] /\ selected_flight s = None
  | AWAITING_PASSENGER_DETAILS =>
      exists f, selected_flight s = Some f /\ In f (last_flights s)
  end.

(** The alternatives of [decline_re]. *)
Definition decline_words : list string :=
  ["no"; "don't"; "do not"; "not now"; "cancel"; "exit"; "stop"].


(** One round of the loop over [city_map]. *)
Definition scan_step (text : string) (acc : option string * option string)
    (entry : string * string) : option string * option string :=
  let (city, code) := entry in
  let (origin, destination) := acc in
  (if contains ("from " ++ city) text then Some code else origin,
   if contains ("to " ++ city) text then Some code else destination).

(** The code found for one of the two words, "from " or "to ". *)
Definition named_after (word text : string) (code : string) : Prop :=
  exists city, In (city, code) city_map /\ contains (word ++ city) text = true.

(** ** The tool server ([server.py]) *)

Module ToolServer.

Inductive http_method : Type := GET | POST.

(** A request to the Java backend: the path below [JAVA_BASE_URL] and the
    JSON body, if any. *)
Record request : Type := Request {
  req_method : http_method;
  req_path : string;
  req_body : option dict
}.

(** What the backend does with each request. *)
Definition backend : Type := request -> http_outcome.

Definition post (b : backend) (path : string) (payload : dict) : result json :=
  post_json (b (Request POST path (Some payload))).

Definition get (b : backend) (path : string) : result json :=
  post_json (b (Request GET path None)).

Definition handler : Type := backend -> dict -> result json.

(** An entry of [TOOLS]. *)
Record tool : Type := Tool {
  name : string;
  description : string;
  run_handler : handler
}.

Definition registry : Type := list (string * tool).

(** [d[k] = v] on a dict that keeps the order of insertion. *)
Fixpoint dict_set {V : Type} (d : list (string * V)) (k : string) (v : V)
    : list (string * V) :=
  match d with
  | [] => [(k, v)]
  | (k', v') :: d' =>
      if String.eqb k' k then (k, v) :: d' else (k', v') :: dict_set d' k v
  end.

(** The decorator [@register_tool(name, description)] applied to [fn]. *)
Definition register_tool (name description : string) (fn : handler)
    (tools : registry) : registry :=
  dict_set tools name (Tool name description fn).

Section Handlers.

(** The text an f-string prints for a value. *)
Variable py_str : json -> string.

Definition ping (b : backend) (args : dict) : result json :=
  Ok (JObj [("status", JStr "ok"); ("message", JStr "Tool server is running")]).

Definition create_user (b : backend) (args : dict) : result json :=
  post b "/users" args.

Definition get_user (b : backend) (args : dict) : result json :=
  v <- getitem (JObj args) "userId" ;; get b ("/users/" ++ py_str v).

Definition search_flights (b : backend) (args : dict) : result json :=
  post b "/flights/search" args.

Definition create_oneway_booking (b : backend) (args : dict) : result json :=
  post b "/bookings/oneway" args.

Definition create_roundtrip_booking (b : backend) (args : dict) : result json :=
  post b "/bookings/roundtrip" args.

Definition get_booking_by_id (b : backend) (args : dict) : result json :=
  v <- getitem (JObj args) "bookingId" ;; get b ("/bookings/" ++ py_str v).

Definition get_bookings_by_user (b : backend) (args : dict) : result json :=
  v <- getitem (JObj args) "userId" ;; get b ("/bookings/user/" ++ py_str v).

Definition get_booking_by_reference (b : backend) (args : dict) : result json :=
  v <- getitem (JObj args) "reference" ;;
  get b ("/bookings/reference/" ++ py_str v).

(** [TOOLS] once the module is loaded: the decorators in source order. *)
Definition TOOLS : registry :=
  register_tool "get_booking_by_reference" "Get booking by reference number"
    get_booking_by_reference
  (register_tool "get_bookings_by_user" "Get all bookings for a user"
    get_bookings_by_user
  (register_tool "get_booking_by_id" "Get booking by booking ID"
    get_booking_by_id
  (register_tool "create_roundtrip_booking" "Create a round-trip booking"
    create_roundtrip_booking
  (register_tool "create_oneway_booking" "Create a one-way booking"
    create_oneway_booking
  (register_tool "search_flights" "Search flights" search_flights
  (register_tool "get_user" "Get user by ID" get_user
  (register_tool "create_user" "Create a new user" create_user
  (register_tool "ping" "Health check tool" ping [])))))))).

End Handlers.

Definition not_found (tool_name : string) : json :=
  JObj [("error", JStr ("Tool '" ++ tool_name ++ "' not found"))].

(** [POST /tools/{tool_name}] *)
Definition call_tool (tools : registry) (b : backend) (tool_name : string)
    (args : dict) : result json :=
  match assoc tools tool_name with
  | None => Ok (not_found tool_name)
  | Some t => run_handler t b args
  end.

(** [GET /tools] *)
Definition list_tools (tools : registry) : json :=
  JObj [("tools",
         JArr (map (fun e => JObj [("name", JStr (name (snd e)));
                                   ("description", JStr (description (snd e)))])
                 tools))].

Definition tool_names (tools : registry) : list string := map fst tools.

(** The endpoints of the backend, as section 6 of the specification
    lists them: the tool that serves each one, the method, the path, and
    the argument that completes the path, if any. *)
Definition endpoints : list (string * (http_method * string * option string)) :=
  [("search_flights", (POST, "/flights/search", None));
   ("create_oneway_booking", (POST, "/bookings/oneway", None));
   ("create_roundtrip_booking", (POST, "/bookings/roundtrip", None));
   ("get_booking_by_id", (GET, "/bookings/", Some "bookingId"));
   ("get_bookings_by_user", (GET, "/bookings/user/", Some "userId"));
   ("get_booking_by_reference", (GET, "/bookings/reference/", Some "reference"));
   ("create_user", (POST, "/users", None));
   ("get_user", (GET, "/users/", Some "userId"))].

(** The argument each GET tool reads. *)
Definition lookup_tools : list (string * string) :=
  [("get_user", "userId"); ("get_booking_by_id", "bookingId");
   ("get_bookings_by_user", "userId"); ("get_booking_by_reference", "reference")].

End ToolServer.

(** ** The scripted client ([chat-agent.py]) *)

Module ChatAgent.

(** [call_tool]: one POST to the tool server, decoded. *)
Definition call_tool (o : http_outcome) : result json := post_json o.

(** [input(prompt).strip()] *)
Section Main.
Context {U : unicode} {F : floats}.

(** [input(prompt).strip()] *)
Definition ask (typed : string) : string := strip typed.

(** The running minimum: a later item replaces it only when it is below
    it. *)
Fixpoint min_by_key (best : pyfloat * dict) (l : list (pyfloat * dict))
    : pyfloat * dict :=
  match l with
  | [] => best
  | x :: l' => min_by_key (if flt (fst x) (fst best) then x else best) l'
  end.

(** [min(flights, key=lambda f: float(f["price"]))] *)
Definition cheapest_of (flights : json) : result dict :=
  items <- py_iter flights ;;
  ks <- mapM (keyed) items ;;
  match ks with
  | [] => Raise ValueError
  | k :: ks' => Ok (snd (min_by_key k ks'))
  end.

(** How a run ends without an exception before the booking: no flight,
    a cancellation, or the request with [payload] and the line "Booking
    Successful!", after which [shown] is what the last two lines print,
    or the exception of [booking.get] when the answer is not a dict. *)
Inductive ending : Type :=
| NoFlights
| Cancelled
| Booked (payload : dict) (shown : result (option json * option json)).

Definition shown_keys : list string :=
  ["offerId"; "price"; "currency"; "origin"; "destination"].

Definition booking_args (offer : json) (depart_date : string) : dict :=
  [("userId", JNum 1); ("offerId", offer); ("tripType", JStr "ONEWAY");
   ("departDate", JStr depart_date); ("paymentMethod", JStr "CARD");
   ("passengers",
    JArr [JObj [("firstName", JStr "Soumyadeep"); ("lastName", JStr "Das");
                ("dob", JStr "1999-05-14"); ("travellerClass", JStr "ECONOMY")]])].

(** [main()]: the three answers typed at the start, the answer to the
    confirmation question, and what the two calls to the tool server do. *)
Definition main (origin destination depart_date confirm : string)
    (search book : http_outcome) : result ending :=
  let depart_date := ask depart_date in
  flights <- call_tool search ;;
  if negb (truthy flights) then Ok NoFlights
  else
    cheapest <- cheapest_of flights ;;
    _ <- require_keys cheapest shown_keys ;;
    if negb (String.eqb (lower (ask confirm)) "yes") then Ok Cancelled
    else
      offer <- getitem (JObj cheapest) "offerId" ;;
      let payload := booking_args offer depart_date in
      booking <- call_tool book ;;
      Ok (Booked payload
            match booking with
            | JObj m => Ok (dict_get m "bookingReference", dict_get m "id")
            | _ => Raise AttributeError
            end).

End Main.
End ChatAgent.


(** ** More of the sample conversation *)

Definition undated_offer : dict :=
  [("offerId", JStr "Z9"); ("origin", JStr "BOM"); ("destination", JStr "DEL");
   ("price", JNum 15); ("currency", JStr "INR")].

Definition undated_search : turn :=
  Turn "flights from Mumbai to Delhi on 5 Dec" (Date 2026 11 3)
    "SEARCH_FLIGHTS" None
    (Response 200 (Some (JArr [JObj undated_offer])) "")
    (NoConnection "").

Definition undated_awaiting : session :=
  Session AWAITING_PASSENGER_DETAILS [undated_offer] (Some undated_offer).

Definition sample_items : list json :=
  [JObj (sample_offer "A1" 30); JObj (sample_offer "B2" 10);
   JObj (sample_offer "C3" 20)].

Definition sample_backend : ToolServer.backend :=
  fun r => Response 200 (Some (JObj [("path", JStr (ToolServer.req_path r))])) "".

Definition sample_str (v : json) : string :=
  match v with JStr s => s | _ => "7" end.

(** An answer with a nan price, and the session it leads to. *)
Definition nan_offer (id : string) : dict :=
  [("offerId", JStr id); ("origin", JStr "BOM"); ("destination", JStr "DEL");
   ("price", JStr "nan"); ("currency", JStr "INR");
   ("departDate", JStr "2026-12-05")].

Definition nan_items : list json :=
  [JObj (sample_offer "A1" 3); JObj (nan_offer "B2");
   JObj (sample_offer "C3" 1)].

Definition nan_search : turn :=
  Turn "flights from Mumbai to Delhi on 5 Dec" (Date 2026 11 3)
    "SEARCH_FLIGHTS" None
    (Response 200 (Some (JArr nan_items)) "")
    (NoConnection "").

Definition nan_found : session :=
  Session SEARCH_DONE
    [sample_offer "A1" 3; nan_offer "B2"; sample_offer "C3" 1] None.

(** Two prices that are one and the same float: 2^53 + 1 and 2^53. *)
Definition close_items : list json :=
  [JObj (sample_offer "A1" (inject_Z (2 ^ 53 + 1)));
   JObj (sample_offer "B2" (inject_Z (2 ^ 53)))].

(** "book option N" with 4301 digits. *)
Definition long_number : list ascii := "1"%char :: repeat "0"%char 4300.

(** "A B 2000-01-01 first" with U+0130 for the i. *)
Definition dotted_first : string :=
  "A B 2000-01-01 f" ++ String dotted_I "rst".

(** * Properties *)

(** ** Characters *)

Lemma in_all_ascii (c : ascii) : In c all_ascii.
Proof.
  unfold all_ascii. rewrite <- (ascii_nat_embedding c).
  apply in_map, in_seq. pose proof (nat_ascii_bounded c). lia.
Qed.

Lemma forall_ascii (f : ascii -> bool) :
  forallb f all_ascii = true -> forall c, f c = true.
Proof.
  intros H c. rewrite forallb_forall in H. apply H, in_all_ascii.
Qed.

(** A property of one character that a boolean function decides is
    settled by running the function on the 256 characters. *)
Lemma char_implication (p q : ascii -> bool) :
  forallb (fun c => implb (p c) (q c)) all_ascii = true ->
  forall c, p c = true -> q c = true.
Proof.
  intros H c Hc. pose proof (forall_ascii _ H c) as Hi. cbv beta in Hi.
  now rewrite Hc in Hi.
Qed.

Ltac decide_chars := vm_compute; reflexivity.

Ltac norm_app := repeat (rewrite <- app_assoc || rewrite <- app_comm_cons).

Lemma ascii_digit_not_space (c : ascii) :
  ascii_digit c = true -> ascii_space c = false.
Proof.
  intros H. apply negb_true_iff. revert c H.
  apply (char_implication ascii_digit (fun c => negb (ascii_space c))).
  decide_chars.
Qed.

Lemma ascii_space_not_word (c : ascii) :
  ascii_space c = true -> ascii_word c = false.
Proof.
  intros H. apply negb_true_iff. revert c H.
  apply (char_implication ascii_space (fun c => negb (ascii_word c))).
  decide_chars.
Qed.

Lemma ascii_letter_not_space (c : ascii) :
  is_upper c || is_lower c = true -> ascii_space c = false.
Proof.
  intros H. apply negb_true_iff. revert c H.
  apply (char_implication (fun c => is_upper c || is_lower c)
           (fun c => negb (ascii_space c))).
  decide_chars.
Qed.

Lemma ascii_digit_lower (c : ascii) : ascii_digit c = true -> lower_char c = c.
Proof.
  intros H. apply Ascii.eqb_eq. revert c H.
  apply (char_implication ascii_digit (fun c => Ascii.eqb (lower_char c) c)).
  decide_chars.
Qed.

Lemma ascii_digit_is_ascii (c : ascii) : ascii_digit c = true -> is_ascii c = true.
Proof.
  revert c. apply (char_implication ascii_digit is_ascii). decide_chars.
Qed.

Lemma ascii_digit_value (c : ascii) :
  ascii_digit c = true -> (0 <= Z.of_nat (nat_of_ascii c - 48) <= 9)%Z.
Proof.
  intros Hc.
  apply (char_implication ascii_digit
           (fun c => (Z.of_nat (nat_of_ascii c - 48) <=? 9)%Z))
    in Hc; [|decide_chars].
  apply Z.leb_le in Hc. lia.
Qed.

(** On ASCII letters [re.IGNORECASE] compares the upper cases. *)
Lemma ascii_letter_upper (c x : ascii) :
  is_upper c = true -> is_ascii x = true ->
  ((if is_upper x || is_lower x then Some (lower_char x) else None)
   = Some (lower_char c) <-> upper_char x = c).
Proof.
  intros Hc Hx.
  assert (H : forall c x,
             implb (is_upper c && is_ascii x)
               (Bool.eqb
                  (match (if is_upper x || is_lower x
                          then Some (lower_char x) else None) with
                   | Some y => Ascii.eqb y (lower_char c)
                   | None => false
                   end)
                  (Ascii.eqb (upper_char x) c)) = true).
  { intros c0 x0.
    assert (Hall : forallb
              (fun c => forallb
                 (fun x => implb (is_upper c && is_ascii x)
                    (Bool.eqb
                       (match (if is_upper x || is_lower x
                               then Some (lower_char x) else None) with
                        | Some y => Ascii.eqb y (lower_char c)
                        | None => false
                        end)
                       (Ascii.eqb (upper_char x) c)))
                 all_ascii) all_ascii = true) by (vm_compute; reflexivity).
    pose proof (forall_ascii _ Hall c0) as H0. cbv beta in H0.
    exact (forall_ascii _ H0 x0). }
  specialize (H c x). rewrite Hc, Hx in H. simpl in H.
  apply Bool.eqb_prop in H.
  destruct (is_upper x || is_lower x).
  - split; intros E.
    + injection E as E. apply Ascii.eqb_eq. rewrite <- H. now apply Ascii.eqb_eq.
    + f_equal. apply Ascii.eqb_eq. rewrite H. now apply Ascii.eqb_eq.
  - split; intros E; [discriminate|].
    apply Ascii.eqb_eq in E. rewrite <- H in E. discriminate.
Qed.

Section Facts.
Context {U : unicode}.

Lemma digit_not_space (c : ascii) : is_digit c = true -> is_space c = false.
Proof.
  unfold is_digit, is_space. destruct (is_ascii c).
  - apply ascii_digit_not_space.
  - destruct (category_of c); congruence.
Qed.

Lemma space_not_word (c : ascii) : is_space c = true -> is_word c = false.
Proof.
  unfold is_word, is_space. destruct (is_ascii c).
  - apply ascii_space_not_word.
  - destruct (category_of c); congruence.
Qed.

Lemma word_not_space (c : ascii) : is_word c = true -> is_space c = false.
Proof.
  intros H. destruct (is_space c) eqn:E; [|reflexivity].
  apply space_not_word in E. congruence.
Qed.

(** A character that [re.IGNORECASE] takes for a letter is no white
    space. *)
Lemma letter_not_space (x l : ascii) :
  letter_like x = Some l -> is_space x = false.
Proof.
  unfold letter_like, is_space. destruct (is_ascii x).
  - destruct (is_upper x || is_lower x) eqn:E; [|discriminate].
    intros _. now apply ascii_letter_not_space.
  - destruct (category_of x); congruence.
Qed.

Lemma digit_value_range (c : ascii) :
  is_digit c = true -> (0 <= digit_value c <= 9)%Z.
Proof.
  unfold is_digit, digit_value. destruct (is_ascii c).
  - apply ascii_digit_value.
  - destruct (category_of c) as [d| | |]; try discriminate.
    intros _. destruct d; simpl; lia.
Qed.

(** Under [re.IGNORECASE] a letter of the pattern matches the characters
    that are taken for that letter. *)
Lemma char_eq_letter (c x l : ascii) :
  letter_like c = Some l ->
  char_eq true c x = true <-> letter_like x = Some l.
Proof.
  intros Hc. unfold char_eq. rewrite Hc. simpl. split.
  - intros H. apply orb_true_iff in H as [H|H].
    + apply Ascii.eqb_eq in H. now subst x.
    + destruct (letter_like x) as [b|]; [|discriminate].
      apply Ascii.eqb_eq in H. now subst b.
  - intros ->. rewrite Ascii.eqb_refl. apply orb_true_r.
Qed.

(** ** The matcher *)

Lemma consumed_app (s s' : cursor) (w : list ascii) :
  c_rest s = w ++ c_rest s' -> consumed s s' = w.
Proof.
  intros H. unfold consumed. rewrite H, length_app.
  replace (List.length w + List.length (c_rest s') - List.length (c_rest s'))
    with (List.length w + 0) by lia.
  now rewrite firstn_app_2, firstn_O, app_nil_r.
Qed.

Lemma prev_after_last (prev : option ascii) (w : list ascii) (d : ascii) :
  w <> [] -> prev_after prev w = Some (last w d).
Proof.
  revert prev. induction w as [|c w IH]; intros prev H; [congruence|].
  destruct w as [|c' w]; [reflexivity|].
  change (prev_after prev (c :: c' :: w)) with (prev_after (Some c) (c' :: w)).
  rewrite IH by discriminate. reflexivity.
Qed.

Section MatcherFacts.

Variable ic : bool.
Variable A : Type.

(** A run of the class that cannot be extended is taken whole, provided
    the rest of the pattern then succeeds. *)
Lemma greedy_run (p : ascii -> bool) (lo : nat) (hi : option nat)
    (k : cursor -> option A) (caps : captures) (rest : list ascii) (a : A) :
  forall (w : list ascii) (n : nat) (prev : option ascii),
    forallb p w = true ->
    within (n + List.length w) hi ->
    below (n + List.length w) hi = false \/ run_ends p rest ->
    lo <= n + List.length w ->
    k (Cursor (prev_after prev w) rest caps) = Some a ->
    greedy p lo hi k n prev caps (w ++ rest) = Some a.
Proof.
  induction w as [|c w IH]; intros n prev Hw Hin Hstop Hlo Hk; simpl in *.
  - rewrite Nat.add_0_r in *.
    assert (Hhere : (if lo <=? n then k (Cursor prev rest caps) else None) = Some a).
    { destruct (Nat.leb_spec lo n); [assumption|lia]. }
    destruct rest as [|x xs]; [assumption|].
    simpl. destruct Hstop as [Hb|Hx].
    + rewrite Hb, andb_false_r. assumption.
    + simpl in Hx. rewrite Hx. assumption.
  - apply andb_true_iff in Hw as [Hc Hw]. rewrite Hc. simpl.
    assert (Hb : below n hi = true).
    { destruct hi as [h|]; simpl in *; [apply Nat.ltb_lt; lia|reflexivity]. }
    rewrite Hb.
    rewrite (IH (S n) (Some c)); auto.
    + now replace (S n + List.length w) with (n + S (List.length w)) by lia.
    + now replace (S n + List.length w) with (n + S (List.length w)) by lia.
    + lia.
Qed.

Lemma greedy_sound (p : ascii -> bool) (lo : nat) (hi : option nat)
    (k : cursor -> option A) (caps : captures) (a : A) :
  forall (rest : list ascii) (n : nat) (prev : option ascii),
    within n hi ->
    greedy p lo hi k n prev caps rest = Some a ->
    exists w rest',
      rest = w ++ rest' /\ forallb p w = true /\
      lo <= n + List.length w /\ within (n + List.length w) hi /\
      k (Cursor (prev_after prev w) rest' caps) = Some a.
Proof.
  assert (Hhere : forall rest n prev,
             within n hi ->
             (if lo <=? n then k (Cursor prev rest caps) else None) = Some a ->
             exists w rest',
               rest = w ++ rest' /\ forallb p w = true /\
               lo <= n + List.length w /\ within (n + List.length w) hi /\
               k (Cursor (prev_after prev w) rest' caps) = Some a).
  { intros rest n prev Hin H. exists [], rest. simpl. rewrite Nat.add_0_r.
    destruct (Nat.leb_spec lo n); [auto|discriminate]. }
  induction rest as [|x xs IH]; intros n prev Hin H; simpl in H.
  - now apply Hhere.
  - destruct (p x && below n hi) eqn:E; [|now apply Hhere].
    apply andb_true_iff in E as [Hx Hb].
    destruct (greedy p lo hi k (S n) (Some x) caps xs) eqn:G.
    + injection H as ->.
      apply IH in G.
      * destruct G as (w & rest' & -> & Hw & Hlo & Hhi & Hk).
        exists (x :: w), rest'. simpl. rewrite Hx, Hw.
        replace (n + S (List.length w)) with (S n + List.length w) by lia.
        auto.
      * destruct hi as [h|]; simpl in *; [apply Nat.ltb_lt in Hb; lia|exact I].
    + now apply Hhere.
Qed.

(** Whatever the matcher returns was produced by the rest of the pattern
    at a position the pattern can lead to. *)
Lemma rmatch_sound (r : regex) :
  forall (k : cursor -> option A) (s : cursor) (a : A),
    rmatch ic r k s = Some a ->
    exists s', steps ic r s s' /\ k s' = Some a.
Proof.
  induction r as [ |c|p| |r1 IH1 r2 IH2|r1 IH1 r2 IH2|r1 IH1|p lo hi|n r1 IH1];
    intros k s a H; simpl in H |- *.
  - eauto.
  - destruct s as [prev [|x xs] caps]; simpl in *; [discriminate|].
    destruct (char_eq ic c x) eqn:E; [|discriminate].
    exists (Cursor (Some x) xs caps). simpl. eauto 6.
  - destruct s as [prev [|x xs] caps]; simpl in *; [discriminate|].
    destruct (p x) eqn:E; [|discriminate].
    exists (Cursor (Some x) xs caps). simpl. eauto 6.
  - destruct (at_boundary s) eqn:E; [|discriminate]. eauto.
  - apply IH1 in H as (s1 & H1 & H). apply IH2 in H as (s2 & H2 & H). eauto.
  - destruct (rmatch ic r1 k s) eqn:E.
    + injection H as ->. apply IH1 in E as (s' & ? & ?). eauto.
    + apply IH2 in H as (s' & ? & ?). eauto.
  - destruct (rmatch ic r1 k s) eqn:E.
    + injection H as ->. apply IH1 in E as (s' & ? & ?). eauto.
    + eauto.
  - apply greedy_sound in H; [|destruct hi; simpl; [lia|exact I]].
    destruct H as (w & rest' & Hr & Hw & Hlo & Hhi & Hk).
    exists (Cursor (prev_after (c_prev s) w) rest' (c_caps s)). simpl.
    split; [|assumption]. exists w. auto 7.
  - apply IH1 in H as (s1 & H1 & H). eauto.
Qed.

End MatcherFacts.

Lemma search_from_sound (ic : bool) (r : regex) (m : captures) :
  forall (rest : list ascii) (prev : option ascii),
    search_from ic r prev rest = Some m ->
    exists pre suf,
      rest = pre ++ suf /\
      rmatch ic r accept (Cursor (prev_after prev pre) suf []) = Some m.
Proof.
  induction rest as [|x xs IH]; intros prev H; simpl in H.
  - destruct (rmatch ic r accept (Cursor prev [] [])) eqn:E; [|discriminate].
    injection H as ->. exists [], []. auto.
  - destruct (rmatch ic r accept (Cursor prev (x :: xs) [])) eqn:E.
    + injection H as ->. exists [], (x :: xs). auto.
    + apply IH in H as (pre & suf & -> & H). exists (x :: pre), suf. auto.
Qed.

(** A match somewhere in the text makes the search succeed. *)
Lemma search_from_hit (ic : bool) (r : regex) (suf : list ascii) :
  forall (pre : list ascii) (prev : option ascii),
    found (rmatch ic r accept (Cursor (prev_after prev pre) suf [])) = true ->
    found (search_from ic r prev (pre ++ suf)) = true.
Proof.
  induction pre as [|x pre IH]; intros prev H; simpl in *.
  - destruct suf; simpl;
      destruct (rmatch ic r accept _); simpl in *; congruence.
  - destruct (rmatch ic r accept (Cursor prev (x :: pre ++ suf) []));
      [reflexivity|]. now apply IH.
Qed.

Lemma rmatch_lits_run (ic : bool) (A : Type) (k : cursor -> option A)
    (rest : list ascii) (caps : captures) :
  forall (l w : list ascii) (prev : option ascii),
    same_chars ic l w ->
    rmatch ic (lits l) k (Cursor prev (w ++ rest) caps)
    = k (Cursor (prev_after prev w) rest caps).
Proof.
  induction l as [|c l IH]; intros w prev H; inversion H as [|c' x l' w' Hc Hl]; subst.
  - reflexivity.
  - destruct l as [|c2 l].
    + inversion Hl; subst. simpl. now rewrite Hc.
    + change (lits (c :: c2 :: l)) with (Cat (Lit c) (lits (c2 :: l))).
      simpl rmatch at 1. simpl. rewrite Hc. now rewrite IH.
Qed.

Lemma steps_lits (ic : bool) :
  forall (l : list ascii) (s s' : cursor),
    steps ic (lits l) s s' ->
    exists w, c_rest s = w ++ c_rest s' /\ same_chars ic l w /\
              c_caps s' = c_caps s.
Proof.
  induction l as [|c l IH]; intros s s' H.
  - simpl in H. subst. exists []. repeat split. constructor.
  - destruct l as [|c2 l].
    + simpl in H. destruct H as (x & Hr & Hc & _ & Hcaps).
      exists [x]. repeat split; auto. repeat constructor. exact Hc.
    + change (lits (c :: c2 :: l)) with (Cat (Lit c) (lits (c2 :: l))) in H.
      simpl steps in H. destruct H as (s1 & (x & Hr & Hc & _ & Hcaps) & H).
      apply IH in H as (w & Hw & Hs & Hcaps').
      exists (x :: w). rewrite Hr, Hw. repeat split; [|congruence].
      constructor; assumption.
Qed.

Lemma char_eq_dash (ic : bool) (x : ascii) :
  char_eq ic "-" x = true <-> x = "-"%char.
Proof.
  unfold char_eq. replace (letter_like "-") with (@None ascii) by reflexivity.
  rewrite andb_false_r, orb_false_r. split; intros H.
  - symmetry. now apply Ascii.eqb_eq.
  - subst. apply Ascii.eqb_refl.
Qed.

Lemma chars_str (l : list ascii) : chars (str l) = l.
Proof. apply list_ascii_of_string_of_list_ascii. Qed.

Lemma str_chars (s : string) : str (chars s) = s.
Proof. apply string_of_list_ascii_of_string. Qed.

Lemma capture_at (n : nat) (w : list ascii) (s s' : cursor) :
  c_rest s = w ++ c_rest s' ->
  capture n s s' = Cursor (c_prev s') (c_rest s') ((n, w) :: c_caps s').
Proof. intros H. unfold capture. now rewrite (consumed_app _ _ _ H). Qed.

Lemma rmatch_repeat_run (ic : bool) (A : Type) (p : ascii -> bool) (lo : nat)
    (hi : option nat) (k : cursor -> option A) (prev : option ascii)
    (caps : captures) (w rest : list ascii) (a : A) :
  forallb p w = true ->
  lo <= List.length w ->
  within (List.length w) hi ->
  below (List.length w) hi = false \/ run_ends p rest ->
  k (Cursor (prev_after prev w) rest caps) = Some a ->
  rmatch ic (Repeat p lo hi) k (Cursor prev (w ++ rest) caps) = Some a.
Proof. intros. simpl. apply greedy_run; auto. Qed.

Lemma stop_at_run (p q : ascii -> bool) (w rest : list ascii) :
  (forall c, q c = true -> p c = false) ->
  run_of q w -> run_ends p (w ++ rest).
Proof.
  intros Hpq [Hne Hw]. destruct w as [|c w]; [congruence|].
  simpl in *. apply andb_true_iff in Hw as [Hc _]. auto.
Qed.

Lemma rmatch_cat (ic : bool) (A : Type) (r1 r2 : regex) (k : cursor -> option A) (s : cursor) :
  rmatch ic (Cat r1 r2) k s = rmatch ic r1 (rmatch ic r2 k) s.
Proof. reflexivity. Qed.

Lemma rmatch_group (ic : bool) (A : Type) (n : nat) (r : regex) (k : cursor -> option A) (s : cursor) :
  rmatch ic (Group n r) k s = rmatch ic r (fun s' => k (capture n s s')) s.
Proof. reflexivity. Qed.

Lemma rmatch_or (ic : bool) (A : Type) (r1 r2 : regex) (k : cursor -> option A) (s : cursor) :
  rmatch ic (Or r1 r2) k s
  = match rmatch ic r1 k s with Some a => Some a | None => rmatch ic r2 k s end.
Proof. reflexivity. Qed.

Lemma rmatch_lit (ic : bool) (A : Type) (c x : ascii) (k : cursor -> option A)
    (prev : option ascii) (xs : list ascii) (caps : captures) :
  rmatch ic (Lit c) k (Cursor prev (x :: xs) caps)
  = if char_eq ic c x then k (Cursor (Some x) xs caps) else None.
Proof. reflexivity. Qed.

Lemma rmatch_lits_miss (ic : bool) (A : Type) (k : cursor -> option A)
    (c x : ascii) (l xs : list ascii) (prev : option ascii) (caps : captures) :
  char_eq ic c x = false ->
  rmatch ic (lits (c :: l)) k (Cursor prev (x :: xs) caps) = None.
Proof.
  intros H. destruct l; simpl; now rewrite H.
Qed.

Lemma length_pos (w : list ascii) : w <> [] -> 1 <= List.length w.
Proof. destruct w; simpl; [congruence|lia]. Qed.


Lemma rmatch_lits_letter_miss (A : Type) (k : cursor -> option A)
    (c x l l' : ascii) (ls xs : list ascii) (prev : option ascii)
    (caps : captures) :
  letter_like c = Some l -> letter_like x = Some l' -> l <> l' ->
  rmatch true (lits (c :: ls)) k (Cursor prev (x :: xs) caps) = None.
Proof.
  intros Hc Hx Hl. apply rmatch_lits_miss.
  destruct (char_eq true c x) eqn:E; [|reflexivity].
  apply (char_eq_letter c x l Hc) in E. congruence.
Qed.

(** The first character of a class name as written. *)
Lemma class_written_head (name : string) (cls : list ascii) (c : ascii)
    (l : list ascii) :
  chars name = c :: l -> same_chars true (chars name) cls ->
  exists x xs, cls = x :: xs /\ char_eq true c x = true.
Proof.
  intros Hn H. rewrite Hn in H. inversion H; subst. eauto.
Qed.

Lemma class_alternatives (cn : string) (cls rest : list ascii)
    (prev : option ascii) (caps : captures) :
  In cn class_names -> same_chars true (chars cn) cls ->
  rmatch true (alts (Str "ECONOMY") [Str "BUSINESS"; Str "FIRST"])
    (fun s' => accept (capture 4 (Cursor prev (cls ++ rest) caps) s'))
    (Cursor prev (cls ++ rest) caps)
  = Some ((4, cls) :: caps).
Proof.
  intros Hin Hs.
  assert (Hhit : rmatch true (lits (chars cn))
              (fun s' => accept (capture 4 (Cursor prev (cls ++ rest) caps) s'))
              (Cursor prev (cls ++ rest) caps) = Some ((4, cls) :: caps)).
  { rewrite rmatch_lits_run with (w := cls) by assumption.
    now rewrite (capture_at 4 cls) by reflexivity. }
  unfold alts, Str. rewrite !rmatch_or.
  destruct Hin as [<-|[<-|[<-|[]]]].
  - now rewrite Hhit.
  - destruct (class_written_head "BUSINESS" cls "B" (chars "USINESS") eq_refl Hs)
      as (x & xs & -> & Hx).
    apply (char_eq_letter "B" x "b" eq_refl) in Hx.
    change (chars "ECONOMY") with ("E"%char :: chars "CONOMY").
    rewrite <- app_comm_cons in *.
    rewrite rmatch_lits_letter_miss with (l := "e"%char) (l' := "b"%char)
      by (reflexivity || assumption || discriminate).
    now rewrite Hhit.
  - destruct (class_written_head "FIRST" cls "F" (chars "IRST") eq_refl Hs)
      as (x & xs & -> & Hx).
    apply (char_eq_letter "F" x "f" eq_refl) in Hx.
    change (chars "ECONOMY") with ("E"%char :: chars "CONOMY").
    change (chars "BUSINESS") with ("B"%char :: chars "USINESS").
    rewrite <- app_comm_cons in *.
    rewrite rmatch_lits_letter_miss with (l := "e"%char) (l' := "f"%char)
      by (reflexivity || assumption || discriminate).
    rewrite rmatch_lits_letter_miss with (l := "b"%char) (l' := "f"%char)
      by (reflexivity || assumption || discriminate).
    now rewrite Hhit.
Qed.

(** A class name as written starts with a character that is no white
    space. *)
Lemma class_written_stop (cls rest : list ascii) :
  class_written cls -> run_ends is_space (cls ++ rest).
Proof.
  intros (name & Hin & Hs).
  assert (H : exists c l lc, chars name = c :: l /\ letter_like c = Some lc).
  { destruct Hin as [<-|[<-|[<-|[]]]]; do 3 eexists; split; reflexivity. }
  destruct H as (c & l & lc & Hn & Hc).
  destruct (class_written_head name cls c l Hn Hs) as (x & xs & -> & Hx).
  apply (char_eq_letter c x lc Hc) in Hx. simpl.
  now apply letter_not_space with (l := lc).
Qed.

Lemma passenger_re_accepts (fn ln bd cls t : list ascii) :
  passenger_prefix t fn ln bd cls ->
  rmatch true passenger_re accept (Cursor None t [])
  = Some [(4, cls); (3, bd); (2, ln); (1, fn)].
Proof.
  intros (s1 & s2 & s3 & rest & -> & [Nfn Hfn] & [Ns1 Hs1] & [Nln Hln] & [Ns2 Hs2]
          & (y & mo & dd & -> & [Ly Hy] & [Lm Hm] & [Ld Hd]) & [Ns3 Hs3] & Hcls).
  pose proof length_pos as Lpos.
  unfold passenger_re, spaces. norm_app.
  rewrite rmatch_cat, rmatch_group.
  apply rmatch_repeat_run; [auto|auto|exact I| |].
  { right. apply stop_at_run with (q := is_space); [apply space_not_word|split; auto]. }
  rewrite (capture_at 1 fn) by reflexivity. cbn [c_prev c_rest c_caps].
  rewrite rmatch_cat.
  apply rmatch_repeat_run; [auto|auto|exact I| |].
  { right. apply stop_at_run with (q := is_word); [apply word_not_space|split; auto]. }
  rewrite rmatch_cat, rmatch_group.
  apply rmatch_repeat_run; [auto|auto|exact I| |].
  { right. apply stop_at_run with (q := is_space); [apply space_not_word|split; auto]. }
  rewrite (capture_at 2 ln) by reflexivity. cbn [c_prev c_rest c_caps].
  rewrite rmatch_cat.
  apply rmatch_repeat_run; [auto|auto|exact I| |].
  { right. apply stop_at_run with (q := is_digit); [apply digit_not_space|].
    split; [destruct y; [discriminate|congruence]|auto]. }
  rewrite rmatch_cat, rmatch_group, rmatch_cat.
  apply rmatch_repeat_run; [auto|lia|simpl; lia|left; rewrite Ly; reflexivity|].
  rewrite rmatch_cat, rmatch_lit.
  replace (char_eq true "-" "-") with true by reflexivity.
  rewrite rmatch_cat.
  apply rmatch_repeat_run; [auto|lia|simpl; lia|left; rewrite Lm; reflexivity|].
  rewrite rmatch_cat, rmatch_lit.
  replace (char_eq true "-" "-") with true by reflexivity.
  apply rmatch_repeat_run; [auto|lia|simpl; lia|left; rewrite Ld; reflexivity|].
  rewrite (capture_at 3 (y ++ "-"%char :: mo ++ "-"%char :: dd))
    by (cbn [c_rest]; norm_app; reflexivity).
  cbn [c_prev c_rest c_caps].
  pose proof (class_written_stop cls rest Hcls) as Hstop.
  destruct Hcls as (cn & Hin & Hup).
  rewrite rmatch_cat.
  apply rmatch_repeat_run; [auto|auto|exact I|right; exact Hstop|].
  rewrite rmatch_group. now apply class_alternatives with (cn := cn).
Qed.


Lemma steps_class (s s' : cursor) :
  steps true (alts (Str "ECONOMY") [Str "BUSINESS"; Str "FIRST"]) s s' ->
  exists w, c_rest s = w ++ c_rest s' /\ class_written w /\
            c_caps s' = c_caps s.
Proof.
  cbn [steps alts]. unfold Str, class_written.
  intros [H|[H|H]]; apply steps_lits in H as (w & Hr & Hs & Hc); exists w.
  - split; [assumption|split; [|assumption]]. exists "ECONOMY". simpl. auto.
  - split; [assumption|split; [|assumption]]. exists "BUSINESS". simpl. auto.
  - split; [assumption|split; [|assumption]]. exists "FIRST". simpl. auto 6.
Qed.

Lemma nonempty_length (w : list ascii) : 1 <= List.length w -> w <> [].
Proof. destruct w; simpl; [lia|discriminate]. Qed.

Lemma passenger_re_sound (t : list ascii) (m : captures) :
  rmatch true passenger_re accept (Cursor None t []) = Some m ->
  exists fn ln bd cls,
    passenger_prefix t fn ln bd cls /\ m = [(4, cls); (3, bd); (2, ln); (1, fn)].
Proof.
  intros H. apply rmatch_sound in H as (s' & H & Hm).
  unfold passenger_re, spaces in H. cbn [steps] in H.
  destruct H as (a1 & (b1 & (fn & Hfn) & E1) & a2 & (s1 & Hs1) & a3
                 & (b3 & (ln & Hln) & E3) & a4 & (s2 & Hs2) & a5
                 & (b5 & Hdate & E5) & a6 & (s3 & Hs3) & b7 & Hcls & E7).
  destruct Hdate as (d1 & (y & Hy) & d2 & (c1 & Hc1) & d3 & (mo & Hmo) & d4
                     & (c2 & Hc2) & (dd & Hdd)).
  apply steps_class in Hcls as (cls & Rcls & Hcw & Ccls).
  destruct Hfn as (Rfn & Wfn & Lfn & _ & _ & Cfn).
  destruct Hs1 as (Rs1 & Ws1 & Ls1 & _ & _ & Cs1).
  destruct Hln as (Rln & Wln & Lln & _ & _ & Cln).
  destruct Hs2 as (Rs2 & Ws2 & Ls2 & _ & _ & Cs2).
  destruct Hy as (Ry & Wy & Ly & Uy & _ & Cy).
  destruct Hc1 as (Rc1 & Ec1 & _ & Cc1).
  destruct Hmo as (Rmo & Wmo & Lmo & Umo & _ & Cmo).
  destruct Hc2 as (Rc2 & Ec2 & _ & Cc2).
  destruct Hdd as (Rdd & Wdd & Ldd & Udd & _ & Cdd).
  destruct Hs3 as (Rs3 & Ws3 & Ls3 & _ & _ & Cs3).
  apply char_eq_dash in Ec1, Ec2. subst c1 c2.
  cbn [c_rest c_caps within] in *.
  rewrite (capture_at 1 fn) in E1 by exact Rfn. subst a1.
  cbn [c_rest c_caps] in *.
  rewrite (capture_at 2 ln) in E3 by exact Rln. subst a3.
  cbn [c_rest c_caps] in *.
  rewrite (capture_at 3 (y ++ "-"%char :: mo ++ "-"%char :: dd)) in E5
    by (rewrite Ry, Rc1, Rmo, Rc2, Rdd; now norm_app).
  subst a5. cbn [c_rest c_caps] in *.
  rewrite (capture_at 4 cls) in E7 by exact Rcls. subst s'.
  unfold accept in Hm. cbn [c_caps] in Hm. injection Hm as <-.
  exists fn, ln, (y ++ "-"%char :: mo ++ "-"%char :: dd), cls. split.
  - exists s1, s2, s3, (c_rest b7).
    repeat split; auto using nonempty_length.
    + rewrite Rfn, Rs1, Rln, Rs2, Ry, Rc1, Rmo, Rc2, Rdd, Rs3, Rcls.
      now norm_app.
    + exists y, mo, dd. repeat split; auto; lia.
  - congruence.
Qed.

Lemma parse_passenger_details_iff (text : string) (p : passenger) :
  parse_passenger_details text = Some p <->
  exists fn ln bd cls,
    passenger_prefix (chars (strip text)) fn ln bd cls /\
    p = Passenger (str fn) (str ln) (str bd) (upper (str cls)).
Proof.
  unfold parse_passenger_details, Re.match_. split.
  - destruct (rmatch true passenger_re accept _) as [m|] eqn:E; [|discriminate].
    apply passenger_re_sound in E as (fn & ln & bd & cls & Hp & ->).
    simpl. intros [= <-]. eauto 6.
  - intros (fn & ln & bd & cls & Hp & ->).
    rewrite (passenger_re_accepts _ _ _ _ _ Hp). reflexivity.
Qed.

(** On ASCII text a class name as written is the class name once in
    upper case. *)
Lemma same_chars_ascii_upper : forall (l w : list ascii),
  forallb is_upper l = true -> forallb is_ascii w = true ->
  same_chars true l w -> map upper_char w = l.
Proof.
  induction l as [|c l IH]; intros w Hl Hw H; inversion H as [|c' x l' w' Hx Hs];
    subst; [reflexivity|].
  simpl in Hl, Hw. apply andb_true_iff in Hl as [Hc Hl].
  apply andb_true_iff in Hw as [Hax Hw]. simpl. f_equal; [|now apply IH].
  assert (Ac : is_ascii c = true).
  { clear H Hx IH. revert c Hc. apply (char_implication is_upper is_ascii).
    decide_chars. }
  assert (Lc : letter_like c = Some (lower_char c)).
  { unfold letter_like. now rewrite Ac, Hc. }
  apply (char_eq_letter c x _ Lc) in Hx. unfold letter_like in Hx.
  rewrite Hax in Hx. now apply ascii_letter_upper.
Qed.

Lemma class_written_ascii (cls : list ascii) :
  forallb is_ascii cls = true -> class_written cls ->
  In (upper (str cls)) class_names.
Proof.
  intros Ha (name & Hin & Hs).
  assert (E : map upper_char cls = chars name).
  { apply same_chars_ascii_upper; [|assumption|assumption].
    destruct Hin as [<-|[<-|[<-|[]]]]; reflexivity. }
  unfold upper, ascii_text. rewrite chars_str, Ha, E, str_chars. exact Hin.
Qed.

Lemma forallb_lstrip (p : ascii -> bool) (l : list ascii) :
  forallb p l = true -> forallb p (lstrip l) = true.
Proof.
  induction l as [|c l IH]; simpl; [auto|].
  intros H. apply andb_true_iff in H as [Hc Hl].
  destruct (is_space c); [auto|]. simpl. now rewrite Hc, Hl.
Qed.

Lemma forallb_rev (p : ascii -> bool) (l : list ascii) :
  forallb p (rev l) = forallb p l.
Proof.
  induction l as [|c l IH]; simpl; [reflexivity|].
  rewrite forallb_app, IH. simpl. rewrite andb_true_r. apply andb_comm.
Qed.

Lemma ascii_strip (text : string) :
  ascii_text text = true -> forallb is_ascii (chars (strip text)) = true.
Proof.
  unfold ascii_text, strip, rstrip. intros H. rewrite chars_str, forallb_rev.
  apply forallb_lstrip. rewrite forallb_rev. now apply forallb_lstrip.
Qed.

Lemma passenger_prefix_class (t fn ln bd cls : list ascii) :
  passenger_prefix t fn ln bd cls -> forallb is_ascii t = true ->
  forallb is_ascii cls = true.
Proof.
  intros (s1 & s2 & s3 & rest & -> & _) H.
  rewrite !forallb_app in H.
  do 6 (apply andb_true_iff in H as [_ H]).
  now apply andb_true_iff in H as [H _].
Qed.

(** C10 (as amended). [parse_passenger_details] returns a passenger
    exactly when the stripped line starts with word, blanks, word,
    blanks, a date of the shape dddd-dd-dd, blanks and one of the three
    class names as [re.IGNORECASE] reads it; whatever follows the class
    name plays no part; the class comes back as [upper()] of what was
    written, which on an ASCII line is one of ECONOMY, BUSINESS and
    FIRST; and every other line gives [None]. *)
Theorem parse_passenger_details_prefix (text : string) :
  (forall p, parse_passenger_details text = Some p <->
     exists fn ln bd cls,
       passenger_prefix (chars (strip text)) fn ln bd cls /\
       p = Passenger (str fn) (str ln) (str bd) (upper (str cls)))
  /\ (ascii_text text = true ->
      forall p, parse_passenger_details text = Some p ->
        In (travellerClass p) class_names)
  /\ (parse_passenger_details text = None <->
        ~ exists fn ln bd cls, passenger_prefix (chars (strip text)) fn ln bd cls).
Proof.
  split; [apply parse_passenger_details_iff|split].
  - intros Ha p H. apply parse_passenger_details_iff in H
      as (fn & ln & bd & cls & Hp & ->).
    simpl. apply class_written_ascii.
    + eapply passenger_prefix_class; [exact Hp|]. now apply ascii_strip.
    + destruct Hp as (s1 & s2 & s3 & rest & H). apply H.
  - split.
    + intros H (fn & ln & bd & cls & Hp).
      assert (E : parse_passenger_details text
                  = Some (Passenger (str fn) (str ln) (str bd) (upper (str cls))))
        by (apply parse_passenger_details_iff; eauto 6).
      congruence.
    + intros H. destruct (parse_passenger_details text) as [p|] eqn:E; [|reflexivity].
      exfalso. apply H. apply parse_passenger_details_iff in E
        as (fn & ln & bd & cls & Hp & _). eauto.
Qed.

(** ** Parameter extraction *)

Lemma regex_fallback_found (today : date) (input o d : string) (m : captures)
    (dd mm : Z) :
  scan_cities (lower input) = (Some o, Some d) ->
  Re.search false date_re (lower input) = Some m ->
  day_month m = Ok (dd, mm) ->
  regex_fallback today input
  = candidate <- datetime (year today) mm dd ;;
    final <- datetime (resolve_year today candidate) mm dd ;;
    Ok (search_params o d (strftime_ymd final)).
Proof.
  intros Hc Hs Hd. unfold regex_fallback. now rewrite Hc, Hs, Hd.
Qed.

Lemma same_chars_exact (l w : list ascii) : same_chars false l w -> w = l.
Proof.
  induction 1 as [|c x l w Hc _ IH]; [reflexivity|].
  unfold char_eq in Hc. rewrite andb_false_l, orb_false_r in Hc.
  apply Ascii.eqb_eq in Hc. congruence.
Qed.

Lemma steps_alts_str (rs : list string) : forall (r : string) (s s' : cursor),
  steps false (alts (Str r) (map Str rs)) s s' ->
  exists name, In name (r :: rs) /\ c_rest s = chars name ++ c_rest s' /\
               c_caps s' = c_caps s.
Proof.
  induction rs as [|r' rs IH]; intros r s s' H; cbn [alts map steps] in H.
  - unfold Str in H. apply steps_lits in H as (w & Hr & Hs & Hc).
    apply same_chars_exact in Hs. subst w. exists r. simpl. auto.
  - destruct H as [H|H].
    + unfold Str in H. apply steps_lits in H as (w & Hr & Hs & Hc).
      apply same_chars_exact in Hs. subst w. exists r. simpl. auto.
    + apply IH in H as (name & Hin & H). exists name. simpl in *. auto.
Qed.

Lemma digits_value_bound (w : list ascii) :
  forallb is_digit w = true -> List.length w <= 2 ->
  (0 <= digits_value w <= 99)%Z.
Proof.
  pose proof digit_value_range as Hd.
  intros Hw Hl. unfold digits_value.
  destruct w as [|a [|b [|c w]]]; cbn [fold_left forallb List.length] in *; try lia.
  - apply andb_true_iff in Hw as [Ha _]. apply Hd in Ha. lia.
  - apply andb_true_iff in Hw as [Ha Hw]. apply andb_true_iff in Hw as [Hb _].
    apply Hd in Ha, Hb. lia.
Qed.

Lemma day_month_resolves (text : string) (m : captures) :
  Re.search false date_re text = Some m ->
  exists dd mm, day_month m = Ok (dd, mm) /\
                (0 <= dd <= 99)%Z /\ (1 <= mm <= 12)%Z.
Proof.
  unfold Re.search. intros H.
  apply search_from_sound in H as (pre & suf & _ & H).
  apply rmatch_sound in H as (s' & H & Hm).
  unfold date_re in H. cbn [steps] in H.
  destruct H as (a1 & (b1 & (w & Hw) & E1) & a2 & Hopt & a3 & (sp & Hsp) & b3 & Hmon & E3).
  change (alts (Str "jan") _) with (alts (Str "jan") (map Str (tl month_abbrevs))) in Hmon.
  apply steps_alts_str in Hmon as (name & Hin & Rn & Cn).
  destruct Hw as (Rw & Ww & Lw & Uw & _ & Cw).
  destruct Hsp as (Rsp & _ & _ & _ & _ & Csp).
  cbn [c_rest c_caps within] in *.
  rewrite (capture_at 1 w) in E1 by exact Rw. subst a1. cbn [c_rest c_caps] in *.
  rewrite (capture_at 3 (chars name)) in E3 by exact Rn. subst s'.
  unfold accept in Hm. cbn [c_caps] in Hm. injection Hm as <-.
  assert (G1 : lookup_group (c_caps a2) 1 = Some w).
  { destruct Hopt as [(b2 & Hb2 & ->)| ->]; [|reflexivity].
    unfold capture. cbn [c_caps lookup_group Nat.eqb].
    change (alts (Str "st") _) with (alts (Str "st") (map Str ["nd"; "rd"; "th"])) in Hb2.
    apply steps_alts_str in Hb2 as (_ & _ & _ & ->). reflexivity. }
  exists (digits_value w).
  assert (Hday : forall mm, strptime_b (title (str (chars name))) = Ok mm ->
            day_month ((3, chars name) :: c_caps b3) = Ok (digits_value w, mm)).
  { intros mm Hmm. unfold day_month, group_text, group.
    cbn [lookup_group Nat.eqb option_map bind]. rewrite Cn, Csp, G1.
    cbn [option_map bind]. unfold py_int. rewrite chars_str.
    destruct w as [|c w]; [simpl in Lw; lia|]. rewrite Ww.
    replace (List.length (c :: w) <=? max_str_digits) with true
      by (symmetry; apply Nat.leb_le; unfold max_str_digits; lia).
    cbn [andb bind]. rewrite Hmm. reflexivity. }
  pose proof (digits_value_bound w Ww Uw) as Hb.
  simpl in Hin.
  repeat (destruct Hin as [<-|Hin];
          [eexists; split; [apply Hday; vm_compute; reflexivity|split; [exact Hb|lia]]|]).
  contradiction.
Qed.


Lemma no_31_feb (y : Z) : valid_date y 2 31 = false.
Proof.
  unfold valid_date, days_in_month. simpl (2 =? 2)%Z.
  destruct (is_leap y); simpl; now rewrite !andb_false_r.
Qed.


(** C5 (the code departs from it). With the oracle attempt discarded, a
    day that the month does not have makes [extract_search_params] raise
    [ValueError] instead of returning the empty result. *)
Theorem extract_search_params_raises (today : date) :
  extract_search_params today None "flights from mumbai to delhi on 31 feb"
  = Raise ValueError.
Proof.
  unfold extract_search_params, llm_attempt.
  rewrite regex_fallback_found
    with (o := "BOM"%string) (d := "DEL"%string) (dd := 31%Z) (mm := 2%Z)
         (m := [(3, chars "feb"); (1, chars "31")])
    by (vm_compute; reflexivity).
  unfold datetime. now rewrite no_31_feb.
Qed.




(** ** Intent detection *)

Lemma word_before_last (pre : list ascii) :
  word_before (prev_after None pre) = is_word (last pre " "%char).
Proof.
  destruct pre as [|c pre]; [reflexivity|].
  now rewrite (prev_after_last None (c :: pre) " "%char) by discriminate.
Qed.

Lemma word_after_hd (post : list ascii) :
  word_after post = is_word (hd " "%char post).
Proof. destruct post; reflexivity. Qed.

Lemma intent_re_at_word (w : string) (prev : option ascii) (post : list ascii) :
  w = "book" \/ w = "reserve" ->
  word_before prev = false ->
  word_after post = false ->
  found (rmatch false intent_re accept (Cursor prev (chars w ++ post) [])) = true.
Proof.
  intros [-> | ->] Hb Ha; simpl; unfold at_boundary; simpl; rewrite Hb; simpl.
  all: unfold at_boundary; simpl; rewrite Ha; reflexivity.
Qed.

(** C4. Whenever the lower-cased text contains "book" or "reserve" as a
    whole word, [detect_intent] answers BOOK_FLIGHT, whatever the
    language oracle would have replied. *)
Theorem detect_intent_booking_verb (reply text : string) :
  whole_word_in "book" (lower text) \/ whole_word_in "reserve" (lower text) ->
  detect_intent reply text = "BOOK_FLIGHT".
Proof.
  intros H. unfold detect_intent.
  enough (E : found (Re.search false intent_re (lower text)) = true)
    by now rewrite E.
  unfold Re.search.
  destruct H as [(pre & post & -> & Hb & Ha) | (pre & post & -> & Hb & Ha)];
    apply search_from_hit, intent_re_at_word;
    rewrite ?word_before_last, ?word_after_hd; auto.
Qed.

(** ** The conversation loop *)

End Facts.

Section LoopFacts.
Context {U : unicode} {F : floats}.

Lemma search_branch_continue (t : turn) (s s' : session) :
  search_branch t s = Continue s' ->
  s' = s \/
  exists flights cheapest,
    truthy flights = true /\
    get_cheapest_flights flights = Ok cheapest /\
    Forall displayable cheapest /\
    s' = Session SEARCH_DONE cheapest (selected_flight s).
Proof.
  unfold search_branch, run.
  destruct (extract_search_params _ _ _) as [params|]; [|discriminate].
  destruct (negb (truthy (JObj params))); [intros [= <-]; now left|].
  destruct (search_flights _) as [response|]; [|discriminate].
  set (flights := flights_in response).
  destruct (negb (truthy flights)) eqn:T; [intros [= <-]; now left|].
  destruct (get_cheapest_flights flights) as [cheapest|] eqn:G; [|discriminate].
  destruct (mapM _ cheapest) as [us|] eqn:M; [|discriminate].
  intros [= <-]. right. exists flights, cheapest.
  apply negb_false_iff in T. repeat split; auto.
  clear G. revert us M. induction cheapest as [|f l IH]; intros us M; constructor.
  - simpl in M. unfold displayable.
    destruct (require_keys f offer_line_keys) as [[]|]; [reflexivity|discriminate].
  - simpl in M. destruct (require_keys f offer_line_keys); [|discriminate].
    simpl in M. destruct (mapM _ l) eqn:E; [|discriminate]. eapply IH. reflexivity.
Qed.

Lemma book_select_branch_continue (text : string) (s s' : session) :
  book_select_branch text s = Continue s' ->
  exists i chosen,
    py_index (last_flights s) i = Ok chosen /\
    require_keys chosen selected_line_keys = Ok tt /\
    s' = Session AWAITING_PASSENGER_DETAILS (last_flights s) (Some chosen).
Proof.
  unfold book_select_branch, run.
  destruct (match Re.search false option_re text with Some _ => _ | None => _ end)
    as [i|]; [|discriminate].
  destruct (py_index (last_flights s) i) as [chosen|] eqn:P; [|discriminate].
  destruct (require_keys chosen selected_line_keys) as [[]|] eqn:K; [|discriminate].
  intros [= <-]. eauto.
Qed.

Lemma passenger_branch_continue (t : turn) (s s' : session) :
  passenger_branch t s = Continue s' -> s' = s \/ s' = Session IDLE [] None.
Proof.
  unfold passenger_branch, run.
  destruct (parse_passenger_details _); [|intros [= <-]; now left].
  destruct (booking_payload _ _); [|discriminate].
  destruct (create_oneway_booking _) as [res|]; [|discriminate].
  destruct (booking_reference res); [|discriminate].
  intros [= <-]. now right.
Qed.

Lemma in_state_eq (c : conv_state) (s : session) :
  in_state c s = true <-> conversation_state s = c.
Proof.
  unfold in_state. destruct c, (conversation_state s); split; congruence.
Qed.

Lemma step_transition (t : turn) (s s' : session) :
  step t s = Continue s' -> transition s s'.
Proof.
  unfold step.
  destruct (is_exit _); [discriminate|].
  destruct (String.eqb _ _ && in_state IDLE s) eqn:B1.
  { apply andb_true_iff in B1 as [_ B1]. apply in_state_eq in B1.
    intros H. apply search_branch_continue in H as [->|(fl & ch & ? & ? & ? & ->)].
    - constructor.
    - econstructor; eauto. }
  destruct (in_state SEARCH_DONE s && found (Re.search false book_select_re _)) eqn:B2.
  { apply andb_true_iff in B2 as [B2 _]. apply in_state_eq in B2.
    intros H. apply book_select_branch_continue in H as (i & ch & ? & ? & ->).
    econstructor; eauto. }
  destruct (in_state SEARCH_DONE s && found (Re.search false decline_re _)) eqn:B3.
  { apply andb_true_iff in B3 as [B3 _]. apply in_state_eq in B3.
    intros [= <-]. now constructor. }
  destruct (in_state AWAITING_PASSENGER_DETAILS s) eqn:B4.
  { apply in_state_eq in B4.
    intros H. apply passenger_branch_continue in H as [->| ->]; now constructor. }
  intros [= <-]. constructor.
Qed.

(** *** Floats in order *)

Lemma flt_fle (x y : pyfloat) : flt x y = true -> fle x y = true.
Proof.
  destruct x as [|[|]|a], y as [|[|]|b]; simpl; try discriminate; auto.
  unfold fle. simpl. intros H. apply negb_true_iff in H. apply negb_true_iff.
  apply negb_false_iff.
  destruct (Qle_bool a b) eqn:E; [reflexivity|].
  exfalso. assert (Hba : ~ (b <= a)%Q) by (rewrite <- Qle_bool_iff; congruence).
  assert (Hab : ~ (a <= b)%Q) by (rewrite <- Qle_bool_iff; congruence).
  apply Hab, Qlt_le_weak, Qnot_le_lt, Hba.
Qed.

Lemma fle_not_below (x y : pyfloat) :
  is_nan x = false -> is_nan y = false -> flt y x = false -> fle x y = true.
Proof. unfold fle. now intros -> -> ->. Qed.

Lemma fle_finite (a b : Q) : fle (Finite a) (Finite b) = Qle_bool a b.
Proof. unfold fle. simpl. now rewrite negb_involutive. Qed.

Lemma fle_trans (x y z : pyfloat) :
  fle x y = true -> fle y z = true -> fle x z = true.
Proof.
  destruct x as [|[|]|a], y as [|[|]|b], z as [|[|]|c];
    try discriminate; try reflexivity.
  rewrite !fle_finite, !Qle_bool_iff. apply Qle_trans.
Qed.

Lemma fle_refl (x : pyfloat) : is_nan x = false -> fle x x = true.
Proof.
  destruct x as [|[|]|a]; try discriminate; try reflexivity.
  intros _. rewrite fle_finite. apply Qle_bool_iff, Qle_refl.
Qed.

Lemma fle_not_nan (x y : pyfloat) :
  fle x y = true -> is_nan x = false /\ is_nan y = false.
Proof.
  unfold fle. intros H. apply andb_true_iff in H as [H _].
  apply andb_true_iff in H as [Hx Hy].
  now apply negb_true_iff in Hx, Hy.
Qed.

(** *** Sorting by price *)

Lemma insert_by_key_perm (x : pyfloat * dict) (l : list (pyfloat * dict)) :
  Permutation (insert_by_key x l) (x :: l).
Proof.
  induction l as [|y l IH]; simpl; [reflexivity|].
  destruct (flt (fst y) (fst x)); [|reflexivity].
  rewrite IH. apply perm_swap.
Qed.

(** Whatever the keys, [sorted] rearranges its items. *)
Lemma sorted_by_key_perm (l : list (pyfloat * dict)) :
  Permutation (sorted_by_key l) l.
Proof.
  unfold sorted_by_key. destruct (nan_free l); [|apply sorted_unordered_perm].
  induction l as [|x l IH]; simpl; [reflexivity|].
  rewrite insert_by_key_perm. now constructor.
Qed.

Lemma insert_by_key_Forall (P : pyfloat * dict -> Prop) (x : pyfloat * dict)
    (l : list (pyfloat * dict)) :
  P x -> Forall P l -> Forall P (insert_by_key x l).
Proof.
  intros Hx Hl. eapply Permutation_Forall.
  - symmetry. apply insert_by_key_perm.
  - now constructor.
Qed.

Lemma insert_by_key_sorted (x : pyfloat * dict) (l : list (pyfloat * dict)) :
  is_nan (fst x) = false -> nan_free l = true ->
  StronglySorted key_le l -> StronglySorted key_le (insert_by_key x l).
Proof.
  intros Hx Hl H. induction H as [|y l Hs IH Hy]; simpl.
  - repeat constructor.
  - simpl in Hl. apply andb_true_iff in Hl as [Hny Hl].
    apply negb_true_iff in Hny.
    destruct (flt (fst y) (fst x)) eqn:E.
    + constructor; [now apply IH|].
      apply insert_by_key_Forall; [|assumption].
      unfold key_le. now apply flt_fle.
    + assert (Hxy : key_le x y) by now apply fle_not_below.
      constructor; [now constructor|].
      constructor; [exact Hxy|].
      eapply Forall_impl; [|exact Hy]. intros z Hz. unfold key_le in *.
      eapply fle_trans; eauto.
Qed.

Lemma nan_free_fold (l : list (pyfloat * dict)) :
  nan_free l = true -> nan_free (fold_right insert_by_key [] l) = true.
Proof.
  unfold nan_free. rewrite !forallb_forall. intros H x Hx. apply H.
  assert (P : Permutation (fold_right insert_by_key [] l) l).
  { clear. induction l as [|y l IH]; simpl; [reflexivity|].
    rewrite insert_by_key_perm. now constructor. }
  eapply Permutation_in; eauto.
Qed.

(** When no key is nan the keys come out in ascending order. *)
Lemma sorted_by_key_sorted (l : list (pyfloat * dict)) :
  nan_free l = true -> StronglySorted key_le (sorted_by_key l).
Proof.
  intros H. unfold sorted_by_key. rewrite H.
  induction l as [|x l IH]; simpl; [constructor|].
  simpl in H. apply andb_true_iff in H as [Hx Hl].
  apply insert_by_key_sorted.
  - now apply negb_true_iff.
  - now apply nan_free_fold.
  - now apply IH.
Qed.

Lemma sorted_by_key_Forall (P : pyfloat * dict -> Prop) (l : list (pyfloat * dict)) :
  Forall P l -> Forall P (sorted_by_key l).
Proof.
  intros H. eapply Permutation_Forall; [|exact H].
  symmetry. apply sorted_by_key_perm.
Qed.

Lemma sorted_by_key_length (l : list (pyfloat * dict)) :
  List.length (sorted_by_key l) = List.length l.
Proof. apply Permutation_length, sorted_by_key_perm. Qed.

Lemma Forall_firstn {A : Type} (P : A -> Prop) (l : list A) :
  Forall P l -> forall n, Forall P (firstn n l).
Proof.
  induction 1 as [|a l Ha Hl IH]; intros [|n]; simpl; constructor; auto.
Qed.

Lemma StronglySorted_firstn {A : Type} (R : A -> A -> Prop) (l : list A) :
  StronglySorted R l -> forall n, StronglySorted R (firstn n l).
Proof.
  induction 1 as [|a l Hs IH Ha]; intros [|n]; simpl; constructor; auto.
  now apply Forall_firstn.
Qed.

Lemma StronglySorted_map {A B : Type} (f : A -> B) (R : A -> A -> Prop)
    (S : B -> B -> Prop) (P : A -> Prop) (l : list A) :
  (forall x y, P x -> P y -> R x y -> S (f x) (f y)) ->
  Forall P l -> StronglySorted R l -> StronglySorted S (map f l).
Proof.
  intros HRS HP H. induction H as [|a l Hs IH Ha]; simpl; constructor.
  - apply IH. now inversion HP.
  - inversion HP as [|? ? Pa Pl]; subst. apply Forall_map.
    rewrite Forall_forall in *. auto.
Qed.

Lemma mapM_Forall {A B : Type} (f : A -> result B) (P : B -> Prop) :
  (forall a b, f a = Ok b -> P b) ->
  forall l bs, mapM f l = Ok bs -> Forall P bs /\ List.length bs = List.length l.
Proof.
  intros Hf. induction l as [|a l IH]; intros bs H; simpl in H.
  - injection H as <-. auto.
  - destruct (f a) as [b|] eqn:E; [|discriminate]. simpl in H.
    destruct (mapM f l) as [bs'|] eqn:M; [|discriminate]. simpl in H.
    injection H as <-. destruct (IH bs' eq_refl). simpl. split; [|congruence].
    constructor; eauto.
Qed.

Lemma keyed_price (f : json) (q : pyfloat) (d : dict) :
  keyed f = Ok (q, d) -> price_of (JObj d) = Ok q.
Proof.
  unfold keyed. destruct (price_of f) as [q'|] eqn:E; [|discriminate].
  destruct f; try discriminate. simpl. intros [= -> ->]. exact E.
Qed.

Lemma truthy_items (v : json) (items : list json) :
  truthy v = true -> py_iter v = Ok items -> items <> [].
Proof.
  destruct v as [ |b|q| |n|s|l|m]; simpl; try discriminate;
    try (intros _ H; discriminate H).
  - destruct s; [discriminate|]. intros _ [= <-]. discriminate.
  - destruct l; [discriminate|]. intros _ [= <-]. discriminate.
  - destruct m; [discriminate|]. intros _ [= <-]. discriminate.
Qed.

Lemma get_cheapest_flights_facts (flights : json) (cheapest : list dict) :
  truthy flights = true ->
  get_cheapest_flights flights = Ok cheapest ->
  cheapest <> [] /\ Forall priced cheapest /\ List.length cheapest <= 7.
Proof.
  intros T. unfold get_cheapest_flights.
  destruct (py_iter flights) as [items|] eqn:I; [|discriminate]. cbn [bind].
  destruct (mapM keyed items) as [ks|] eqn:M; [|discriminate].
  cbn [bind]. intros E.
  assert (E' : cheapest = firstn 7 (map snd (sorted_by_key ks))) by congruence.
  clear E. subst cheapest.
  apply (mapM_Forall keyed
           (fun x => price_of (JObj (snd x)) = Ok (fst x))) in M.
  2:{ intros a [q d]. apply keyed_price. }
  destruct M as [Hk Hlen].
  pose proof (truthy_items flights items T I) as Hne.
  pose proof (sorted_by_key_Forall _ ks Hk) as Hk'.
  repeat split.
  - assert (L : List.length (sorted_by_key ks) <> 0).
    { rewrite sorted_by_key_length, Hlen. destruct items; simpl; congruence. }
    destruct (sorted_by_key ks); simpl in L; [congruence|discriminate].
  - apply Forall_firstn, Forall_map.
    eapply Forall_impl; [|exact Hk']. intros [q d] H. exists q. exact H.
  - apply firstn_le_length.
Qed.

(** The keys of items none of which has a nan price. *)
Lemma keyed_nan_free (items : list json) (ks : list (pyfloat * dict)) :
  mapM keyed items = Ok ks ->
  Forall (fun item => price_of item <> Ok NaN) items ->
  nan_free ks = true.
Proof.
  revert ks. induction items as [|f items IH]; intros ks M H; simpl in M.
  - now injection M as <-.
  - destruct (keyed f) as [[x d]|] eqn:K; [|discriminate]. simpl in M.
    destruct (mapM keyed items) as [ks'|] eqn:M'; [|discriminate]. simpl in M.
    injection M as <-. inversion H as [|? ? Hf Hi]; subst. simpl.
    rewrite (IH ks' eq_refl Hi), andb_true_r.
    unfold keyed in K. destruct (price_of f) as [x'|] eqn:P; [|discriminate].
    simpl in K. destruct f; try discriminate. injection K as -> _.
    destruct x; [congruence|reflexivity|reflexivity].
Qed.

(** Without a nan price the result is in ascending order of price. *)
Lemma get_cheapest_flights_order (flights : json) (items : list json)
    (cheapest : list dict) :
  py_iter flights = Ok items ->
  Forall (fun item => price_of item <> Ok NaN) items ->
  get_cheapest_flights flights = Ok cheapest ->
  cheapest_first cheapest.
Proof.
  intros I N. unfold get_cheapest_flights. rewrite I. cbn [bind].
  destruct (mapM keyed items) as [ks|] eqn:M; [|discriminate].
  cbn [bind]. intros E.
  assert (E' : cheapest = firstn 7 (map snd (sorted_by_key ks))) by congruence.
  clear E. subst cheapest.
  pose proof (keyed_nan_free items ks M N) as Hn.
  apply (mapM_Forall keyed
           (fun x => price_of (JObj (snd x)) = Ok (fst x))) in M.
  2:{ intros a [q d]. apply keyed_price. }
  destruct M as [Hk _].
  apply StronglySorted_firstn.
  apply StronglySorted_map with (R := key_le) (P := fun x =>
    price_of (JObj (snd x)) = Ok (fst x)).
  - intros [qa a] [qb b] Ha Hb Hab. exists qa, qb. auto.
  - now apply sorted_by_key_Forall.
  - now apply sorted_by_key_sorted.
Qed.

Lemma displayable_selected (f : dict) :
  displayable f -> require_keys f selected_line_keys = Ok tt.
Proof.
  unfold displayable, require_keys, offer_line_keys, selected_line_keys. simpl.
  destruct (dict_get f "origin"); [|discriminate]. simpl.
  destruct (dict_get f "destination"); [|discriminate]. simpl.
  destruct (dict_get f "price"); [|discriminate]. simpl.
  destruct (dict_get f "currency"); [|discriminate]. reflexivity.
Qed.

Lemma py_index_In {A : Type} (l : list A) (i : Z) (a : A) :
  py_index l i = Ok a -> In a l.
Proof.
  unfold py_index. destruct (_ && _); [|discriminate].
  destruct (nth_error l _) eqn:E; [|discriminate].
  intros [= <-]. eapply nth_error_In; eauto.
Qed.

Lemma transition_ok (s s' : session) :
  transition s s' -> session_ok s -> session_ok s'.
Proof.
  intros T (Hsel & Hne & Hd & Hp).
  destruct T as [|fl ch Hst Tf G D|i ch Hst P K|Hst|Hst]; unfold session_ok; simpl.
  - auto.
  - apply get_cheapest_flights_facts in G as (? & ? & ?); auto.
    repeat split; auto; discriminate.
  - repeat split; auto; try discriminate.
    intros _. apply Hne. congruence.
  - repeat split; auto; try congruence; constructor.
  - repeat split; auto; try congruence; constructor.
Qed.

Lemma reachable_ok (s : session) :
  reachable s -> session_ok s.
Proof.
  induction 1 as [|s t s' _ IH Hstep].
  - unfold session_ok. simpl. repeat split; try congruence; constructor.
  - eapply transition_ok; [|exact IH]. eapply step_transition; eauto.
Qed.

(** *** The line "book option N" *)

Lemma search_from_skip (ic : bool) (r : regex) (prev : option ascii)
    (x : ascii) (xs : list ascii) :
  rmatch ic r accept (Cursor prev (x :: xs) []) = None ->
  search_from ic r prev (x :: xs) = search_from ic r (Some x) xs.
Proof. intros H. simpl. now rewrite H. Qed.

Lemma search_from_here (ic : bool) (r : regex) (prev : option ascii)
    (rest : list ascii) (m : captures) :
  rmatch ic r accept (Cursor prev rest []) = Some m ->
  search_from ic r prev rest = Some m.
Proof. intros H. destruct rest; simpl; now rewrite H. Qed.

Lemma same_chars_refl (l : list ascii) : same_chars false l l.
Proof.
  induction l; constructor; [|assumption].
  unfold char_eq. now rewrite Ascii.eqb_refl.
Qed.

Lemma rmatch_repeat_all (ic : bool) (A : Type) (p : ascii -> bool) (lo : nat)
    (k : cursor -> option A) (prev : option ascii) (caps : captures)
    (w : list ascii) (a : A) :
  forallb p w = true ->
  lo <= List.length w ->
  k (Cursor (prev_after prev w) [] caps) = Some a ->
  rmatch ic (Repeat p lo None) k (Cursor prev w caps) = Some a.
Proof.
  intros Hw Hlo Hk. rewrite <- (app_nil_r w) at 1.
  apply rmatch_repeat_run; simpl; auto.
Qed.

Lemma chars_app (a b : string) : chars (a ++ b) = chars a ++ chars b.
Proof. induction a as [|c a IH]; simpl; [reflexivity|]. now rewrite IH. Qed.

Lemma str_app (a b : list ascii) : str (a ++ b) = (str a ++ str b)%string.
Proof. induction a as [|c a IH]; simpl; [reflexivity|]. now rewrite IH. Qed.

Lemma map_lower_digits (l : list ascii) :
  forallb ascii_digit l = true -> map lower_char l = l.
Proof.
  induction l as [|c l IH]; simpl; [reflexivity|].
  intros H. apply andb_true_iff in H as [Hc Hl].
  rewrite ascii_digit_lower by assumption. now rewrite IH.
Qed.

Lemma ascii_digits_ascii (l : list ascii) :
  forallb ascii_digit l = true -> forallb is_ascii l = true.
Proof.
  induction l as [|c l IH]; simpl; [reflexivity|].
  intros H. apply andb_true_iff in H as [Hc Hl].
  now rewrite (ascii_digit_is_ascii c Hc), IH.
Qed.

Lemma ascii_digits_digits (l : list ascii) :
  forallb ascii_digit l = true -> forallb is_digit l = true.
Proof.
  induction l as [|c l IH]; simpl; [reflexivity|].
  intros H. apply andb_true_iff in H as [Hc Hl].
  unfold is_digit at 1. now rewrite (ascii_digit_is_ascii c Hc), Hc, IH.
Qed.

Lemma lower_book_option (n : string) :
  forallb ascii_digit (chars n) = true ->
  lower ("book option " ++ n) = ("book option " ++ n)%string.
Proof.
  intros H. unfold lower, ascii_text. rewrite chars_app, forallb_app.
  rewrite (ascii_digits_ascii _ H). cbn [andb].
  replace (forallb is_ascii (chars "book option ")) with true by reflexivity.
  rewrite map_app, (map_lower_digits (chars n)) by assumption.
  rewrite str_app, str_chars. reflexivity.
Qed.

Lemma option_re_finds (n : list ascii) :
  n <> [] -> forallb is_digit n = true ->
  search_from false option_re None (chars "book option " ++ n) = Some [(1, n)].
Proof.
  intros Hne Hn.
  change (chars "book option " ++ n)
    with ("b"%char :: "o"%char :: "o"%char :: "k"%char :: " "%char
          :: (chars "option" ++ [" "%char] ++ n)).
  do 5 (rewrite search_from_skip by reflexivity).
  apply search_from_here.
  unfold option_re, spaces, Str. rewrite rmatch_cat.
  rewrite rmatch_lits_run with (w := chars "option") by apply same_chars_refl.
  rewrite rmatch_cat.
  apply rmatch_repeat_run; [reflexivity|simpl; lia|exact I| |].
  { right. destruct n as [|d n]; [congruence|]. simpl in *.
    apply andb_true_iff in Hn as [Hd _]. now apply digit_not_space. }
  rewrite rmatch_group.
  apply rmatch_repeat_all; [assumption|now apply length_pos|].
  rewrite (capture_at 1 n) by (simpl; now rewrite app_nil_r).
  reflexivity.
Qed.

Lemma py_int_digits (n : list ascii) :
  n <> [] -> forallb is_digit n = true -> List.length n <= max_str_digits ->
  py_int (str n) = Ok (digits_value n).
Proof.
  intros Hne Hn Hl. unfold py_int. rewrite chars_str.
  destruct n; [congruence|]. rewrite Hn.
  now replace (List.length (a :: n) <=? max_str_digits) with true
    by (symmetry; now apply Nat.leb_le).
Qed.

(** [int] refuses a text of more than [max_str_digits] digits. *)
Lemma py_int_long (n : list ascii) :
  max_str_digits < List.length n -> py_int (str n) = Raise ValueError.
Proof.
  intros Hl. unfold py_int. rewrite chars_str.
  destruct n; [reflexivity|].
  replace (List.length (a :: n) <=? max_str_digits) with false
    by (symmetry; apply Nat.leb_gt; exact Hl).
  now rewrite andb_false_r.
Qed.

Lemma step_book_option (t : turn) (s : session) (n : string) :
  user_input t = ("book option " ++ n)%string ->
  chars n <> [] -> forallb ascii_digit (chars n) = true ->
  conversation_state s = SEARCH_DONE ->
  step t s
  = index <~ (v <- py_int n ;; Ok (v - 1)%Z) ;;
    chosen <~ py_index (last_flights s) index ;;
    _ <~ require_keys chosen selected_line_keys ;;
    Continue (Session AWAITING_PASSENGER_DETAILS (last_flights s) (Some chosen)).
Proof.
  intros Hin Hne Hn Hst. unfold step, detect_intent. rewrite Hin.
  rewrite lower_book_option by assumption.
  replace (is_exit ("book option " ++ n)) with false by reflexivity.
  replace (found (Re.search false intent_re ("book option " ++ n)))
    with true by reflexivity.
  replace (String.eqb "BOOK_FLIGHT" "SEARCH_FLIGHTS") with false by reflexivity.
  cbn [andb].
  replace (in_state SEARCH_DONE s) with true by (symmetry; now apply in_state_eq).
  replace (found (Re.search false book_select_re ("book option " ++ n)))
    with true by reflexivity.
  cbn [andb]. unfold book_select_branch, Re.search.
  rewrite chars_app, option_re_finds by auto using ascii_digits_digits.
  unfold group_text, group. cbn [lookup_group Nat.eqb option_map bind].
  now rewrite str_chars.
Qed.

Lemma step_book_option_number (t : turn) (s : session) (n : string) :
  user_input t = ("book option " ++ n)%string ->
  chars n <> [] -> forallb ascii_digit (chars n) = true ->
  List.length (chars n) <= max_str_digits ->
  conversation_state s = SEARCH_DONE ->
  step t s
  = chosen <~ py_index (last_flights s) (digits_value (chars n) - 1)%Z ;;
    _ <~ require_keys chosen selected_line_keys ;;
    Continue (Session AWAITING_PASSENGER_DETAILS (last_flights s) (Some chosen)).
Proof.
  intros Hin Hne Hn Hl Hst. rewrite (step_book_option t s n Hin Hne Hn Hst).
  rewrite <- (str_chars n) at 1.
  rewrite py_int_digits by auto using ascii_digits_digits. reflexivity.
Qed.

Lemma py_index_nth {A : Type} (l : list A) (i : Z) :
  (0 <= i < Z.of_nat (List.length l))%Z ->
  exists a, nth_error l (Z.to_nat i) = Some a /\ py_index l i = Ok a.
Proof.
  intros H. unfold py_index.
  replace (i <? 0)%Z with false by (symmetry; apply Z.ltb_ge; lia).
  replace ((0 <=? i) && (i <? Z.of_nat (List.length l)))%Z with true
    by (symmetry; apply andb_true_iff; split; [apply Z.leb_le|apply Z.ltb_lt]; lia).
  destruct (nth_error l (Z.to_nat i)) as [a|] eqn:E; [eauto|].
  apply nth_error_None in E. lia.
Qed.

Lemma py_index_beyond {A : Type} (l : list A) (i : Z) :
  (Z.of_nat (List.length l) <= i)%Z -> py_index l i = Raise IndexError.
Proof.
  intros H. unfold py_index.
  replace (i <? 0)%Z with false by (symmetry; apply Z.ltb_ge; lia).
  replace (i <? Z.of_nat (List.length l))%Z with false
    by (symmetry; apply Z.ltb_ge; lia).
  now rewrite andb_false_r.
Qed.

Lemma py_index_minus_one {A : Type} (pre : list A) (a : A) :
  py_index (pre ++ [a]) (-1) = Ok a.
Proof.
  unfold py_index. rewrite length_app. simpl List.length.
  replace (-1 <? 0)%Z with true by reflexivity.
  replace (-1 + Z.of_nat (List.length pre + 1))%Z
    with (Z.of_nat (List.length pre)) by lia.
  replace ((0 <=? Z.of_nat (List.length pre))
           && (Z.of_nat (List.length pre) <? Z.of_nat (List.length pre + 1)))%Z
    with true
    by (symmetry; apply andb_true_iff; split; [apply Z.leb_le|apply Z.ltb_lt]; lia).
  rewrite Nat2Z.id, nth_error_app2, Nat.sub_diag by lia. reflexivity.
Qed.

Lemma sorted_last_greatest {A : Type} (R : A -> A -> Prop) (pre : list A) (a : A) :
  StronglySorted R (pre ++ [a]) -> forall x, In x pre -> R x a.
Proof.
  induction pre as [|b pre IH]; intros H x Hx; [contradiction|].
  simpl in H. apply StronglySorted_inv in H as [Hs Hb].
  destruct Hx as [<-|Hx]; [|now apply IH].
  rewrite Forall_forall in Hb. apply Hb, in_or_app. right. now left.
Qed.

Lemma select_by_number (s : session) (t : turn) (n : string) (f : dict) :
  session_ok s ->
  conversation_state s = SEARCH_DONE ->
  user_input t = ("book option " ++ n)%string ->
  chars n <> [] -> forallb ascii_digit (chars n) = true ->
  List.length (chars n) <= max_str_digits ->
  py_index (last_flights s) (digits_value (chars n) - 1)%Z = Ok f ->
  step t s
  = Continue (Session AWAITING_PASSENGER_DETAILS (last_flights s) (Some f)).
Proof.
  intros (_ & _ & Hd & _) Hst Hin Hne Hn Hl Hf.
  rewrite (step_book_option_number t s n Hin Hne Hn Hl Hst), Hf. cbn [run].
  rewrite displayable_selected; [reflexivity|].
  rewrite Forall_forall in Hd. apply Hd. eapply py_index_In; eauto.
Qed.

(** C8. In a session the loop can reach, in state SEARCH_DONE with at
    least two cached offers, the line "book option 2" selects the second
    cached entry, whatever the prices are, and moves the conversation to
    AWAITING_PASSENGER_DETAILS. *)
Theorem book_option_2_selects_second (s : session) (t : turn) :
  reachable s ->
  conversation_state s = SEARCH_DONE ->
  2 <= List.length (last_flights s) ->
  user_input t = "book option 2" ->
  exists f,
    nth_error (last_flights s) 1 = Some f /\
    step t s
    = Continue (Session AWAITING_PASSENGER_DETAILS (last_flights s) (Some f)).
Proof.
  intros Hr Hst Hlen Hin.
  destruct (py_index_nth (last_flights s) 1) as (f & Hnth & Hidx); [lia|].
  exists f. split; [exact Hnth|].
  apply select_by_number with (n := "2"); auto using reachable_ok.
  - discriminate.
  - unfold max_str_digits. simpl. lia.
Qed.

(** *** Searches without a nan price *)

Lemma keyed_numeric (items : list json) (ks : list (pyfloat * dict)) :
  mapM keyed items = Ok ks ->
  Forall (fun item => price_of item <> Ok NaN) items ->
  Forall (fun k => numeric_price (snd k)) ks.
Proof.
  revert ks. induction items as [|f items IH]; intros ks M H; simpl in M.
  - injection M as <-. constructor.
  - destruct (keyed f) as [[x d]|] eqn:K; [|discriminate]. simpl in M.
    destruct (mapM keyed items) as [ks'|] eqn:M'; [|discriminate]. simpl in M.
    injection M as <-. inversion H as [|? ? Hf Hi]; subst.
    constructor; [|now apply IH].
    pose proof (keyed_price f x d K) as P. exists x. split; [exact P|].
    unfold keyed in K. destruct (price_of f) as [x'|] eqn:P'; [|discriminate].
    simpl in K. destruct f; try discriminate. injection K as -> _.
    destruct x; [congruence|reflexivity|reflexivity].
Qed.

Lemma get_cheapest_flights_numeric (flights : json) (items : list json)
    (cheapest : list dict) :
  py_iter flights = Ok items ->
  Forall (fun item => price_of item <> Ok NaN) items ->
  get_cheapest_flights flights = Ok cheapest ->
  Forall numeric_price cheapest.
Proof.
  intros I N. unfold get_cheapest_flights. rewrite I. cbn [bind].
  destruct (mapM keyed items) as [ks|] eqn:M; [|discriminate].
  cbn [bind]. intros E.
  assert (E' : cheapest = firstn 7 (map snd (sorted_by_key ks))) by congruence.
  clear E. subst cheapest.
  apply Forall_firstn, Forall_map, sorted_by_key_Forall.
  now apply keyed_numeric with (items := items).
Qed.

(** A search that is answered without a nan price leaves the offers in
    ascending order of price. *)
Lemma search_branch_order (t : turn) (s s' : session) :
  search_branch t s = Continue s' -> numeric_answer t ->
  s' = s \/
  (cheapest_first (last_flights s') /\ Forall numeric_price (last_flights s')).
Proof.
  unfold search_branch, run, numeric_answer.
  destruct (extract_search_params _ _ _) as [params|]; [|discriminate].
  destruct (negb (truthy (JObj params))); [intros [= <-]; now left|].
  destruct (search_flights _) as [response|]; [|discriminate].
  destruct (negb (truthy (flights_in response))) eqn:T; [intros [= <-]; now left|].
  destruct (get_cheapest_flights (flights_in response)) as [cheapest|] eqn:G;
    [|discriminate].
  destruct (mapM _ cheapest) as [us|] eqn:M; [|discriminate].
  intros [= <-] N. right. simpl.
  assert (I : exists items, py_iter (flights_in response) = Ok items).
  { unfold get_cheapest_flights in G.
    destruct (py_iter (flights_in response)); [eauto|discriminate]. }
  destruct I as (items & I). specialize (N response items eq_refl I).
  split.
  - eapply get_cheapest_flights_order; eauto.
  - eapply get_cheapest_flights_numeric; eauto.
Qed.

Lemma step_keeps_order (t : turn) (s s' : session) :
  step t s = Continue s' -> numeric_answer t ->
  cheapest_first (last_flights s) /\ Forall numeric_price (last_flights s) ->
  cheapest_first (last_flights s') /\ Forall numeric_price (last_flights s').
Proof.
  unfold step.
  destruct (is_exit _); [discriminate|].
  destruct (String.eqb _ _ && in_state IDLE s).
  { intros H N Hs. apply search_branch_order in H as [->|H]; auto. }
  destruct (in_state SEARCH_DONE s && found (Re.search false book_select_re _)).
  { intros H _ Hs. apply book_select_branch_continue in H as (i & ch & ? & ? & ->).
    exact Hs. }
  destruct (in_state SEARCH_DONE s && found (Re.search false decline_re _)).
  { intros [= <-] _ _. split; constructor. }
  destruct (in_state AWAITING_PASSENGER_DETAILS s).
  { intros H _ Hs. apply passenger_branch_continue in H as [->| ->];
      [exact Hs|split; constructor]. }
  intros [= <-] _ Hs. exact Hs.
Qed.

Lemma reachable_numeric_order (s : session) :
  reachable_numeric s ->
  cheapest_first (last_flights s) /\ Forall numeric_price (last_flights s).
Proof.
  induction 1 as [|s t s' _ IH N Hstep].
  - split; constructor.
  - eapply step_keeps_order; eauto.
Qed.

Lemma numeric_price_le (f : dict) : numeric_price f -> price_le f f.
Proof.
  intros (x & P & N). exists x, x. repeat split; auto. now apply fle_refl.
Qed.

(** C9 (as amended). The selection step indexes the cached offers with
    N-1 and checks no bound.  For "book option N", N written with ASCII
    digits, in a reachable SEARCH_DONE session: when N has no more than
    4300 digits, N between 1 and the number of cached offers selects
    entry N-1, a larger N makes the indexing raise [IndexError], which
    ends the loop, and N = 0 gives index -1, which selects the last
    cached entry, no cheaper than any other when no search was answered
    with a nan price; when N has more than 4300 digits [int] raises
    [ValueError], which ends the loop as well. *)
Theorem book_option_index_unchecked (s : session) (t : turn) (n : string) :
  reachable s ->
  conversation_state s = SEARCH_DONE ->
  user_input t = ("book option " ++ n)%string ->
  chars n <> [] -> forallb ascii_digit (chars n) = true ->
  (List.length (chars n) <= max_str_digits ->
   ((1 <= digits_value (chars n) <= Z.of_nat (List.length (last_flights s)))%Z ->
    exists f,
      nth_error (last_flights s) (Z.to_nat (digits_value (chars n) - 1)) = Some f /\
      step t s
      = Continue (Session AWAITING_PASSENGER_DETAILS (last_flights s) (Some f)))
   /\ ((Z.of_nat (List.length (last_flights s)) < digits_value (chars n))%Z ->
       step t s = Crash IndexError)
   /\ (digits_value (chars n) = 0%Z ->
       exists pre f,
         last_flights s = pre ++ [f] /\
         step t s
         = Continue (Session AWAITING_PASSENGER_DETAILS (last_flights s) (Some f)) /\
         (reachable_numeric s ->
          forall g, In g (last_flights s) -> price_le g f)))
  /\ (max_str_digits < List.length (chars n) -> step t s = Crash ValueError).
Proof.
  intros Hr Hst Hin Hne Hn. pose proof (reachable_ok s Hr) as Hok.
  split; [intros Hl; split; [|split]|].
  - intros Hrange.
    destruct (py_index_nth (last_flights s) (digits_value (chars n) - 1)%Z)
      as (f & Hnth & Hidx); [lia|].
    exists f. split; [exact Hnth|].
    apply select_by_number with (n := n); auto.
  - intros Hbig. rewrite (step_book_option_number t s n Hin Hne Hn Hl Hst).
    rewrite py_index_beyond by lia. reflexivity.
  - intros Hz. destruct Hok as (Hsel & Hnonempty & Hd & Hp).
    destruct (exists_last (Hnonempty ltac:(congruence))) as (pre & f & Hlast).
    exists pre, f. split; [exact Hlast|]. split.
    + apply select_by_number with (n := n); auto.
      * repeat split; auto.
      * rewrite Hz, Hlast. apply py_index_minus_one.
    + intros Hnum. apply reachable_numeric_order in Hnum as [Hs Hnp].
      rewrite Hlast in *. intros g Hg. apply in_app_or in Hg as [Hg|[<-|[]]].
      * eapply sorted_last_greatest; eauto.
      * apply numeric_price_le. rewrite Forall_forall in Hnp. apply Hnp.
        apply in_or_app. right. now left.
  - intros Hl. rewrite (step_book_option t s n Hin Hne Hn Hst).
    rewrite <- (str_chars n) at 1. rewrite py_int_long by assumption.
    reflexivity.
Qed.

(** *** Booking *)

Lemma lstrip_length (l : list ascii) : List.length (lstrip l) <= List.length l.
Proof.
  induction l as [|c l IH]; simpl; [lia|]. destruct (is_space c); simpl; lia.
Qed.

Lemma strip_length (u : string) :
  List.length (chars (strip u)) <= List.length (chars u).
Proof.
  unfold strip, rstrip. rewrite chars_str, length_rev.
  etransitivity; [apply lstrip_length|]. rewrite length_rev. apply lstrip_length.
Qed.

Lemma passenger_prefix_long (t fn ln bd cls : list ascii) :
  passenger_prefix t fn ln bd cls -> 10 <= List.length t.
Proof.
  intros (s1 & s2 & s3 & rest & -> & _ & _ & _ & _
          & (y & mo & dd & -> & [Ly _] & [Lm _] & [Ld _]) & _).
  rewrite !length_app. simpl. rewrite !length_app. simpl. lia.
Qed.

Lemma step_awaiting (t : turn) (s : session) :
  conversation_state s = AWAITING_PASSENGER_DETAILS ->
  is_exit (lower (user_input t)) = false ->
  step t s = passenger_branch t s.
Proof.
  intros Hst Hex. unfold step. rewrite Hex.
  unfold in_state. rewrite Hst. now rewrite !andb_false_r.
Qed.

(** Every answer to the booking request that decodes to a JSON object,
    with or without a bookingReference field, leaves the session in
    state IDLE with no selected flight and no cached offers. *)
Lemma booking_resets_session (s : session) (t : turn) (p : passenger)
    (payload fields : dict) :
  conversation_state s = AWAITING_PASSENGER_DETAILS ->
  is_exit (lower (user_input t)) = false ->
  parse_passenger_details (user_input t) = Some p ->
  booking_payload (selected_flight s) p = Ok payload ->
  create_oneway_booking (booking_response t) = Ok (JObj fields) ->
  step t s = Continue (Session IDLE [] None).
Proof.
  intros Hst Hex Hp Hpay Hres.
  rewrite step_awaiting by assumption.
  unfold passenger_branch. now rewrite Hp, Hpay, Hres.
Qed.

(** C3 (the code departs from it). In state AWAITING_PASSENGER_DETAILS,
    after a valid passenger line, a booking request that fails does not
    reset the session: when the tool server cannot be reached, when its
    answer is not JSON, and when the answer is JSON but not an object,
    the loop ends with the exception, and the reset is never reached. *)
Theorem booking_failure_ends_loop (s : session) (t : turn) (p : passenger)
    (payload : dict) :
  conversation_state s = AWAITING_PASSENGER_DETAILS ->
  is_exit (lower (user_input t)) = false ->
  parse_passenger_details (user_input t) = Some p ->
  booking_payload (selected_flight s) p = Ok payload ->
  (forall msg, booking_response t = NoConnection msg ->
     step t s = Crash ConnectionError)
  /\ (forall status msg, booking_response t = Response status None msg ->
        step t s = Crash JSONDecodeError)
  /\ (forall status v msg, booking_response t = Response status (Some v) msg ->
        (forall fields, v <> JObj fields) ->
        step t s = Crash AttributeError).
Proof.
  intros Hst Hex Hp Hpay.
  rewrite step_awaiting by assumption.
  unfold passenger_branch. rewrite Hp, Hpay. cbn [run].
  unfold create_oneway_booking, post_json.
  split; [|split].
  - now intros msg ->.
  - now intros status msg ->.
  - intros status v msg -> Hv. cbn [run]. unfold booking_reference.
    destruct v; try reflexivity. now destruct (Hv m).
Qed.

(** *** The invariant of the waiting state *)

(** C1. In every session reachable from the initial one, the state
    AWAITING_PASSENGER_DETAILS comes with a selected flight; a transition
    into that state selects one of the cached offers, and every
    transition out of it resets the session, selection included. *)
Theorem awaiting_has_selection :
  (forall s, reachable s ->
     conversation_state s = AWAITING_PASSENGER_DETAILS ->
     selected_flight s <> None)
  /\ (forall t s s', step t s = Continue s' ->
        conversation_state s <> AWAITING_PASSENGER_DETAILS ->
        conversation_state s' = AWAITING_PASSENGER_DETAILS ->
        exists f, selected_flight s' = Some f /\ In f (last_flights s))
  /\ (forall t s s', step t s = Continue s' ->
        conversation_state s = AWAITING_PASSENGER_DETAILS ->
        conversation_state s' <> AWAITING_PASSENGER_DETAILS ->
        s' = Session IDLE [] None).
Proof.
  split; [|split].
  - intros s Hr. apply reachable_ok in Hr. apply Hr.
  - intros t s s' Hstep Hs Hs'. apply step_transition in Hstep.
    destruct Hstep as [|fl ch Hst Tf G D|i ch Hst P K|Hst|Hst];
      simpl in *; try congruence.
    exists ch. split; [reflexivity|]. eapply py_index_In; eauto.
  - intros t s s' Hstep Hs Hs'. apply step_transition in Hstep.
    destruct Hstep as [|fl ch Hst Tf G D|i ch Hst P K|Hst|Hst];
      simpl in *; congruence.
Qed.

(** *** The gateway *)

(** C2 (the code departs from it). When the tool server cannot be
    reached, or answers with a body that is not JSON, [search_flights]
    raises and the loop ends with that exception instead of staying in
    state IDLE. *)
Theorem search_connection_error_crashes (msg : string) :
  search_flights (NoConnection msg) = Raise ConnectionError /\
  post (NoConnection msg) = Raise ConnectionError /\
  step
    (Turn "flights from Mumbai to Delhi on 5 Dec" (Date 2026 11 3)
       "SEARCH_FLIGHTS" None (NoConnection msg) (NoConnection msg))
    initial_session
  = Crash ConnectionError /\
  step
    (Turn "flights from Mumbai to Delhi on 5 Dec" (Date 2026 11 3)
       "SEARCH_FLIGHTS" None (Response 502 None msg) (NoConnection msg))
    initial_session
  = Crash JSONDecodeError.
Proof. repeat split; reflexivity. Qed.

(** An error object in the answer is not a crash: without a "data" entry
    the search finds nothing and the session is left as it was. *)
Lemma search_error_object_keeps_session (status : Z) (m : dict) (msg : string) :
  dict_get m "data" = None ->
  step
    (Turn "flights from Mumbai to Delhi on 5 Dec" (Date 2026 11 3)
       "SEARCH_FLIGHTS" None (Response status (Some (JObj m)) msg)
       (NoConnection msg))
    initial_session
  = Continue initial_session.
Proof.
  intros H. unfold step. cbn [user_input intent_reply].
  replace (is_exit _) with false by reflexivity.
  replace (detect_intent _ _) with "SEARCH_FLIGHTS" by reflexivity.
  cbn [String.eqb Ascii.eqb Bool.eqb andb in_state initial_session
       conversation_state].
  unfold search_branch.
  cbn [today extract_reply user_input search_response].
  replace (extract_search_params _ _ _)
    with (Ok (search_params "BOM" "DEL" "2026-12-05"))
    by (vm_compute; reflexivity).
  cbn [run search_params truthy negb search_flights post_json flights_in].
  rewrite H. reflexivity.
Qed.

(** The same request in [server_mcp.py] never raises. *)
Lemma post_request_never_raises (o : http_outcome) :
  exists v, post_request o = Ok v.
Proof.
  destruct o as [msg|status [v|] msg]; simpl; eauto;
    destruct (_ && _)%bool; eauto.
Qed.

Lemma post_request_marks_failure (msg : string) (status : Z) (body : option json) :
  post_request (NoConnection msg) = Ok (error_payload msg) /\
  ((400 <= status < 600)%Z ->
   post_request (Response status body msg) = Ok (error_payload msg)).
Proof.
  split; [reflexivity|]. intros H. simpl.
  replace ((400 <=? status) && (status <? 600))%Z with true; [reflexivity|].
  symmetry. apply andb_true_iff. split; [apply Z.leb_le|apply Z.ltb_lt]; lia.
Qed.
End LoopFacts.
(** * Further properties *)

(** ** Sorting by price *)

Section SortingMore.
Context {U : unicode} {F : floats}.

Lemma keyed_object (f : json) (q : pyfloat) (d : dict) :
  keyed f = Ok (q, d) -> f = JObj d.
Proof.
  unfold keyed. destruct (price_of f); [|discriminate].
  destruct f; simpl; try discriminate. now intros [= _ ->].
Qed.

Lemma mapM_keyed_items (items : list json) :
  forall ks, mapM (keyed) items = Ok ks ->
  items = map (fun x => JObj (snd x)) ks.
Proof.
  induction items as [|f items IH]; intros ks H; simpl in H.
  - now injection H as <-.
  - destruct (keyed f) as [[q d]|] eqn:E; [|discriminate].
    cbn [bind] in H.
    destruct (mapM (keyed) items) as [ks'|]; [|discriminate].
    cbn [bind] in H. injection H as <-. simpl.
    rewrite (keyed_object f q d E). f_equal. now apply IH.
Qed.

Lemma StronglySorted_app_le {A : Type} (R : A -> A -> Prop) (l1 l2 : list A) :
  StronglySorted R (l1 ++ l2) ->
  forall a b, In a l1 -> In b l2 -> R a b.
Proof.
  induction l1 as [|x l1 IH]; intros H a b Ha Hb; [contradiction|].
  simpl in H. apply StronglySorted_inv in H as [Hs Hx].
  destruct Ha as [<-|Ha]; [|now apply IH].
  rewrite Forall_forall in Hx. apply Hx, in_or_app. now right.
Qed.

(** X1. When [get_cheapest_flights] accepts a list, what it returns and
    what it leaves out make up the list again, and it returns seven
    offers, or all of them if the list is shorter; when no price is nan,
    the returned offers are in ascending order of price as floats, and
    none of them costs more than an offer left out. *)
Theorem get_cheapest_flights_cheapest (items : list json) (cheapest : list dict) :
  get_cheapest_flights (JArr items) = Ok cheapest ->
  exists rest,
    Permutation (map JObj (cheapest ++ rest)) items /\
    List.length cheapest = Nat.min 7 (List.length items) /\
    (Forall (fun item => price_of item <> Ok NaN) items ->
     cheapest_first cheapest /\
     forall a b, In a cheapest -> In b rest -> price_le a b).
Proof.
  unfold get_cheapest_flights. cbn [py_iter bind].
  destruct (mapM keyed items) as [ks|] eqn:M; [|discriminate].
  cbn [bind]. intros E.
  assert (E' : cheapest = firstn 7 (map snd (sorted_by_key ks))) by congruence.
  clear E. subst cheapest.
  pose proof (mapM_keyed_items items ks M) as Hitems.
  pose proof (keyed_nan_free items ks M) as Hnan.
  apply (mapM_Forall keyed
           (fun x => price_of (JObj (snd x)) = Ok (fst x))) in M.
  2:{ intros a [q d]. apply keyed_price. }
  destruct M as [Hk Hlen].
  pose proof (sorted_by_key_Forall _ ks Hk) as Hk'.
  pose proof (sorted_by_key_perm ks) as Hp.
  exists (skipn 7 (map snd (sorted_by_key ks))). rewrite firstn_skipn.
  split; [|split].
  - rewrite Hitems, <- (map_map snd JObj). apply Permutation_map, Permutation_map.
    exact Hp.
  - rewrite length_firstn, length_map.
    rewrite sorted_by_key_length, Hlen. reflexivity.
  - intros N. specialize (Hnan N).
    assert (Hsd : StronglySorted price_le (map snd (sorted_by_key ks))).
    { apply StronglySorted_map with (R := key_le) (P := fun x =>
        price_of (JObj (snd x)) = Ok (fst x)).
      - intros [qa a] [qb b] Ha Hb Hab. exists qa, qb. auto.
      - assumption.
      - now apply sorted_by_key_sorted. }
    split.
    + now apply StronglySorted_firstn.
    + apply StronglySorted_app_le. now rewrite firstn_skipn.
Qed.

Lemma sorted_by_key_fixed (l : list (pyfloat * dict)) :
  nan_free l = true -> StronglySorted key_le l -> sorted_by_key l = l.
Proof.
  intros N H. unfold sorted_by_key. rewrite N. clear N.
  induction H as [|x l Hs IH Hx]; [reflexivity|].
  simpl. rewrite IH. destruct l as [|y l]; [reflexivity|].
  simpl. inversion Hx as [|? ? Hxy _]; subst.
  unfold key_le, fle in Hxy. apply andb_true_iff in Hxy as [_ Hxy].
  apply negb_true_iff in Hxy. now rewrite Hxy.
Qed.

Lemma keyed_all (l : list dict) :
  Forall numeric_price l ->
  exists ks, mapM keyed (map JObj l) = Ok ks /\ map snd ks = l /\
             nan_free ks = true /\
             Forall (fun x => price_of (JObj (snd x)) = Ok (fst x)) ks.
Proof.
  induction 1 as [|d l (q & Hq & Hn) _ (ks & Hm & Hs & Hf & Hk)].
  - exists []. repeat split; constructor.
  - exists ((q, d) :: ks). simpl. unfold keyed at 1. rewrite Hq. cbn [bind].
    rewrite Hm. cbn [bind]. rewrite Hn, Hf.
    repeat split; [now rewrite Hs|]. now constructor.
Qed.

Lemma keys_sorted (ks : list (pyfloat * dict)) :
  Forall (fun x => price_of (JObj (snd x)) = Ok (fst x)) ks ->
  cheapest_first (map snd ks) -> StronglySorted key_le ks.
Proof.
  induction 1 as [|x ks Hx Hk IH]; intros Hs; [constructor|].
  simpl in Hs. apply StronglySorted_inv in Hs as [Hs Hall].
  constructor; [now apply IH|].
  rewrite Forall_forall in *. intros y Hy.
  destruct (Hall (snd y) (in_map snd _ _ Hy)) as (qa & qb & Ha & Hb & Hab).
  pose proof (eq_trans (eq_sym Ha) Hx) as Ea.
  pose proof (eq_trans (eq_sym Hb) (Hk y Hy)) as Eb.
  injection Ea as ->. injection Eb as ->. exact Hab.
Qed.

Lemma get_cheapest_flights_sorted_input (l : list dict) :
  Forall numeric_price l -> cheapest_first l ->
  get_cheapest_flights (JArr (map JObj l)) = Ok (firstn 7 l).
Proof.
  intros Hp Hs. destruct (keyed_all l Hp) as (ks & Hm & Hsnd & Hf & Hk).
  unfold get_cheapest_flights. cbn [py_iter bind]. rewrite Hm. cbn [bind].
  rewrite sorted_by_key_fixed; [now rewrite Hsnd|assumption|].
  apply keys_sorted; [assumption|now rewrite Hsnd].
Qed.

Lemma get_cheapest_flights_length (flights : json) (cheapest : list dict) :
  get_cheapest_flights flights = Ok cheapest -> List.length cheapest <= 7.
Proof.
  unfold get_cheapest_flights.
  destruct (py_iter flights) as [items|]; [|discriminate]. cbn [bind].
  destruct (mapM keyed items) as [ks|]; [|discriminate]. cbn [bind].
  intros E.
  assert (E' : cheapest = firstn 7 (map snd (sorted_by_key ks))) by congruence.
  subst. apply firstn_le_length.
Qed.

(** X3. When no price is nan, [get_cheapest_flights] applied to its own
    result gives that result back: the cached list is already what a
    new sort of it would produce. *)
Theorem get_cheapest_flights_idempotent (flights : json) (items : list json)
    (cheapest : list dict) :
  py_iter flights = Ok items ->
  Forall (fun item => price_of item <> Ok NaN) items ->
  get_cheapest_flights flights = Ok cheapest ->
  get_cheapest_flights (JArr (map JObj cheapest)) = Ok cheapest.
Proof.
  intros I N H.
  rewrite get_cheapest_flights_sorted_input.
  - rewrite firstn_all2; [reflexivity|].
    now apply get_cheapest_flights_length with (flights := flights).
  - eapply get_cheapest_flights_numeric; eauto.
  - eapply get_cheapest_flights_order; eauto.
Qed.

End SortingMore.

(** ** More about the loop *)

Section LoopMore.
Context {U : unicode} {F : floats}.

Lemma transition_shape (s s' : session) :
  transition s s' ->
  session_shape s /\ List.length (last_flights s) <= 7 ->
  session_shape s' /\ List.length (last_flights s') <= 7.
Proof.
  intros T [Hs Hl].
  destruct T as [|fl ch Hst Tf G D|i ch Hst P K|Hst|Hst]; unfold session_shape in *;
    simpl.
  - auto.
  - rewrite Hst in Hs. destruct Hs as [_ Hsel].
    apply get_cheapest_flights_facts in G as (? & ? & ?); auto.
  - split; [|assumption]. exists ch. split; [reflexivity|].
    eapply py_index_In; eauto.
  - split; [auto|simpl; lia].
  - split; [auto|simpl; lia].
Qed.

Lemma reachable_shape (s : session) :
  reachable s ->
  session_shape s /\ List.length (last_flights s) <= 7.
Proof.
  induction 1 as [|s t s' _ IH Hstep].
  - unfold session_shape. simpl. split; [auto|lia].
  - eapply transition_shape; [|exact IH]. eapply step_transition; eauto.
Qed.

(** X5. In every session the loop can reach: in IDLE there is neither a
    cached offer nor a selection; in SEARCH_DONE there are cached offers
    and no selection; in AWAITING_PASSENGER_DETAILS the selected flight is
    one of the cached offers.  The cache never holds more than seven
    offers, each with the five fields that are printed, and it is in
    ascending order of price when no search was answered with a nan
    price. *)
Theorem reachable_session_shape (s : session) :
  reachable s ->
  session_shape s /\
  List.length (last_flights s) <= 7 /\
  Forall displayable (last_flights s) /\
  (reachable_numeric s -> cheapest_first (last_flights s)).
Proof.
  intros H. destruct (reachable_shape s H) as [Hs Hl].
  destruct (reachable_ok s H) as (_ & _ & Hd & _).
  repeat split; auto. intros N. now apply reachable_numeric_order.
Qed.

(** X6. A turn keeps the cached offers as they are, or clears them on the
    way back to IDLE, or replaces them by a search that started in IDLE:
    nothing else touches them. *)
Theorem cached_offers_change (t : turn) (s s' : session) :
  step t s = Continue s' ->
  last_flights s' = last_flights s \/
  (last_flights s' = [] /\ conversation_state s' = IDLE) \/
  (conversation_state s = IDLE /\ conversation_state s' = SEARCH_DONE).
Proof.
  intros H. apply step_transition in H.
  destruct H as [|fl ch Hst Tf G D|i ch Hst P K|Hst|Hst]; simpl; auto.
Qed.


Lemma branch_never_stops (t : turn) (s : session) :
  search_branch t s <> Stop /\
  book_select_branch (lower (user_input t)) s <> Stop /\
  passenger_branch t s <> Stop.
Proof.
  repeat split.
  - unfold search_branch, run.
    destruct (extract_search_params _ _ _); [|discriminate].
    destruct (negb _); [discriminate|].
    destruct (search_flights _) as [r|]; [|discriminate].
    destruct (negb _); [discriminate|].
    destruct (get_cheapest_flights _); [|discriminate].
    destruct (mapM _ _); discriminate.
  - unfold book_select_branch, run.
    destruct (match Re.search _ _ _ with Some _ => _ | None => _ end); [|discriminate].
    destruct (py_index _ _); [|discriminate].
    destruct (require_keys _ _); discriminate.
  - unfold passenger_branch, run.
    destruct (parse_passenger_details _); [|discriminate].
    destruct (booking_payload _ _); [|discriminate].
    destruct (create_oneway_booking _) as [r|]; [|discriminate].
    destruct (booking_reference r); discriminate.
Qed.

Lemma is_exit_iff (text : string) :
  is_exit text = true <-> text = "exit" \/ text = "quit".
Proof.
  unfold is_exit. rewrite orb_true_iff, !String.eqb_eq. reflexivity.
Qed.

(** X7. The loop ends without an exception exactly when the line, in
    lower case, is "exit" or "quit"; this holds in every state. *)
Theorem stop_only_on_exit (t : turn) (s : session) :
  step t s = Stop <->
  lower (user_input t) = "exit" \/ lower (user_input t) = "quit".
Proof.
  rewrite <- is_exit_iff. unfold step.
  destruct (is_exit (lower (user_input t))); [split; reflexivity|].
  destruct (branch_never_stops t s) as (H1 & H2 & H3).
  split; [|discriminate].
  destruct (_ && in_state IDLE s); [contradiction|].
  destruct (in_state SEARCH_DONE s && _); [contradiction|].
  destruct (in_state SEARCH_DONE s && _); [discriminate|].
  destruct (in_state AWAITING_PASSENGER_DETAILS s); [contradiction|discriminate].
Qed.

Lemma booking_verb_found (text : string) :
  whole_word_in "book" (lower text) \/ whole_word_in "reserve" (lower text) ->
  found (Re.search false intent_re (lower text)) = true.
Proof.
  unfold Re.search.
  intros [(pre & post & -> & Hb & Ha) | (pre & post & -> & Hb & Ha)];
    apply search_from_hit, intent_re_at_word;
    rewrite ?word_before_last, ?word_after_hd; auto.
Qed.

Lemma found_not_exit (r : regex) (text : string) :
  found (Re.search false r "exit") = false ->
  found (Re.search false r "quit") = false ->
  found (Re.search false r text) = true -> is_exit text = false.
Proof.
  intros He Hq H. destruct (is_exit text) eqn:E; [|reflexivity].
  apply is_exit_iff in E as [-> | ->]; congruence.
Qed.

Lemma step_idle_chat (t : turn) (s : session) :
  conversation_state s = IDLE ->
  is_exit (lower (user_input t)) = false ->
  String.eqb (detect_intent (intent_reply t) (user_input t)) "SEARCH_FLIGHTS" = false ->
  step t s = Continue s.
Proof.
  intros Hst Hex Hint. unfold step. rewrite Hex, Hint.
  unfold in_state. rewrite Hst. reflexivity.
Qed.

(** X8. In state IDLE a line with "book" or "reserve" as a whole word
    changes nothing: it is never taken for a search and there is nothing
    to select yet. *)
Theorem booking_verb_when_idle (t : turn) (s : session) :
  whole_word_in "book" (lower (user_input t)) \/
  whole_word_in "reserve" (lower (user_input t)) ->
  conversation_state s = IDLE ->
  step t s = Continue s.
Proof.
  intros Hw Hst. pose proof (booking_verb_found _ Hw) as Hf.
  apply step_idle_chat; auto.
  - apply (found_not_exit intent_re); auto.
  - unfold detect_intent. now rewrite Hf.
Qed.

(** X9. While passenger details are awaited, a line that is not a valid
    passenger line (and not exit or quit) leaves the session as it is,
    whatever its intent. *)
Theorem invalid_passenger_line (t : turn) (s : session) :
  conversation_state s = AWAITING_PASSENGER_DETAILS ->
  parse_passenger_details (user_input t) = None ->
  lower (user_input t) <> "exit" -> lower (user_input t) <> "quit" ->
  step t s = Continue s.
Proof.
  intros Hst Hp He Hq. rewrite step_awaiting; auto.
  - unfold passenger_branch. now rewrite Hp.
  - destruct (is_exit _) eqn:E; [|reflexivity].
    apply is_exit_iff in E as [E|E]; contradiction.
Qed.

(** X10. Outside AWAITING_PASSENGER_DETAILS the answer to the booking
    request plays no part in the turn, and outside IDLE neither the
    answer to the search request nor the oracle's extraction does. *)
Theorem backend_answers_used (u : string) (d : date) (ir : string)
    (er er' : option json) (sr sr' br br' : http_outcome) (s : session) :
  (conversation_state s <> AWAITING_PASSENGER_DETAILS ->
   step (Turn u d ir er sr br) s
   = step (Turn u d ir er sr br') s)
  /\ (conversation_state s <> IDLE ->
      step (Turn u d ir er sr br) s
      = step (Turn u d ir er' sr' br) s).
Proof.
  split; intros Hst; unfold step; cbn [user_input intent_reply];
    destruct (is_exit _); try reflexivity;
    unfold in_state; destruct (conversation_state s); try congruence;
    rewrite ?andb_false_r, ?andb_true_r; cbn [andb]; reflexivity.
Qed.

Lemma decline_re_at_word (w : string) (prev : option ascii) (post : list ascii) :
  In w decline_words ->
  word_before prev = false ->
  word_after post = false ->
  found (rmatch false decline_re accept (Cursor prev (chars w ++ post) [])) = true.
Proof.
  intros Hw Hb Ha. unfold decline_words in Hw. simpl in Hw.
  repeat (destruct Hw as [<-|Hw];
          [simpl; unfold at_boundary; simpl; rewrite Hb; simpl;
           unfold at_boundary; simpl; rewrite ?Ha; reflexivity|]).
  contradiction.
Qed.

(** X11. In state SEARCH_DONE, a line that holds one of the decline words
    as a whole word, and that is neither a selection nor exit or quit,
    clears the cached offers and returns to IDLE. *)
Theorem decline_resets (t : turn) (s : session) (w : string) :
  In w decline_words ->
  whole_word_in w (lower (user_input t)) ->
  conversation_state s = SEARCH_DONE ->
  found (Re.search false book_select_re (lower (user_input t))) = false ->
  lower (user_input t) <> "exit" -> lower (user_input t) <> "quit" ->
  step t s = Continue (Session IDLE [] None).
Proof.
  intros Hw (pre & post & Ht & Hb & Ha) Hst Hsel He Hq. unfold step.
  replace (is_exit (lower (user_input t))) with false.
  2:{ symmetry. destruct (is_exit _) eqn:E; [|reflexivity].
      apply is_exit_iff in E as [E|E]; contradiction. }
  unfold in_state. rewrite Hst, Hsel, andb_false_r. cbn [andb].
  replace (found (Re.search false decline_re (lower (user_input t)))) with true;
    [reflexivity|].
  symmetry. unfold Re.search. rewrite Ht.
  apply search_from_hit, decline_re_at_word;
    rewrite ?word_before_last, ?word_after_hd; auto.
Qed.

Lemma py_index_first {A : Type} (a : A) (l : list A) : py_index (a :: l) 0 = Ok a.
Proof. reflexivity. Qed.

(** X12. In a reachable SEARCH_DONE session, a selection that carries no
    "option <number>" ("book cheapest", but also "book 3") selects the
    first cached offer; no cached offer is cheaper when no search was
    answered with a nan price. *)
Theorem select_defaults_to_first (t : turn) (s : session) :
  reachable s ->
  conversation_state s = SEARCH_DONE ->
  found (Re.search false book_select_re (lower (user_input t))) = true ->
  Re.search false option_re (lower (user_input t)) = None ->
  exists f rest,
    last_flights s = f :: rest /\
    step t s
    = Continue (Session AWAITING_PASSENGER_DETAILS (last_flights s) (Some f)) /\
    (reachable_numeric s -> forall g, In g (last_flights s) -> price_le f g).
Proof.
  intros Hr Hst Hsel Hopt.
  destruct (reachable_ok s Hr) as (_ & Hne & Hd & Hp).
  destruct (last_flights s) as [|f rest] eqn:El; [exfalso; apply Hne; congruence|].
  exists f, rest. split; [reflexivity|]. split.
  - unfold step.
    rewrite (found_not_exit book_select_re) by (reflexivity || assumption).
    unfold in_state. rewrite Hst, Hsel, andb_false_r. cbn [andb].
    unfold book_select_branch. rewrite Hopt. cbn [run last_flights].
    rewrite ?El, py_index_first. cbn [run].
    rewrite displayable_selected; [reflexivity|]. now inversion Hd.
  - intros N. apply reachable_numeric_order in N as [Hs Hn]. rewrite El in *.
    intros g [<-|Hg].
    + apply numeric_price_le. now inversion Hn.
    + apply StronglySorted_inv in Hs as [_ Hall].
      rewrite Forall_forall in Hall. auto.
Qed.

(** X13. In a reachable session that awaits passenger details, building
    the booking request can fail in one way only: the selected offer has
    no "departDate".  A selection and its "offerId" are always there. *)
Theorem booking_payload_in_reach (s : session) (p : passenger) (e : exn) :
  reachable s ->
  conversation_state s = AWAITING_PASSENGER_DETAILS ->
  booking_payload (selected_flight s) p = Raise e ->
  e = KeyError /\
  exists f, selected_flight s = Some f /\ dict_get f "departDate" = None.
Proof.
  intros Hr Hst. destruct (reachable_shape s Hr) as [Hs _].
  destruct (reachable_ok s Hr) as (_ & _ & Hd & _).
  unfold session_shape in Hs. rewrite Hst in Hs. destruct Hs as (f & Hf & Hin).
  rewrite Hf. unfold booking_payload, getitem.
  rewrite Forall_forall in Hd. specialize (Hd f Hin).
  unfold displayable, require_keys, offer_line_keys in Hd. simpl in Hd.
  destruct (dict_get f "origin"); [|discriminate]. simpl in Hd.
  destruct (dict_get f "destination"); [|discriminate]. simpl in Hd.
  destruct (dict_get f "price"); [|discriminate]. simpl in Hd.
  destruct (dict_get f "currency"); [|discriminate]. simpl in Hd.
  destruct (dict_get f "offerId"); [|discriminate]. cbn [bind].
  destruct (dict_get f "departDate") eqn:D; [discriminate|].
  cbn [bind]. intros [= <-]. eauto.
Qed.

End LoopMore.

(** ** More about intent and extraction *)

Section AgentMore.
Context {U : unicode}.

Lemma steps_lits_prev (ic : bool) :
  forall (l : list ascii) (s s' : cursor),
    steps ic (lits l) s s' ->
    exists w, c_rest s = w ++ c_rest s' /\ same_chars ic l w /\
              c_prev s' = prev_after (c_prev s) w.
Proof.
  induction l as [|c l IH]; intros s s' H.
  - simpl in H. subst. exists []. repeat split. constructor.
  - destruct l as [|c2 l].
    + simpl in H. destruct H as (x & Hr & Hc & Hp & _).
      exists [x]. repeat split; auto. repeat constructor. exact Hc.
    + change (lits (c :: c2 :: l)) with (Cat (Lit c) (lits (c2 :: l))) in H.
      cbn [steps] in H. destruct H as (s1 & (x & Hr & Hc & Hp & _) & H).
      apply IH in H as (w & Hw & Hs & Hp').
      exists (x :: w). rewrite Hr, Hw. repeat split.
      * constructor; assumption.
      * simpl. now rewrite <- Hp.
Qed.

Lemma intent_re_sound (prev : option ascii) (suf : list ascii) (m : captures) :
  rmatch false intent_re accept (Cursor prev suf []) = Some m ->
  exists w post,
    (w = "book" \/ w = "reserve") /\ suf = chars w ++ post /\
    word_before prev = false /\ word_after post = false.
Proof.
  intros H. apply rmatch_sound in H as (s' & H & _).
  unfold intent_re in H. cbn [steps alts] in H.
  destruct H as (a1 & (B1 & ->) & a2 & (b & Halt & ->) & (B2 & _)).
  unfold at_boundary in B1, B2. cbn [c_prev c_rest capture] in *.
  assert (Hcase : exists w, (w = "book" \/ w = "reserve") /\
            suf = chars w ++ c_rest b /\ word_after suf = true /\
            word_before (c_prev b) = true).
  { destruct Halt as [H|H]; unfold Str in H;
      apply steps_lits_prev in H as (w & Hr & Hs & Hp);
      apply same_chars_exact in Hs; subst w; cbn [c_prev c_rest] in *;
      [exists "book"|exists "reserve"]; rewrite Hp, Hr; auto. }
  destruct Hcase as (w & Hw & Hsuf & Hwa & Hwb).
  exists w, (c_rest b). rewrite Hwa in B1. rewrite Hwb in B2.
  repeat split; auto.
  - now destruct (word_before prev).
  - now destruct (word_after (c_rest b)).
Qed.

Lemma booking_verb_found_iff (text : string) :
  found (Re.search false intent_re (lower text)) = true <->
  whole_word_in "book" (lower text) \/ whole_word_in "reserve" (lower text).
Proof.
  split.
  - unfold Re.search. destruct (search_from _ _ _ _) as [m|] eqn:E; [|discriminate].
    intros _. apply search_from_sound in E as (pre & suf & Ht & E).
    apply intent_re_sound in E as (w & post & Hw & -> & Hb & Ha).
    rewrite word_before_last in Hb. rewrite word_after_hd in Ha.
    destruct Hw as [-> | ->]; [left|right]; exists pre, post; auto.
  - unfold Re.search.
    intros [(pre & post & -> & Hb & Ha) | (pre & post & -> & Hb & Ha)];
      apply search_from_hit, intent_re_at_word;
      rewrite ?word_before_last, ?word_after_hd; auto.
Qed.

(** X14. [detect_intent] answers BOOK_FLIGHT exactly when the text holds
    "book" or "reserve" as a whole word or the oracle's reply, stripped,
    is that very label. *)
Theorem detect_intent_book_flight_iff (reply text : string) :
  detect_intent reply text = "BOOK_FLIGHT" <->
  whole_word_in "book" (lower text) \/ whole_word_in "reserve" (lower text) \/
  strip reply = "BOOK_FLIGHT".
Proof.
  unfold detect_intent.
  destruct (found (Re.search false intent_re (lower text))) eqn:E.
  - apply booking_verb_found_iff in E. split; [tauto|reflexivity].
  - split; [tauto|]. intros [H|[H|H]]; auto.
    + assert (found (Re.search false intent_re (lower text)) = true)
        by (apply booking_verb_found_iff; auto). congruence.
    + assert (found (Re.search false intent_re (lower text)) = true)
        by (apply booking_verb_found_iff; auto). congruence.
Qed.

(** X15. Without a booking verb the label is the oracle's reply, stripped
    and otherwise unchecked. *)
Theorem detect_intent_follows_oracle (reply text : string) :
  ~ whole_word_in "book" (lower text) -> ~ whole_word_in "reserve" (lower text) ->
  detect_intent reply text = strip reply.
Proof.
  intros Hb Hr. unfold detect_intent.
  destruct (found (Re.search false intent_re (lower text))) eqn:E; [|reflexivity].
  apply booking_verb_found_iff in E. tauto.
Qed.

Lemma scan_cities_fold (text : string) :
  scan_cities text = fold_left (scan_step text) city_map (None, None).
Proof. reflexivity. Qed.

Lemma scan_step_eq (text : string) (o0 d0 : option string) (city code : string) :
  scan_step text (o0, d0) (city, code)
  = (if contains ("from " ++ city) text then Some code else o0,
     if contains ("to " ++ city) text then Some code else d0).
Proof. reflexivity. Qed.

Lemma scan_fold_sound (text : string) (l : list (string * string)) :
  forall o0 d0 o d,
    fold_left (scan_step text) l (o0, d0) = (o, d) ->
    (forall code, o = Some code ->
       o0 = Some code \/
       exists city, In (city, code) l /\ contains ("from " ++ city) text = true) /\
    (forall code, d = Some code ->
       d0 = Some code \/
       exists city, In (city, code) l /\ contains ("to " ++ city) text = true) /\
    (o = None ->
       o0 = None /\ forall city code, In (city, code) l ->
                    contains ("from " ++ city) text = false) /\
    (d = None ->
       d0 = None /\ forall city code, In (city, code) l ->
                    contains ("to " ++ city) text = false).
Proof.
  induction l as [|[city code] l IH]; intros o0 d0 o d H.
  - simpl in H. injection H as -> ->. repeat split; auto; intros ? ? [].
  - change (fold_left (scan_step text) ((city, code) :: l) (o0, d0))
      with (fold_left (scan_step text) l (scan_step text (o0, d0) (city, code)))
      in H.
    rewrite scan_step_eq in H. apply IH in H as (Ho & Hd & Hon & Hdn). repeat split.
    + intros c Hc. destruct (Ho c Hc) as [H|(city' & Hin & Hct)].
      * revert H. destruct (contains ("from " ++ city) text) eqn:E; [|auto].
        intros [= <-]. right. exists city. split; [left; reflexivity|exact E].
      * right. exists city'. split; [right; assumption|assumption].
    + intros c Hc. destruct (Hd c Hc) as [H|(city' & Hin & Hct)].
      * revert H. destruct (contains ("to " ++ city) text) eqn:E; [|auto].
        intros [= <-]. right. exists city. split; [left; reflexivity|exact E].
      * right. exists city'. split; [right; assumption|assumption].
    + destruct (Hon H) as [H0 _]. revert H0.
      destruct (contains ("from " ++ city) text); [discriminate|auto].
    + intros city' code' [[= <- <-]|Hin].
      * destruct (Hon H) as [H0 _]. revert H0.
        destruct (contains ("from " ++ city) text); [discriminate|reflexivity].
      * destruct (Hon H) as [_ Hall]. eauto.
    + destruct (Hdn H) as [H0 _]. revert H0.
      destruct (contains ("to " ++ city) text); [discriminate|auto].
    + intros city' code' [[= <- <-]|Hin].
      * destruct (Hdn H) as [H0 _]. revert H0.
        destruct (contains ("to " ++ city) text); [discriminate|reflexivity].
      * destruct (Hdn H) as [_ Hall]. eauto.
Qed.

(** X16. A code found by the city scan is the code of a city of the table
    whose name follows "from " (for the origin) or "to " (for the
    destination) somewhere in the text, and no code is found exactly when
    no city of the table occurs that way. *)
Theorem scan_cities_finds (text : string) (o d : option string) :
  scan_cities text = (o, d) ->
  (forall code, o = Some code -> named_after "from " text code) /\
  (forall code, d = Some code -> named_after "to " text code) /\
  (o = None <-> forall city code, In (city, code) city_map ->
                contains ("from " ++ city) text = false) /\
  (d = None <-> forall city code, In (city, code) city_map ->
                contains ("to " ++ city) text = false).
Proof.
  rewrite scan_cities_fold. intros H.
  destruct (scan_fold_sound text city_map None None o d H) as (Ho & Hd & Hon & Hdn).
  repeat split.
  - intros code Hc. destruct (Ho code Hc) as [?|?]; [discriminate|assumption].
  - intros code Hc. destruct (Hd code Hc) as [?|?]; [discriminate|assumption].
  - intros Hn. now apply Hon.
  - intros Hall. destruct o as [code|]; [|reflexivity].
    destruct (Ho code eq_refl) as [?|(city & Hin & Hc)]; [discriminate|].
    rewrite (Hall city code Hin) in Hc. discriminate.
  - intros Hn. now apply Hdn.
  - intros Hall. destruct d as [code|]; [|reflexivity].
    destruct (Hd code eq_refl) as [?|(city & Hin & Hc)]; [discriminate|].
    rewrite (Hall city code Hin) in Hc. discriminate.
Qed.

Lemma scan_fold_keeps_origin (text : string) (l : list (string * string)) :
  (forall city code, In (city, code) l -> contains ("from " ++ city) text = false) ->
  forall o0 d0, fst (fold_left (scan_step text) l (o0, d0)) = o0.
Proof.
  induction l as [|[city code] l IH]; intros Hl o0 d0; [reflexivity|].
  change (fold_left (scan_step text) ((city, code) :: l) (o0, d0))
    with (fold_left (scan_step text) l (scan_step text (o0, d0) (city, code))).
  rewrite scan_step_eq, IH.
  - now rewrite (Hl city code (or_introl eq_refl)).
  - intros c k Hin. apply (Hl c k). now right.
Qed.

Lemma scan_fold_keeps_destination (text : string) (l : list (string * string)) :
  (forall city code, In (city, code) l -> contains ("to " ++ city) text = false) ->
  forall o0 d0, snd (fold_left (scan_step text) l (o0, d0)) = d0.
Proof.
  induction l as [|[city code] l IH]; intros Hl o0 d0; [reflexivity|].
  change (fold_left (scan_step text) ((city, code) :: l) (o0, d0))
    with (fold_left (scan_step text) l (scan_step text (o0, d0) (city, code))).
  rewrite scan_step_eq, IH.
  - now rewrite (Hl city code (or_introl eq_refl)).
  - intros c k Hin. apply (Hl c k). now right.
Qed.

Lemma fold_left_pair_step (text : string) (l : list (string * string))
    (acc : option string * option string) :
  fold_left (scan_step text) l acc
  = fold_left (scan_step text) l (fst acc, snd acc).
Proof. now destruct acc. Qed.

(** X17. When several cities follow "from " (or "to ") in the text, the
    one that comes last in the table decides, wherever it stands in the
    text. *)
Theorem scan_cities_last_city_wins (text city code : string)
    (before after : list (string * string)) :
  city_map = before ++ (city, code) :: after ->
  (contains ("from " ++ city) text = true ->
   (forall c k, In (c, k) after -> contains ("from " ++ c) text = false) ->
   fst (scan_cities text) = Some code) /\
  (contains ("to " ++ city) text = true ->
   (forall c k, In (c, k) after -> contains ("to " ++ c) text = false) ->
   snd (scan_cities text) = Some code).
Proof.
  intros Hmap. rewrite scan_cities_fold, Hmap, fold_left_app.
  rewrite (fold_left_pair_step text ((city, code) :: after)).
  set (o1 := fst (fold_left (scan_step text) before (None, None))).
  set (d1 := snd (fold_left (scan_step text) before (None, None))).
  change (fold_left (scan_step text) ((city, code) :: after) (o1, d1))
    with (fold_left (scan_step text) after (scan_step text (o1, d1) (city, code))).
  rewrite scan_step_eq. split; intros Hc Hafter.
  - rewrite scan_fold_keeps_origin by assumption. now rewrite Hc.
  - rewrite scan_fold_keeps_destination by assumption. now rewrite Hc.
Qed.

Lemma city_codes_nonempty (city code : string) :
  In (city, code) city_map -> code <> "".
Proof.
  simpl. intros H.
  repeat (destruct H as [[= <- <-]|H]; [discriminate|]). contradiction.
Qed.

Lemma strftime_nonempty (d : date) : strftime_ymd d <> "".
Proof.
  unfold strftime_ymd. destruct (decimal (year d)); discriminate.
Qed.

Lemma truthy_str (s : string) : s <> "" -> truthy (JStr s) = true.
Proof.
  intros H. simpl. apply negb_true_iff, String.eqb_neq. exact H.
Qed.

Lemma datetime_raises (y m d : Z) (e : exn) :
  datetime y m d = Raise e -> e = ValueError /\ valid_date y m d = false.
Proof.
  unfold datetime. destruct (valid_date y m d); [discriminate|].
  intros [= <-]. auto.
Qed.

Lemma datetime_ok (y m d : Z) (x : date) :
  datetime y m d = Ok x -> x = Date y m d /\ valid_date y m d = true.
Proof.
  unfold datetime. destruct (valid_date y m d); [|discriminate].
  intros [= <-]. auto.
Qed.

(** X19. Whenever the date pattern matches, [int] and [strptime] accept
    what it captured: the day is a number from 0 to 99 and the month a
    number from 1 to 12. *)
Theorem date_match_resolves (text : string) (m : captures) :
  Re.search false date_re text = Some m ->
  exists dd mm, day_month m = Ok (dd, mm) /\
                (0 <= dd <= 99)%Z /\ (1 <= mm <= 12)%Z.
Proof. apply day_month_resolves. Qed.

(** X18. [extract_search_params] has three outcomes: the empty result; a
    result whose origin, destination and departDate are all present and
    not empty; or [ValueError], raised only in the fallback, when the day
    read from the text does not exist in the month, this year or next. *)
Theorem extract_search_params_outcomes (today : date) (reply : option json)
    (input : string) :
  match extract_search_params today reply input with
  | Ok p =>
      p = [] \/
      (truthy_get p "origin" = true /\ truthy_get p "destination" = true /\
       truthy_get p "departDate" = true)
  | Raise e =>
      e = ValueError /\ llm_attempt reply = None /\
      exists m dd mm,
        Re.search false date_re (lower input) = Some m /\
        day_month m = Ok (dd, mm) /\
        (valid_date (year today) mm dd = false \/
         valid_date (year today + 1) mm dd = false)
  end.
Proof.
  unfold extract_search_params.
  destruct (llm_attempt reply) as [parsed|] eqn:L.
  { right. unfold llm_attempt in L.
    destruct reply as [[ | | | | | | |p]|]; try discriminate.
    destruct (truthy_get p "origin") eqn:A; [|discriminate].
    destruct (truthy_get p "destination") eqn:B; [|discriminate].
    destruct (truthy_get p "departDate") eqn:C; [|discriminate].
    injection L as <-. auto. }
  unfold regex_fallback.
  destruct (scan_cities (lower input)) as [o d] eqn:S.
  destruct o as [o|]; [|now left].
  destruct d as [d|]; [|now left].
  destruct (Re.search false date_re (lower input)) as [m|] eqn:M; [|now left].
  destruct (day_month_resolves _ _ M) as (dd & mm & Hdm & _ & _).
  rewrite Hdm. cbn [bind].
  destruct (datetime (year today) mm dd) as [cand|e] eqn:D1; cbn [bind].
  2:{ apply datetime_raises in D1 as [-> Hv]. repeat split; auto.
      exists m, dd, mm. auto. }
  apply datetime_ok in D1 as [-> Hv1].
  destruct (datetime (resolve_year today (Date (year today) mm dd)) mm dd)
    as [final|e] eqn:D2; cbn [bind].
  - right. rewrite scan_cities_fold in S.
    destruct (scan_fold_sound _ _ _ _ _ _ S) as (Ho & Hd & _).
    destruct (Ho o eq_refl) as [?|(c1 & Hin1 & _)]; [discriminate|].
    destruct (Hd d eq_refl) as [?|(c2 & Hin2 & _)]; [discriminate|].
    unfold truthy_get, search_params. cbn [dict_get String.eqb Ascii.eqb Bool.eqb].
    repeat split; apply truthy_str;
      eauto using city_codes_nonempty, strftime_nonempty.
  - apply datetime_raises in D2 as [-> Hv2]. repeat split; auto.
    exists m, dd, mm. repeat split; auto.
    unfold resolve_year in Hv2.
    destruct (date_lt _ _); [now right|]. simpl in Hv2. congruence.
Qed.

End AgentMore.

(** ** The tool server *)

Module ToolServerFacts.
Import ToolServer.

Lemma assoc_dict_set_same {V : Type} (d : list (string * V)) (k : string) (v : V) :
  assoc (dict_set d k v) k = Some v.
Proof.
  induction d as [|[k' v'] d IH]; simpl.
  - now rewrite String.eqb_refl.
  - destruct (String.eqb k' k) eqn:E; simpl.
    + now rewrite String.eqb_refl.
    + now rewrite E.
Qed.

Lemma assoc_dict_set_other {V : Type} (d : list (string * V)) (k k2 : string) (v : V) :
  k2 <> k -> assoc (dict_set d k v) k2 = assoc d k2.
Proof.
  intros Hne. induction d as [|[k' v'] d IH]; simpl.
  - apply String.eqb_neq in Hne. rewrite String.eqb_sym. now rewrite Hne.
  - destruct (String.eqb k' k) eqn:E; simpl.
    + apply String.eqb_eq in E. subst k'.
      replace (String.eqb k k2) with false; [reflexivity|].
      symmetry. apply String.eqb_neq. congruence.
    + destruct (String.eqb k' k2); auto.
Qed.

Lemma dict_set_keys_in {V : Type} (d : list (string * V)) (k : string) (v : V) (x : string) :
  In x (map fst (dict_set d k v)) <-> x = k \/ In x (map fst d).
Proof.
  induction d as [|[k' v'] d IH]; simpl.
  - intuition.
  - destruct (String.eqb k' k) eqn:E; simpl.
    + apply String.eqb_eq in E. subst. intuition.
    + rewrite IH. intuition.
Qed.

Lemma dict_set_NoDup {V : Type} (d : list (string * V)) (k : string) (v : V) :
  NoDup (map fst d) -> NoDup (map fst (dict_set d k v)).
Proof.
  induction d as [|[k' v'] d IH]; simpl; intros H.
  - repeat constructor. intros [].
  - inversion H as [|? ? Hn Hd]; subst.
    destruct (String.eqb k' k) eqn:E; simpl.
    + apply String.eqb_eq in E. subst. now constructor.
    + constructor; [|auto]. rewrite dict_set_keys_in. intros [->|Hin]; [|auto].
      now rewrite String.eqb_refl in E.
Qed.

Lemma dict_set_length_present {V : Type} (d : list (string * V)) (k : string) (v : V) :
  In k (map fst d) -> List.length (dict_set d k v) = List.length d.
Proof.
  induction d as [|[k' v'] d IH]; simpl; [contradiction|].
  intros H. destruct (String.eqb k' k) eqn:E; simpl; [reflexivity|].
  f_equal. apply IH. destruct H as [->|H]; [|assumption].
  now rewrite String.eqb_refl in E.
Qed.

(** X20. After [register_tool] the name is bound to the new tool and every
    other name to what it was bound to; names stay unique, and
    registering a name again replaces its tool without adding an entry. *)
Theorem register_tool_lookup (tools : registry) (n d : string) (fn : handler) :
  assoc (register_tool n d fn tools) n = Some (Tool n d fn) /\
  (forall other, other <> n ->
     assoc (register_tool n d fn tools) other = assoc tools other) /\
  (NoDup (tool_names tools) -> NoDup (tool_names (register_tool n d fn tools))) /\
  (In n (tool_names tools) ->
   List.length (register_tool n d fn tools) = List.length tools).
Proof.
  unfold register_tool, tool_names. repeat split.
  - apply assoc_dict_set_same.
  - intros other H. now apply assoc_dict_set_other.
  - apply dict_set_NoDup.
  - apply dict_set_length_present.
Qed.



Section WithStr.
Variable py_str : json -> string.

(** X22. A lookup tool called without the argument it reads raises
    [KeyError], whatever the backend would have answered. *)
Theorem lookup_tool_missing_argument (b : backend) (tool_name key : string)
    (args : dict) :
  In (tool_name, key) lookup_tools ->
  dict_get args key = None ->
  call_tool (TOOLS py_str) b tool_name args = Raise KeyError.
Proof.
  intros Hin Hk. simpl in Hin.
  repeat (destruct Hin as [[= <- <-]|Hin];
          [unfold call_tool; cbn;
           unfold get_user, get_booking_by_id, get_bookings_by_user,
             get_booking_by_reference, getitem; now rewrite Hk|]).
  contradiction.
Qed.

(** X23. Every endpoint of the backend has its tool: the tool requests
    that endpoint, with its arguments as the body of a POST, or with the
    argument it reads at the end of the path of a GET, and returns what
    this one request gives, the decoded answer as it is or the
    exception. *)
Theorem call_tool_forwards (b : backend) (tool_name path : string)
    (method : http_method) (key : option string) (args : dict) :
  In (tool_name, (method, path, key)) endpoints ->
  match key with
  | None =>
      method = POST /\
      call_tool (TOOLS py_str) b tool_name args
      = post_json (b (Request POST path (Some args)))
  | Some k =>
      method = GET /\
      forall v, dict_get args k = Some v ->
        call_tool (TOOLS py_str) b tool_name args
        = post_json (b (Request GET (path ++ py_str v) None))
  end.
Proof.
  intros Hin. simpl in Hin.
  repeat (destruct Hin as [[= <- <- <- <-]|Hin];
          [split; [reflexivity|];
           first [ reflexivity
                 | intros v Hv; unfold call_tool; cbn;
                   unfold get_user, get_booking_by_id, get_bookings_by_user,
                     get_booking_by_reference, getitem;
                   rewrite Hv; reflexivity ]|]).
  contradiction.
Qed.
End WithStr.
End ToolServerFacts.

(** ** The scripted client *)

Module ChatAgentFacts.
Import ChatAgent.

Section Facts.
Context {U : unicode} {F : floats}.

Lemma flt_trans (x y z : pyfloat) :
  flt x y = true -> flt y z = true -> flt x z = true.
Proof.
  destruct x as [|[|]|a], y as [|[|]|b], z as [|[|]|c];
    try discriminate; try reflexivity.
  simpl. rewrite !negb_true_iff. intros Hab Hbc.
  destruct (Qle_bool c a) eqn:E; [|reflexivity]. exfalso.
  apply Qle_bool_iff in E.
  assert (Hab' : ~ (b <= a)%Q) by (rewrite <- Qle_bool_iff; congruence).
  assert (Hbc' : ~ (c <= b)%Q) by (rewrite <- Qle_bool_iff; congruence).
  apply Qnot_le_lt in Hab', Hbc'.
  apply (Qlt_irrefl a). eapply Qlt_le_trans; [|exact E].
  eapply Qlt_trans; eauto.
Qed.

(** Below [z], and [z] not above [y]: below [y]. *)
Lemma flt_le_trans (x y z : pyfloat) :
  is_nan y = false -> flt x z = true -> flt y z = false -> flt x y = true.
Proof.
  destruct x as [|[|]|a], y as [|[|]|b], z as [|[|]|c];
    try discriminate; try reflexivity.
  simpl. rewrite !negb_true_iff, negb_false_iff. intros _ Hac Hcb.
  destruct (Qle_bool b a) eqn:E; [|reflexivity]. exfalso.
  apply Qle_bool_iff in E, Hcb.
  assert (Hac' : ~ (c <= a)%Q) by (rewrite <- Qle_bool_iff; congruence).
  apply Hac'. eapply Qle_trans; eauto.
Qed.

Lemma min_by_key_in (b : pyfloat * dict) (l : list (pyfloat * dict)) :
  In (min_by_key b l) (b :: l).
Proof.
  revert b. induction l as [|y l IH]; intros b; simpl; [auto|].
  destruct (IH (if flt (fst y) (fst b) then y else b)) as [H|H]; [|auto].
  rewrite <- H. destruct (flt (fst y) (fst b)); auto.
Qed.

(** The first of the cheapest items, computed from the right. *)
Lemma min_by_key_cons (b y : pyfloat * dict) (l : list (pyfloat * dict)) :
  nan_free (y :: l) = true ->
  min_by_key b (y :: l)
  = if flt (fst (min_by_key y l)) (fst b) then min_by_key y l else b.
Proof.
  revert b y. induction l as [|z l IH]; intros b y N.
  - reflexivity.
  - assert (Nzl : nan_free (z :: l) = true)
      by (simpl in N; apply andb_true_iff in N; apply N).
    assert (Ny : is_nan (fst y) = false).
    { simpl in N. apply andb_true_iff in N as [N _]. now apply negb_true_iff. }
    change (min_by_key b (y :: z :: l))
      with (min_by_key (if flt (fst y) (fst b) then y else b) (z :: l)).
    rewrite IH by assumption. rewrite (IH y z) by assumption.
    set (m := min_by_key z l).
    destruct (flt (fst y) (fst b)) eqn:Hyb;
      destruct (flt (fst m) (fst y)) eqn:Hmy.
    all: try reflexivity.
    + now rewrite (flt_trans _ _ _ Hmy Hyb).
    + now rewrite Hyb.
    + rewrite Hyb. destruct (flt (fst m) (fst b)) eqn:Hmb; [|reflexivity].
      now rewrite (flt_le_trans _ _ _ Ny Hmb Hyb) in Hmy.
Qed.

Lemma insertion_head (k : pyfloat * dict) (l : list (pyfloat * dict)) :
  nan_free l = true ->
  exists rest, fold_right insert_by_key [] (k :: l) = min_by_key k l :: rest.
Proof.
  revert k. induction l as [|y l IH]; intros k N.
  - exists []. reflexivity.
  - assert (Nl : nan_free l = true)
      by (simpl in N; apply andb_true_iff in N; apply N).
    destruct (IH y Nl) as (rest & Hy).
    change (fold_right insert_by_key [] (k :: y :: l))
      with (insert_by_key k (fold_right insert_by_key [] (y :: l))).
    rewrite Hy, min_by_key_cons by assumption. simpl.
    destruct (flt (fst (min_by_key y l)) (fst k)); eauto.
Qed.

(** X24. When no price is nan, the offer that the scripted client picks
    with [min] is the first of the list that [get_cheapest_flights]
    builds from the same search result. *)
Theorem cheapest_of_heads_the_list (flights : json) (items : list json)
    (c : dict) :
  py_iter flights = Ok items ->
  Forall (fun item => price_of item <> Ok NaN) items ->
  cheapest_of flights = Ok c ->
  exists rest, get_cheapest_flights flights = Ok (c :: rest).
Proof.
  intros I N. unfold cheapest_of, get_cheapest_flights. rewrite I. cbn [bind].
  destruct (mapM keyed items) as [[|k ks]|] eqn:M; try discriminate.
  cbn [bind]. intros [= <-].
  pose proof (keyed_nan_free items (k :: ks) M N) as Hn.
  unfold sorted_by_key. rewrite Hn.
  destruct (insertion_head k ks) as (rest & ->).
  - simpl in Hn. apply andb_true_iff in Hn. apply Hn.
  - eexists. reflexivity.
Qed.

(** X25. The scripted client gets as far as "Booking Successful!" only
    when the answer to the confirmation question is "yes" in some letter
    case and the booking request is answered with JSON; the request then
    carries the offer id of the offer picked with [min] and the
    departure date as it was typed, and what is shown after that line
    comes from the answer, if it is an object.  With any other answer to
    the question nothing depends on the booking request. *)
Theorem main_books_only_on_yes (origin destination depart_date confirm : string)
    (search book : http_outcome) :
  (forall payload shown,
     main origin destination depart_date confirm search book
     = Ok (Booked payload shown) ->
     lower (strip confirm) = "yes" /\
     dict_get payload "departDate" = Some (JStr (strip depart_date)) /\
     (exists flights c,
        call_tool search = Ok flights /\
        cheapest_of flights = Ok c /\
        dict_get payload "offerId" = dict_get c "offerId") /\
     exists answer,
       call_tool book = Ok answer /\
       forall fields, answer = JObj fields ->
         shown = Ok (dict_get fields "bookingReference", dict_get fields "id"))
  /\ (lower (strip confirm) <> "yes" ->
      forall book',
        main origin destination depart_date confirm search book
        = main origin destination depart_date confirm search book').
Proof.
  unfold main, ask. split.
  - intros payload shown.
    destruct (call_tool search) as [flights|]; [|discriminate]. cbn [bind].
    destruct (negb (truthy flights)); [discriminate|].
    destruct (cheapest_of flights) as [c|] eqn:C; [|discriminate].
    cbn [bind].
    destruct (require_keys c shown_keys); [|discriminate]. cbn [bind].
    destruct (String.eqb (lower (strip confirm)) "yes") eqn:Y; [|discriminate].
    cbn [negb]. unfold getitem.
    destruct (dict_get c "offerId") as [offer|] eqn:O; [|discriminate].
    cbn [bind].
    destruct (call_tool book) as [answer|]; [|discriminate].
    cbn [bind]. intros [= <- <-].
    apply String.eqb_eq in Y.
    repeat split; auto.
    + exists flights, c. auto.
    + exists answer. split; [reflexivity|]. now intros fields ->.
  - intros Hno book'.
    destruct (call_tool search) as [flights|]; [|reflexivity]. cbn [bind].
    destruct (negb (truthy flights)); [reflexivity|].
    destruct (cheapest_of flights) as [c|]; [|reflexivity].
    cbn [bind].
    destruct (require_keys c shown_keys); [|reflexivity]. cbn [bind].
    apply String.eqb_neq in Hno. rewrite Hno. reflexivity.
Qed.
End Facts.
End ChatAgentFacts.

(** * The properties at the samples

    Each property that has a hypothesis, applied to the sample tables and
    the sample conversation, and the inputs at which a claim of the
    specification fails. *)

Section Samples.

#[local] Existing Instance sample_unicode.
#[local] Existing Instance sample_floats.

(** ** Parsing and extraction *)

Lemma parse_passenger_details_prefix_witness :
  parse_passenger_details "  Asha Rao 1990-01-02 first class, window seat"
  = Some (Passenger "Asha" "Rao" "1990-01-02" "FIRST").
Proof.
  apply (proj1 (parse_passenger_details_prefix
                  "  Asha Rao 1990-01-02 first class, window seat")).
  exists (chars "Asha"), (chars "Rao"), (chars "1990-01-02"), (chars "first").
  split; [|reflexivity].
  exists [" "%char], [" "%char], [" "%char], (chars " class, window seat").
  repeat split; try discriminate; try reflexivity.
  - exists (chars "1990"), (chars "01"), (chars "02"). repeat split.
  - exists "FIRST". split; [simpl; auto|].
    repeat constructor.
Defined.

(** With U+0130 for the i of "first" the line is accepted, as
    [re.IGNORECASE] takes U+0130 for i, and the class that comes back,
    "F", U+0130, "RST", is none of the three names. *)
Lemma dotted_class_is_accepted :
  parse_passenger_details dotted_first
  = Some (Passenger "A" "B" "2000-01-01" ("F" ++ String dotted_I "RST")) /\
  ~ In ("F" ++ String dotted_I "RST")%string class_names.
Proof.
  split; [vm_compute; reflexivity|].
  simpl. intros [H|[H|[H|[]]]]; discriminate H.
Qed.




Lemma detect_intent_booking_verb_witness :
  whole_word_in "book" (lower "Please BOOK, now") /\
  detect_intent "GENERAL_CHAT" "Please BOOK, now" = "BOOK_FLIGHT".
Proof.
  assert (H : whole_word_in "book" (lower "Please BOOK, now")).
  { exists (chars "please "), (chars ", now"). repeat split; reflexivity. }
  split; [exact H|].
  apply detect_intent_booking_verb. left. exact H.
Defined.

(** Outside ASCII: "BOO" followed by U+212A is "book" once in lower case,
    and "book" after U+00E9 is not a word of its own. *)
Lemma booking_verb_outside_ascii :
  detect_intent "GENERAL_CHAT" ("BOO" ++ String kelvin "") = "BOOK_FLIGHT" /\
  detect_intent "GENERAL_CHAT" (String e_acute "book") = "GENERAL_CHAT".
Proof. split; vm_compute; reflexivity. Qed.

Lemma detect_intent_follows_oracle_witness :
  detect_intent " SEARCH_FLIGHTS " "any flights on my booking day?"
  = strip " SEARCH_FLIGHTS ".
Proof.
  apply detect_intent_follows_oracle;
    intros H;
    assert (E : found (Re.search false intent_re
                         (lower "any flights on my booking day?")) = true)
      by (apply booking_verb_found_iff; auto);
    vm_compute in E; discriminate.
Defined.

Lemma scan_cities_finds_witness :
  (forall code, Some "BOM" = Some code ->
                named_after "from " "flights from mumbai to delhi" code) /\
  (forall code, Some "DEL" = Some code ->
                named_after "to " "flights from mumbai to delhi" code) /\
  (Some "BOM" = None <->
   forall city code, In (city, code) city_map ->
     contains ("from " ++ city) "flights from mumbai to delhi" = false) /\
  (Some "DEL" = None <->
   forall city code, In (city, code) city_map ->
     contains ("to " ++ city) "flights from mumbai to delhi" = false).
Proof.
  apply (scan_cities_finds "flights from mumbai to delhi").
  vm_compute. reflexivity.
Defined.

Lemma scan_cities_last_city_wins_witness :
  fst (scan_cities "from mumbai or from delhi") = Some "DEL" /\
  fst (scan_cities "from delhi or from mumbai") = Some "DEL".
Proof.
  split.
  - apply (scan_cities_last_city_wins "from mumbai or from delhi" "delhi" "DEL"
             [("mumbai", "BOM"); ("bombay", "BOM")]
             [("bengaluru", "BLR"); ("bangalore", "BLR"); ("kolkata", "CCU");
              ("ranchi", "IXR")] eq_refl); [reflexivity|].
    intros c k Hin. simpl in Hin.
    repeat (destruct Hin as [[= <- <-]|Hin]; [reflexivity|]). contradiction.
  - apply (scan_cities_last_city_wins "from delhi or from mumbai" "delhi" "DEL"
             [("mumbai", "BOM"); ("bombay", "BOM")]
             [("bengaluru", "BLR"); ("bangalore", "BLR"); ("kolkata", "CCU");
              ("ranchi", "IXR")] eq_refl); [reflexivity|].
    intros c k Hin. simpl in Hin.
    repeat (destruct Hin as [[= <- <-]|Hin]; [reflexivity|]). contradiction.
Defined.

Lemma date_match_resolves_witness :
  exists m, Re.search false date_re "on 31 feb" = Some m /\
  exists dd mm, day_month m = Ok (dd, mm) /\
                (0 <= dd <= 99)%Z /\ (1 <= mm <= 12)%Z.
Proof.
  eexists. split; [vm_compute; reflexivity|].
  apply (date_match_resolves "on 31 feb"). vm_compute. reflexivity.
Defined.

(** ** The sample conversation, step by step *)

Lemma sample_found_reachable : reachable sample_found.
Proof.
  apply reach_step with (s := initial_session) (t := sample_search).
  - constructor.
  - vm_compute. reflexivity.
Qed.

Lemma sample_awaiting_reachable : reachable sample_awaiting.
Proof.
  apply reach_step with (s := sample_found) (t := sample_select "book option 2").
  - exact sample_found_reachable.
  - vm_compute. reflexivity.
Qed.

Lemma sample_search_numeric : numeric_answer sample_search.
Proof.
  intros response items [= <-] [= <-].
  repeat constructor; vm_compute; discriminate.
Qed.

Lemma sample_found_numeric : reachable_numeric sample_found.
Proof.
  apply numeric_step with (s := initial_session) (t := sample_search).
  - constructor.
  - exact sample_search_numeric.
  - vm_compute. reflexivity.
Qed.

Lemma nan_found_reachable : reachable nan_found.
Proof.
  apply reach_step with (s := initial_session) (t := nan_search).
  - constructor.
  - vm_compute. reflexivity.
Qed.

Lemma awaiting_has_selection_witness :
  selected_flight sample_awaiting <> None.
Proof.
  apply (proj1 awaiting_has_selection sample_awaiting).
  - exact sample_awaiting_reachable.
  - reflexivity.
Defined.

Lemma booking_failure_ends_loop_witness :
  step (sample_booking (NoConnection "refused")) sample_awaiting
  = Crash ConnectionError /\
  step (sample_booking (Response 500 None "Internal Server Error"))
    sample_awaiting
  = Crash JSONDecodeError /\
  step (sample_booking (Response 200 (Some (JArr [])) "")) sample_awaiting
  = Crash AttributeError.
Proof.
  assert (H : forall answer, _ /\ _ /\ _)
    by (intros answer;
        exact (booking_failure_ends_loop sample_awaiting (sample_booking answer)
                 (Passenger "John" "Doe" "1990-01-02" "BUSINESS") _
                 eq_refl eq_refl eq_refl eq_refl)).
  split; [|split].
  - destruct (H (NoConnection "refused")) as (H1 & _ & _).
    now apply (H1 "refused").
  - destruct (H (Response 500 None "Internal Server Error")) as (_ & H2 & _).
    now apply (H2 500%Z "Internal Server Error").
  - destruct (H (Response 200 (Some (JArr [])) "")) as (_ & _ & H3).
    apply (H3 200%Z (JArr []) ""); [reflexivity|discriminate].
Defined.

(** An answer that is an object resets the session, with or without a
    booking reference. *)
Lemma booking_resets_session_sample :
  step (sample_booking offer_expired) sample_awaiting
  = Continue (Session IDLE [] None).
Proof.
  eapply (booking_resets_session sample_awaiting (sample_booking offer_expired));
    reflexivity.
Qed.

Lemma book_option_2_selects_second_witness :
  exists f,
    nth_error (last_flights sample_found) 1 = Some f /\
    step (sample_select "book option 2") sample_found
    = Continue (Session AWAITING_PASSENGER_DETAILS (last_flights sample_found)
                  (Some f)).
Proof.
  apply (book_option_2_selects_second sample_found
           (sample_select "book option 2")).
  - exact sample_found_reachable.
  - reflexivity.
  - simpl. lia.
  - reflexivity.
Defined.

Lemma book_option_index_unchecked_witness :
  step (sample_select "book option 3") sample_found
  = Continue (Session AWAITING_PASSENGER_DETAILS (last_flights sample_found)
                (Some (sample_offer "A1" 30))) /\
  step (sample_select "book option 4") sample_found = Crash IndexError /\
  (exists pre f,
     last_flights sample_found = pre ++ [f] /\
     step (sample_select "book option 0") sample_found
     = Continue (Session AWAITING_PASSENGER_DETAILS (last_flights sample_found)
                   (Some f)) /\
     forall g, In g (last_flights sample_found) -> price_le g f) /\
  step (sample_select ("book option " ++ str long_number)) sample_found
  = Crash ValueError.
Proof.
  assert (H : forall n : string,
             chars n <> [] -> forallb ascii_digit (chars n) = true ->
             _ /\ _)
    by (intros n Hne Hd;
        exact (book_option_index_unchecked sample_found
                 (sample_select ("book option " ++ n)) n
                 sample_found_reachable eq_refl eq_refl Hne Hd)).
  assert (Short : forall n : string,
             List.length (chars n) = 1 -> List.length (chars n) <= max_str_digits)
    by (intros n ->; unfold max_str_digits; lia).
  split; [|split; [|split]].
  - destruct (H "3" ltac:(discriminate) eq_refl) as (H1 & _).
    destruct (H1 (Short "3" eq_refl)) as (Hsel & _ & _).
    destruct Hsel as (f & Hf & Hstep); [split; vm_compute; discriminate|].
    injection Hf as <-. exact Hstep.
  - destruct (H "4" ltac:(discriminate) eq_refl) as (H1 & _).
    destruct (H1 (Short "4" eq_refl)) as (_ & Hcrash & _).
    apply Hcrash. vm_compute. reflexivity.
  - destruct (H "0" ltac:(discriminate) eq_refl) as (H1 & _).
    destruct (H1 (Short "0" eq_refl)) as (_ & _ & Hlast).
    destruct (Hlast eq_refl) as (pre & f & Hl & Hstep & Hmax).
    exists pre, f. repeat split; auto. apply Hmax. exact sample_found_numeric.
  - destruct (H (str long_number)) as (_ & H2).
    + vm_compute. discriminate.
    + vm_compute. reflexivity.
    + apply H2. vm_compute. lia.
Defined.

(** Where the claim fails.  After a search answered with the prices 3,
    "nan" and 1, which [sorted] leaves in that order, "book option 0"
    selects the offer priced 1, the cheapest and not the most expensive
    of the cached offers.  And "book option N" with an N of 4301 digits,
    far beyond the three cached offers, ends the loop with [ValueError],
    not with [IndexError]. *)
Lemma book_option_0_not_most_expensive :
  reachable nan_found /\
  step (sample_select "book option 0") nan_found
  = Continue (Session AWAITING_PASSENGER_DETAILS (last_flights nan_found)
                (Some (sample_offer "C3" 1))) /\
  price_le (sample_offer "C3" 1) (sample_offer "A1" 3) /\
  ~ price_le (sample_offer "A1" 3) (sample_offer "C3" 1) /\
  reachable sample_found /\
  (Z.of_nat (List.length (last_flights sample_found))
   < digits_value long_number)%Z /\
  step (sample_select ("book option " ++ str long_number)) sample_found
  = Crash ValueError.
Proof.
  split; [exact nan_found_reachable|].
  split; [vm_compute; reflexivity|].
  split; [exists (Finite 1), (Finite 3); repeat split; vm_compute; reflexivity|].
  split.
  { intros (x & y & Hx & Hy & Hle). vm_compute in Hx, Hy.
    injection Hx as <-. injection Hy as <-. vm_compute in Hle. discriminate. }
  split; [exact sample_found_reachable|].
  split; [vm_compute; reflexivity|].
  vm_compute. reflexivity.
Qed.

(** ** Prices in order *)

Lemma get_cheapest_flights_cheapest_witness :
  exists rest,
    Permutation (map JObj (last_flights sample_found ++ rest)) sample_items /\
    List.length (last_flights sample_found) = Nat.min 7 (List.length sample_items) /\
    (Forall (fun item => price_of item <> Ok NaN) sample_items ->
     cheapest_first (last_flights sample_found) /\
     forall a b, In a (last_flights sample_found) -> In b rest -> price_le a b).
Proof.
  apply (get_cheapest_flights_cheapest sample_items (last_flights sample_found)).
  vm_compute. reflexivity.
Defined.

Lemma sample_items_numeric :
  Forall (fun item => price_of item <> Ok NaN) sample_items.
Proof. repeat constructor; vm_compute; discriminate. Qed.

Lemma get_cheapest_flights_idempotent_witness :
  get_cheapest_flights (JArr (map JObj (last_flights sample_found)))
  = Ok (last_flights sample_found).
Proof.
  apply (get_cheapest_flights_idempotent (JArr sample_items) sample_items).
  - reflexivity.
  - exact sample_items_numeric.
  - vm_compute. reflexivity.
Defined.

Lemma reachable_session_shape_witness :
  session_shape sample_awaiting /\
  List.length (last_flights sample_awaiting) <= 7 /\
  Forall displayable (last_flights sample_awaiting) /\
  (reachable_numeric sample_awaiting -> cheapest_first (last_flights sample_awaiting)).
Proof.
  apply (reachable_session_shape sample_awaiting).
  exact sample_awaiting_reachable.
Defined.

Lemma cached_offers_change_witness :
  last_flights sample_found = last_flights initial_session \/
  (last_flights sample_found = [] /\ conversation_state sample_found = IDLE) \/
  (conversation_state initial_session = IDLE /\
   conversation_state sample_found = SEARCH_DONE).
Proof.
  apply (cached_offers_change sample_search).
  vm_compute. reflexivity.
Defined.

(** ** The loop *)

Lemma booking_verb_when_idle_witness :
  step (sample_select "Book me a flight to Delhi") initial_session
  = Continue initial_session.
Proof.
  apply booking_verb_when_idle; [|reflexivity].
  left. exists [], (chars " me a flight to delhi"). repeat split; reflexivity.
Defined.

Lemma invalid_passenger_line_witness :
  step (sample_select "John 1990-01-02 economy") sample_awaiting
  = Continue sample_awaiting.
Proof.
  apply invalid_passenger_line;
    [reflexivity | vm_compute; reflexivity | discriminate | discriminate].
Defined.

Lemma decline_resets_witness :
  step (sample_select "No, thanks") sample_found
  = Continue (Session IDLE [] None).
Proof.
  apply (decline_resets (sample_select "No, thanks") sample_found "no").
  - left. reflexivity.
  - exists [], (chars ", thanks"). repeat split; reflexivity.
  - reflexivity.
  - vm_compute. reflexivity.
  - discriminate.
  - discriminate.
Defined.

Lemma select_defaults_to_first_witness :
  exists f rest,
    last_flights sample_found = f :: rest /\
    step (sample_select "book 3") sample_found
    = Continue (Session AWAITING_PASSENGER_DETAILS (last_flights sample_found)
                  (Some f)) /\
    (reachable_numeric sample_found ->
     forall g, In g (last_flights sample_found) -> price_le f g).
Proof.
  apply (select_defaults_to_first (sample_select "book 3") sample_found).
  - exact sample_found_reachable.
  - reflexivity.
  - vm_compute. reflexivity.
  - vm_compute. reflexivity.
Defined.

Lemma undated_awaiting_reachable : reachable undated_awaiting.
Proof.
  apply reach_step with (s := Session SEARCH_DONE [undated_offer] None)
                        (t := sample_select "book cheapest").
  - apply reach_step with (s := initial_session) (t := undated_search).
    + constructor.
    + vm_compute. reflexivity.
  - vm_compute. reflexivity.
Qed.

Lemma booking_payload_in_reach_witness :
  KeyError = KeyError /\
  exists f, selected_flight undated_awaiting = Some f /\
            dict_get f "departDate" = None.
Proof.
  apply (booking_payload_in_reach undated_awaiting
           (Passenger "John" "Doe" "1990-01-02" "BUSINESS") KeyError).
  - exact undated_awaiting_reachable.
  - reflexivity.
  - reflexivity.
Defined.

(** ** The tool server and the scripted client *)

Lemma register_tool_lookup_witness :
  List.length (ToolServer.register_tool "ping" "Health check, again"
                 (ToolServer.ping) (ToolServer.TOOLS sample_str))
  = List.length (ToolServer.TOOLS sample_str).
Proof.
  apply (ToolServerFacts.register_tool_lookup (ToolServer.TOOLS sample_str)).
  vm_compute. tauto.
Defined.


Lemma lookup_tool_missing_argument_witness :
  ToolServer.call_tool (ToolServer.TOOLS sample_str) sample_backend
    "get_user" [("id", JNum 7)]
  = Raise KeyError.
Proof.
  apply (ToolServerFacts.lookup_tool_missing_argument sample_str sample_backend
           "get_user" "userId").
  - left. reflexivity.
  - reflexivity.
Defined.

Lemma call_tool_forwards_witness :
  ToolServer.call_tool (ToolServer.TOOLS sample_str) sample_backend
    "get_bookings_by_user" [("userId", JStr "42")]
  = Ok (JObj [("path", JStr "/bookings/user/42")]).
Proof.
  refine (proj2 (ToolServerFacts.call_tool_forwards sample_str sample_backend
                   "get_bookings_by_user" "/bookings/user/" ToolServer.GET
                   (Some "userId") [("userId", JStr "42")] _)
            (JStr "42") eq_refl).
  simpl. tauto.
Defined.

Lemma cheapest_of_heads_the_list_witness :
  exists rest,
    get_cheapest_flights (JArr sample_items)
    = Ok (sample_offer "B2" 10 :: rest).
Proof.
  apply (ChatAgentFacts.cheapest_of_heads_the_list (JArr sample_items)
           sample_items).
  - reflexivity.
  - exact sample_items_numeric.
  - vm_compute. reflexivity.
Defined.

(** With the prices 3, "nan" and 1, [min] picks the offer priced 1, and
    the list that [sorted] leaves starts with the offer priced 3. *)
Lemma min_and_sorted_with_nan :
  ChatAgent.cheapest_of (JArr nan_items) = Ok (sample_offer "C3" 1) /\
  get_cheapest_flights (JArr nan_items) = Ok (last_flights nan_found).
Proof. split; vm_compute; reflexivity. Qed.

(** The prices 2^53 + 1 and 2^53 are the same float, so the two offers
    stay in the order in which they came. *)
Lemma equal_floats_keep_their_order :
  price_of (JObj (sample_offer "A1" (inject_Z (2 ^ 53 + 1))))
  = price_of (JObj (sample_offer "B2" (inject_Z (2 ^ 53)))) /\
  get_cheapest_flights (JArr close_items)
  = Ok [sample_offer "A1" (inject_Z (2 ^ 53 + 1));
        sample_offer "B2" (inject_Z (2 ^ 53))].
Proof. split; vm_compute; reflexivity. Qed.

(** Outside ASCII elsewhere: U+00A0 is stripped; "no" after U+00E9 is no
    word of its own, so the offers stay; and the Arabic-Indic digit
    three is read by the date pattern and by [int]. *)
Lemma other_characters_outside_ascii :
  strip (String no_break_space " x ") = "x" /\
  step (sample_select (String e_acute "no")) sample_found
  = Continue sample_found /\
  extract_search_params (Date 2026 11 3) None
    ("flights from mumbai to delhi on " ++ String arabic_three " dec")
  = Ok (search_params "BOM" "DEL" "2026-12-03").
Proof. repeat split; vm_compute; reflexivity. Qed.

Lemma main_books_only_on_yes_witness :
  lower (strip " YES ") = "yes" /\
  dict_get (ChatAgent.booking_args (JStr "B2") "2026-12-05") "departDate"
  = Some (JStr (strip " 2026-12-05 ")) /\
  (exists flights c,
     ChatAgent.call_tool (Response 200 (Some (JArr sample_items)) "") = Ok flights /\
     ChatAgent.cheapest_of flights = Ok c /\
     dict_get (ChatAgent.booking_args (JStr "B2") "2026-12-05") "offerId"
     = dict_get c "offerId") /\
  exists answer,
    ChatAgent.call_tool
      (Response 200 (Some (JObj [("bookingReference", JStr "REF1");
                                 ("id", JNum 42)])) "")
    = Ok answer /\
    forall fields, answer = JObj fields ->
      Ok (Some (JStr "REF1"), Some (JNum 42))
      = Ok (dict_get fields "bookingReference", dict_get fields "id").
Proof.
  apply (proj1 (ChatAgentFacts.main_books_only_on_yes "BOM" "DEL"
                  " 2026-12-05 " " YES "
                  (Response 200 (Some (JArr sample_items)) "")
                  (Response 200
                     (Some (JObj [("bookingReference", JStr "REF1");
                                  ("id", JNum 42)])) ""))
           _ (Ok (Some (JStr "REF1"), Some (JNum 42)))).
  vm_compute. reflexivity.
Defined.

End Samples.
